(** * Book_store: the order fulfilment pipeline

    A shallow embedding of the order pipeline of the bookstore backend
    (services/order_processing.py, services/inventory_management.py,
    services/shipping_service.py, services/notification_service.py,
    services/email_services.py, messaging/rabbitmq_handler.py and the order
    routes of api/routes.py), and the properties of it that hold or fail.

    Modelling conventions.
    - Python handlers are computations in a state-and-exception monad over a
      [World]: the committed rows of the store, the rows as the running
      SQLAlchemy session sees them, the two RabbitMQ queues, the Socket.IO
      events emitted, the shipping threads started, the mails sent and the
      log.
    - What the environment decides (whether a commit is accepted, whether
      the broker takes a message, whether the mail goes out) is read from
      the [World] as well, so every handler is a function that computes.
    - Handlers run one after the other; interleavings of the worker threads
      are not modelled, and an application context is taken to be present.
    - JSON numbers are integers; the creation timestamp, the price and the
      description columns play no part and are left out. *)

From Stdlib Require Import ZArith Bool List Lia Ascii.
From stdpp Require Import base option list gmap strings.

Local Set Warnings "-register-all".
Local Open Scope Z_scope.

(* ===================================================================== *)
(** * Python values, exceptions and results                               *)
(* ===================================================================== *)

Module Py.

(** A decoded JSON document ([json.loads], [request.json]). A dict is kept
    as the list of its entries in insertion order. *)
Inductive json : Type :=
| JNull
| JBool (b : bool)
| JNum (n : Z)
| JStr (s : string)
| JList (l : list json)
| JObj (kv : list (string * json)).

(** The exceptions the pipeline can meet; all derive from [Exception]. *)
Inductive exn : Type :=
| AttributeError          (* attribute access on None *)
| KeyError                (* missing dict key *)
| TypeError               (* subscript, iteration or comparison on a wrong type *)
| NotFound                (* werkzeug 404, raised by get_or_404 *)
| InsufficientStockError  (* services/inventory_management.py *)
| SQLAlchemyError         (* the store refused a flush or a commit *)
| OSError.                (* the resource file could not be opened *)

Inductive result (A : Type) : Type :=
| Ok (a : A)
| Raise (e : exn).
Arguments Ok {A} a.
Arguments Raise {A} e.

Definition exn_text (e : exn) : string :=
  match e with
  | AttributeError => "AttributeError"
  | KeyError => "KeyError"
  | TypeError => "TypeError"
  | NotFound => "404 Not Found"
  | InsufficientStockError => "Insufficient stock"
  | SQLAlchemyError => "SQLAlchemyError"
  | OSError => "OSError"
  end.

(** [bool(v)], as used by [if not data]. *)
Definition truthy (v : json) : bool :=
  match v with
  | JNull => false
  | JBool b => b
  | JNum n => negb (n =? 0)
  | JStr s => match s with EmptyString => false | String _ _ => true end
  | JList l => match l with [] => false | _ :: _ => true end
  | JObj kv => match kv with [] => false | _ :: _ => true end
  end.

Fixpoint assoc (k : string) (kv : list (string * json)) : option json :=
  match kv with
  | [] => None
  | (k', v) :: rest => if String.eqb k k' then Some v else assoc k rest
  end.

(** [v[k]] for a string key [k]. *)
Definition getitem (v : json) (k : string) : result json :=
  match v with
  | JObj kv => match assoc k kv with
               | Some x => Ok x
               | None => Raise KeyError
               end
  | _ => Raise TypeError
  end.

Fixpoint chars (s : string) : list json :=
  match s with
  | EmptyString => []
  | String c rest => JStr (String c EmptyString) :: chars rest
  end.

(** The elements [for item in v] runs over. *)
Definition iter (v : json) : result (list json) :=
  match v with
  | JList l => Ok l
  | JStr s => Ok (chars s)
  | JObj kv => Ok (map (fun p => JStr (fst p)) kv)
  | _ => Raise TypeError
  end.

(** The integer a value stands for ([bool] is a subclass of [int]). *)
Definition as_int (v : json) : option Z :=
  match v with
  | JNum n => Some n
  | JBool b => Some (if b then 1 else 0)
  | _ => None
  end.

(** [n < v] for an integer [n]. *)
Definition int_lt (n : Z) (v : json) : result bool :=
  match as_int v with
  | Some q => Ok (n <? q)
  | None => Raise TypeError
  end.

(** [n - v] for an integer [n]. *)
Definition int_sub (n : Z) (v : json) : result Z :=
  match as_int v with
  | Some q => Ok (n - q)
  | None => Raise TypeError
  end.

(** The objects compared by the shipping code: a boolean or a function. *)
Inductive pyobj : Type :=
| PyBool (b : bool)
| PyFunction (name : string).

(** [a == b]: a function object is equal to itself only. *)
Definition py_eq (a b : pyobj) : bool :=
  match a, b with
  | PyBool x, PyBool y => Bool.eqb x y
  | PyFunction f, PyFunction g => String.eqb f g
  | _, _ => false
  end.

End Py.
Export Py.

(* ===================================================================== *)
(** * api/models.py                                                       *)
(* ===================================================================== *)

Inductive OrderStatus : Type :=
| PENDING | PROCESSING | SHIPPED | DELIVERED | CANCELLED.

Definition value (s : OrderStatus) : string :=
  match s with
  | PENDING => "pending"
  | PROCESSING => "processing"
  | SHIPPED => "shipped"
  | DELIVERED => "delivered"
  | CANCELLED => "cancelled"
  end.

Global Instance OrderStatus_eq_dec : EqDecision OrderStatus.
Proof. solve_decision. Defined.

(** Rows are keyed by their primary key in the tables below. *)
Record User : Type := mkUser {
  username : string;
  email : string;
  is_admin : bool
}.

Record Book : Type := mkBook {
  title : string;
  author : string;
  pdf_path : option string;
  stock : Z
}.

Record Order : Type := mkOrder {
  user_id : Z;
  book_id : Z;
  status : OrderStatus;
  items : json
}.

Definition set_stock (n : Z) (b : Book) : Book :=
  {| title := title b; author := author b; pdf_path := pdf_path b; stock := n |}.

Definition set_status (s : OrderStatus) (o : Order) : Order :=
  {| user_id := user_id o; book_id := book_id o; status := s; items := items o |}.

(** The tables; [order_seq] is the next auto-increment order id. *)
Record Store : Type := mkStore {
  users : gmap Z User;
  books : gmap Z Book;
  orders : gmap Z Order;
  order_seq : Z
}.

Definition with_books (f : gmap Z Book -> gmap Z Book) (s : Store) : Store :=
  {| users := users s; books := f (books s); orders := orders s;
     order_seq := order_seq s |}.

Definition with_orders (f : gmap Z Order -> gmap Z Order) (s : Store) : Store :=
  {| users := users s; books := books s; orders := f (orders s);
     order_seq := order_seq s |}.

(* ===================================================================== *)
(** * The world the handlers run in                                       *)
(* ===================================================================== *)

(** The body of a queue message, [{'order_id': ..., 'items': ...}]. *)
Record Message : Type := mkMessage {
  msg_order_id : Z;
  msg_items : json
}.

(** A Socket.IO event [order_status_update_<user>] with its payload. *)
Record StatusEvent : Type := mkEvent {
  ev_user : Z;
  ev_order : Z;
  ev_status : string
}.

Inductive LogLine : Type :=
| LogInfo (text : string)
| LogError (text : string).

(** What happens to the mail carrying the book. *)
Inductive MailOutcome : Type :=
| MailSent        (* mail.send returned *)
| MailFailed      (* mail.send raised *)
| NoSuchFile.     (* open_resource raised *)

Record Mail : Type := mkMail {
  mail_to : string;
  mail_title : string
}.

Record World : Type := mkWorld {
  db : Store;                       (* committed rows *)
  sess : Store;                     (* rows as the running session sees them *)
  commit_plan : list bool;          (* coming commits: true = accepted; none left = accepted *)
  broker_up : bool;                 (* basic_publish goes through *)
  mailer : MailOutcome;
  order_processing : list Message;  (* queue 'order_processing', oldest first *)
  inventory_update : list Message;  (* queue 'inventory_update', oldest first *)
  emitted : list StatusEvent;       (* oldest first *)
  shipping_threads : list Z;        (* ship_order threads started, by order id *)
  outbox : list Mail;
  logged : list LogLine
}.

Definition set_db (s : Store) (w : World) : World :=
  {| db := s; sess := sess w; commit_plan := commit_plan w;
     broker_up := broker_up w; mailer := mailer w;
     order_processing := order_processing w;
     inventory_update := inventory_update w; emitted := emitted w;
     shipping_threads := shipping_threads w; outbox := outbox w;
     logged := logged w |}.

Definition set_sess (s : Store) (w : World) : World :=
  {| db := db w; sess := s; commit_plan := commit_plan w;
     broker_up := broker_up w; mailer := mailer w;
     order_processing := order_processing w;
     inventory_update := inventory_update w; emitted := emitted w;
     shipping_threads := shipping_threads w; outbox := outbox w;
     logged := logged w |}.

Definition set_commit_plan (p : list bool) (w : World) : World :=
  {| db := db w; sess := sess w; commit_plan := p;
     broker_up := broker_up w; mailer := mailer w;
     order_processing := order_processing w;
     inventory_update := inventory_update w; emitted := emitted w;
     shipping_threads := shipping_threads w; outbox := outbox w;
     logged := logged w |}.

Definition set_order_processing (q : list Message) (w : World) : World :=
  {| db := db w; sess := sess w; commit_plan := commit_plan w;
     broker_up := broker_up w; mailer := mailer w;
     order_processing := q;
     inventory_update := inventory_update w; emitted := emitted w;
     shipping_threads := shipping_threads w; outbox := outbox w;
     logged := logged w |}.

Definition set_inventory_update (q : list Message) (w : World) : World :=
  {| db := db w; sess := sess w; commit_plan := commit_plan w;
     broker_up := broker_up w; mailer := mailer w;
     order_processing := order_processing w;
     inventory_update := q; emitted := emitted w;
     shipping_threads := shipping_threads w; outbox := outbox w;
     logged := logged w |}.

Definition set_emitted (e : list StatusEvent) (w : World) : World :=
  {| db := db w; sess := sess w; commit_plan := commit_plan w;
     broker_up := broker_up w; mailer := mailer w;
     order_processing := order_processing w;
     inventory_update := inventory_update w; emitted := e;
     shipping_threads := shipping_threads w; outbox := outbox w;
     logged := logged w |}.

Definition set_shipping_threads (t : list Z) (w : World) : World :=
  {| db := db w; sess := sess w; commit_plan := commit_plan w;
     broker_up := broker_up w; mailer := mailer w;
     order_processing := order_processing w;
     inventory_update := inventory_update w; emitted := emitted w;
     shipping_threads := t; outbox := outbox w;
     logged := logged w |}.

Definition set_outbox (o : list Mail) (w : World) : World :=
  {| db := db w; sess := sess w; commit_plan := commit_plan w;
     broker_up := broker_up w; mailer := mailer w;
     order_processing := order_processing w;
     inventory_update := inventory_update w; emitted := emitted w;
     shipping_threads := shipping_threads w; outbox := o;
     logged := logged w |}.

Definition set_logged (l : list LogLine) (w : World) : World :=
  {| db := db w; sess := sess w; commit_plan := commit_plan w;
     broker_up := broker_up w; mailer := mailer w;
     order_processing := order_processing w;
     inventory_update := inventory_update w; emitted := emitted w;
     shipping_threads := shipping_threads w; outbox := outbox w;
     logged := l |}.

(* ===================================================================== *)
(** * The handler monad                                                   *)
(* ===================================================================== *)

Definition M (A : Type) : Type := World -> result A * World.

Definition ret {A} (a : A) : M A := fun w => (Ok a, w).

Definition raise {A} (e : exn) : M A := fun w => (Raise e, w).

Definition bind {A B} (m : M A) (k : A -> M B) : M B :=
  fun w => match m w with
           | (Ok a, w') => k a w'
           | (Raise e, w') => (Raise e, w')
           end.

(** [try: m  except Exception as e: h e]. The state reached when the
    exception was raised is the one the handler starts from. *)
Definition try_except {A} (m : M A) (h : exn -> M A) : M A :=
  fun w => match m w with
           | (Ok a, w') => (Ok a, w')
           | (Raise e, w') => h e w'
           end.

(** Lifting of a pure Python operation that may raise. *)
Definition lift {A} (r : result A) : M A := fun w => (r, w).

Notation "'do' x <- m ; k" := (bind m (fun x => k))
  (at level 10, x name, m at level 100, k at level 200).
Notation "m ;; k" := (bind m (fun _ => k))
  (at level 100, k at level 200, right associativity).

(** A handler starts on a session without pending changes: what an earlier
    unit of work loaded was expired by its commit or rollback, and a request
    or a shipping thread gets a scoped session of its own. *)
Definition fresh_session {A} (m : M A) : M A :=
  fun w => m (set_sess (db w) w).

(** [db.session.commit()]. *)
Definition commit : M unit :=
  fun w => match commit_plan w with
           | false :: plan => (Raise SQLAlchemyError, set_commit_plan plan w)
           | true :: plan => (Ok tt, set_db (sess w) (set_commit_plan plan w))
           | [] => (Ok tt, set_db (sess w) w)
           end.

(** [db.session.rollback()]. *)
Definition rollback : M unit :=
  fun w => (Ok tt, set_sess (db w) w).

(** [current_app.logger.info(...)] and [.error(...)]; the text kept is the
    constant part of the message. *)
Definition log_info (text : string) : M unit :=
  fun w => (Ok tt, set_logged (logged w ++ [LogInfo text]) w).

Definition log_error (text : string) : M unit :=
  fun w => (Ok tt, set_logged (logged w ++ [LogError text]) w).

(* ===================================================================== *)
(** * Queries and attribute access                                        *)
(* ===================================================================== *)

(** A handler's variable bound to [Order.query.get(...)]: [None] is
    Python's None, otherwise the row and its primary key. *)
Definition order_ref : Type := option (Z * Order).

(** [Order.query.get(order_id)]. *)
Definition Order_query_get (order_id : Z) : M order_ref :=
  fun w => (Ok (pair order_id <$> orders (sess w) !! order_id), w).

(** [Order.query.get_or_404(order_id)]. *)
Definition Order_query_get_or_404 (order_id : Z) : M (Z * Order) :=
  fun w => match orders (sess w) !! order_id with
           | Some o => (Ok (order_id, o), w)
           | None => (Raise NotFound, w)
           end.

(** [order.<attribute>]; on None it raises. *)
Definition attr {A} (order : order_ref) (f : Z * Order -> A) : M A :=
  match order with
  | Some row => ret (f row)
  | None => raise AttributeError
  end.

(** [order.status = s]: the object in the session is changed, and with it
    what the handler's variable shows. *)
Definition setattr_status (order : order_ref) (s : OrderStatus) : M order_ref :=
  match order with
  | Some (oid, o) =>
      fun w => (Ok (Some (oid, set_status s o)),
                set_sess (with_orders (alter (set_status s) oid) (sess w)) w)
  | None => raise AttributeError
  end.

(** [Book.query.get(book_id)]. *)
Definition Book_query_get (book_id : Z) : M (option (Z * Book)) :=
  fun w => (Ok (pair book_id <$> books (sess w) !! book_id), w).

(** [Book.query.get_or_404(key)] for a key taken from a message. The keys
    of the statements are integers, booleans or None, and None names no
    row. A string, a list or an object as key is answered as no row here;
    what a store makes of such a key is not modelled. *)
Definition Book_query_get_or_404 (key : json) : M (Z * Book) :=
  fun w => match as_int key with
           | Some book_id =>
               match books (sess w) !! book_id with
               | Some b => (Ok (book_id, b), w)
               | None => (Raise NotFound, w)
               end
           | None => (Raise NotFound, w)
           end.

(** [book.stock = n] on the session's object. *)
Definition setattr_stock (book_id : Z) (n : Z) : M unit :=
  fun w => (Ok tt, set_sess (with_books (alter (set_stock n) book_id) (sess w)) w).

(** [User.query.get(user_id)]. *)
Definition User_query_get (uid : Z) : M (option User) :=
  fun w => (Ok (users (sess w) !! uid), w).

(** A Flask response: [jsonify(payload), code]. *)
Record Response : Type := mkResponse {
  code : Z;
  payload : list (string * json)
}.

Definition jsonify (payload : list (string * json)) (code : Z) : Response :=
  {| code := code; payload := payload |}.

(* ===================================================================== *)
(** * services/notification_service.py                                    *)
(* ===================================================================== *)

Definition send_order_status_update (user_id order_id : Z) (status : string) : M unit :=
  fun w =>
    let w1 := set_emitted (emitted w ++ [mkEvent user_id order_id status]) w in
    log_info "Sent order status update" w1.

(** [send_order_status_update(order.user_id, order.id, order.status.value)],
    the call every handler makes after a status change. *)
Definition notify_status (order : order_ref) : M unit :=
  do u <- attr order (fun r => user_id (snd r));
  do i <- attr order fst;
  do st <- attr order (fun r => value (status (snd r)));
  send_order_status_update u i st.

(* ===================================================================== *)
(** * messaging/rabbitmq_handler.py                                       *)
(* ===================================================================== *)

Module RabbitMQHandler.

Definition publish_order (order_data : Message) : M unit :=
  fun w =>
    if broker_up w
    then log_info "Published order to RabbitMQ"
           (set_order_processing (order_processing w ++ [order_data]) w)
    else log_error "Failed to publish order" w.

Definition publish_inventory_update (update_data : Message) : M unit :=
  fun w =>
    if broker_up w
    then log_info "Published inventory update to RabbitMQ"
           (set_inventory_update (inventory_update w ++ [update_data]) w)
    else log_error "Failed to publish inventory update" w.

(** [start_consuming] on 'order_processing': each message is acknowledged
    on receipt (auto_ack) and handed to the callback; an exception of the
    callback leaves the loop. The loop is run until the messages queued at
    its start are used up; [start_consuming] itself does not return then
    but waits for the next message, so a result without exception stands
    for a consumer that is still waiting. *)
Fixpoint consume_orders (callback : Message -> M unit) (pending : list Message) : M unit :=
  match pending with
  | [] => ret tt
  | body :: rest =>
      (fun w => (Ok tt, set_order_processing rest w)) ;;
      callback body ;;
      consume_orders callback rest
  end.

Definition process_orders (callback : Message -> M unit) : M unit :=
  try_except
    (log_info "Started consuming orders from RabbitMQ" ;;
     fun w => consume_orders callback (order_processing w) w)
    (fun e => log_error "Failed to consume orders").

Fixpoint consume_inventory_updates (callback : Message -> M unit) (pending : list Message) : M unit :=
  match pending with
  | [] => ret tt
  | body :: rest =>
      (fun w => (Ok tt, set_inventory_update rest w)) ;;
      callback body ;;
      consume_inventory_updates callback rest
  end.

Definition process_inventory_updates (callback : Message -> M unit) : M unit :=
  try_except
    (log_info "Started consuming inventory updates from RabbitMQ" ;;
     fun w => consume_inventory_updates callback (inventory_update w) w)
    (fun e => log_error "Failed to consume inventory updates").

End RabbitMQHandler.

(* ===================================================================== *)
(** * services/email_services.py                                          *)
(* ===================================================================== *)

(** [open_resource] is outside the [try]: a missing path or file raises.
    An exception of [mail.send] is caught, logged, and gives [False]. *)
Definition send_book_email (email : string) (file_path : option string)
    (book_title : string) : M bool :=
  match file_path with
  | None => raise TypeError
  | Some _ =>
      fun w => match mailer w with
               | NoSuchFile => (Raise OSError, w)
               | MailFailed => (log_error "Error sending book email" ;; ret false) w
               | MailSent =>
                   (Ok true, set_outbox (outbox w ++ [mkMail email book_title]) w)
               end
  end.

(* ===================================================================== *)
(** * services/shipping_service.py                                        *)
(* ===================================================================== *)

(** [threading.Thread(target=ship_order, args=(order_id,)).start()]. *)
Definition initiate_shipping (order_id : Z) : M unit :=
  fun w => (Ok tt, set_shipping_threads (shipping_threads w ++ [order_id]) w).

(** The name [send_book_email] in shipping_service.py is bound to the
    function imported from email_services. *)
Definition send_book_email_name : pyobj := PyFunction "send_book_email".

Definition ship_order (order_id : Z) : M unit :=
  fresh_session
    (do order <- Order_query_get order_id;
     do bid <- attr order (fun r => book_id (snd r));
     do book <- Book_query_get bid;
     do uid <- attr order (fun r => user_id (snd r));
     do user <- User_query_get uid;
     do to <- match user with Some u => ret (email u) | None => raise AttributeError end;
     do path <- match book with Some b => ret (pdf_path (snd b)) | None => raise AttributeError end;
     do ttl <- match book with Some b => ret (title (snd b)) | None => raise AttributeError end;
     send_book_email to path ttl ;;
     do order <- setattr_status order SHIPPED;
     commit ;;
     notify_status order ;;
     log_info "Order has been shipped" ;;
     do order <-
       (if py_eq send_book_email_name (PyBool true)
        then
          do order <- setattr_status order DELIVERED;
          commit ;;
          log_info "Order has been delivered" ;;
          ret order
        else
          do order <- setattr_status order CANCELLED;
          commit ;;
          log_info "Order has failed" ;;
          ret order);
     notify_status order ;;
     log_info "Order has been delivered").

(* ===================================================================== *)
(** * services/order_processing.py                                        *)
(* ===================================================================== *)

(** The value bound to an Integer column: anything but an integer is
    refused by the store when the row is flushed. *)
Definition integer_column (v : json) : M Z :=
  match as_int v with
  | Some n => ret n
  | None => raise SQLAlchemyError
  end.

(** [db.session.add(order)] for a new row; the key is the next id of the
    auto-increment sequence. *)
Definition session_add_order (o : Order) : M order_ref :=
  fun w =>
    let oid := order_seq (sess w) in
    (Ok (Some (oid, o)),
     set_sess {| users := users (sess w); books := books (sess w);
                 orders := <[oid := o]> (orders (sess w));
                 order_seq := oid + 1 |} w).

(** The result is [None] when the order could not be created. *)
Definition process_order (current_user : Z) (order_data : json) : M order_ref :=
  do created <-
    try_except
      (do b <- lift (getitem order_data "book_id");
       do its <- lift (getitem order_data "items");
       do bid <- integer_column b;
       do order <- session_add_order (mkOrder current_user bid PENDING its);
       commit ;;
       ret order)
      (fun e => log_error "Error creating order" ;; ret None);
  match created with
  | None => ret None
  | Some _ =>
      do oid <- attr created fst;
      do its <- attr created (fun r => items (snd r));
      RabbitMQHandler.publish_order (mkMessage oid its) ;;
      notify_status created ;;
      ret created
  end.

Definition order_processor (order_data : Message) : M unit :=
  fresh_session
    (log_info "Processing order" ;;
     do order <- Order_query_get (msg_order_id order_data);
     do order <- setattr_status order PROCESSING;
     commit ;;
     notify_status order ;;
     do oid <- attr order fst;
     do its <- attr order (fun r => items (snd r));
     RabbitMQHandler.publish_inventory_update (mkMessage oid its) ;;
     do oid <- attr order fst;
     initiate_shipping oid).

Definition start_order_processing : M unit :=
  RabbitMQHandler.process_orders order_processor.

(* ===================================================================== *)
(** * services/inventory_management.py                                    *)
(* ===================================================================== *)

(** The first loop of [update_inventory]. [get_or_404] returns a Book or
    raises, and a Book object is true, so the [if not book] test that
    follows it in the source never fires. *)
Fixpoint check_stock (its : list json) : M unit :=
  match its with
  | [] => ret tt
  | item :: rest =>
      do key <- lift (getitem item "book_id");
      do book <- Book_query_get_or_404 key;
      do quantity <- lift (getitem item "quantity");
      do short <- lift (int_lt (stock (snd book)) quantity);
      if (short : bool) then raise InsufficientStockError else check_stock rest
  end.

(** The second loop: [book.stock -= item['quantity']]; the
    [db.session.add(book)] after it adds nothing, the book is in the
    session already. *)
Fixpoint deduct_stock (its : list json) : M unit :=
  match its with
  | [] => ret tt
  | item :: rest =>
      do key <- lift (getitem item "book_id");
      do book <- Book_query_get_or_404 key;
      do quantity <- lift (getitem item "quantity");
      do n <- lift (int_sub (stock (snd book)) quantity);
      setattr_stock (fst book) n ;;
      deduct_stock rest
  end.

(** The body of both [except] clauses of [update_inventory]; they differ in
    the text logged only. *)
Definition cancel_after (text : string) (order : order_ref) : M (option Response) :=
  do oid <- attr order fst;
  log_error text ;;
  do order <- setattr_status order CANCELLED;
  commit ;;
  notify_status order ;;
  ret None.

(** The result is what the function returns: [None], or the pair built in
    the handler of a failed commit. *)
Definition update_inventory (update_data : Message) : M (option Response) :=
  fresh_session
    (log_info "Updating inventory" ;;
     do order <- Order_query_get (msg_order_id update_data);
     try_except
       (do its <- lift (iter (msg_items update_data));
        check_stock its ;;
        do its <- lift (iter (msg_items update_data));
        deduct_stock its ;;
        do order <- setattr_status order PROCESSING;
        do failure <-
          try_except
            (commit ;; ret None)
            (fun e =>
               rollback ;;
               do oid <- attr order fst;
               log_info "Inventory update failed" ;;
               ret (Some (jsonify [("message", JStr "Error updating Inventory");
                                   ("error", JStr (exn_text e))] 500)));
        match failure with
        | Some response => ret (Some response)
        | None =>
            do oid <- attr order fst;
            log_info "Inventory updated successfully for order" ;;
            notify_status order ;;
            ret None
        end)
       (fun e =>
          match e with
          | InsufficientStockError => cancel_after "Insufficient stock for order" order
          | _ => cancel_after "Error processing order" order
          end)).

Definition inventory_processor (body : Message) : M unit :=
  update_inventory body ;; ret tt.

Definition start_inventory_processing : M unit :=
  RabbitMQHandler.process_inventory_updates inventory_processor.

(* ===================================================================== *)
(** * api/routes.py: the order routes                                     *)
(* ===================================================================== *)

(** [current_user] of a route behind [login_required]. *)
Record CurrentUser : Type := mkCurrentUser {
  cu_id : Z;
  cu_is_admin : bool
}.

(** [data] is [request.json]; [JNull] stands for a request without a
    body. *)
Definition place_order (current_user : CurrentUser) (data : json) : M Response :=
  fresh_session
    (if negb (truthy data)
     then ret (jsonify [("message", JStr "No data provided")] 400)
     else
       try_except
         (do order <- process_order (cu_id current_user) data;
          match order with
          | None => ret (jsonify [("error", JStr "Order processing failed, try again")] 400)
          | Some (oid, _) =>
              ret (jsonify [("message", JStr "Order placed successfully");
                            ("order_id", JNum oid)] 201)
          end)
         (fun e => ret (jsonify [("message", JStr "Error processing order");
                                 ("error", JStr (exn_text e))] 500))).

(** A 404 of [get_or_404] leaves the route as the exception [NotFound]. *)
Definition get_order_status (current_user : CurrentUser) (order_id : Z) : M Response :=
  fresh_session
    (do order <- Order_query_get_or_404 order_id;
     if negb (user_id (snd order) =? cu_id current_user) && negb (cu_is_admin current_user)
     then ret (jsonify [("message", JStr "Unauthorized")] 403)
     else ret (jsonify [("status", JStr (value (status (snd order))))] 200)).

Definition cancel_order (current_user : CurrentUser) (order_id : Z) : M Response :=
  fresh_session
    (do order <- Order_query_get_or_404 order_id;
     if negb (user_id (snd order) =? cu_id current_user) && negb (cu_is_admin current_user)
     then ret (jsonify [("message", JStr "Unauthorized")] 403)
     else
       match status (snd order) with
       | PENDING | PROCESSING =>
           do order <- setattr_status (Some order) CANCELLED;
           try_except
             (commit ;;
              notify_status order ;;
              do st <- attr order (fun r => value (status (snd r)));
              ret (jsonify [("message", JStr "Order cancelled successfully");
                            ("status", JStr st)] 200))
             (fun e =>
                rollback ;;
                ret (jsonify [("message", JStr "Error cancelling order");
                              ("error", JStr (exn_text e))] 500))
       | _ =>
           ret (jsonify [("message", JStr "Order cannot be cancelled");
                         ("status", JStr (value (status (snd order))))] 400)
       end).

(* ===================================================================== *)
(** * Running the background work                                         *)
(* ===================================================================== *)

(** A started shipping thread runs [ship_order]; an exception ends the
    thread and goes nowhere else. *)
Definition run_thread (order_id : Z) : M unit :=
  try_except (ship_order order_id) (fun _ => ret tt).

Fixpoint run_threads (ids : list Z) : M unit :=
  match ids with
  | [] => ret tt
  | order_id :: rest => run_thread order_id ;; run_threads rest
  end.

Definition run_shipping_threads : M unit :=
  fun w => run_threads (shipping_threads w) (set_shipping_threads [] w).

(** One schedule of the whole pipeline, among those the threads may take:
    the Order Processor drains its queue, then the Inventory worker its
    own, then the shipping threads run. *)
Definition run_pipeline : M unit :=
  start_order_processing ;;
  start_inventory_processing ;;
  run_shipping_threads.

(** The same with the shipping threads scheduled before the Inventory
    worker. *)
Definition run_pipeline_shipping_first : M unit :=
  start_order_processing ;;
  run_shipping_threads ;;
  start_inventory_processing.

(* ===================================================================== *)
(** * Well-formed line items                                              *)
(* ===================================================================== *)

Record Item : Type := mkItem {
  item_book : Z;
  item_quantity : Z
}.

Definition item_json (it : Item) : json :=
  JObj [("book_id", JNum (item_book it)); ("quantity", JNum (item_quantity it))].

Definition items_json (its : list Item) : json :=
  JList (map item_json its).

(** The line item cannot be served from the table: its book is missing or
    has fewer copies than asked for. *)
Definition unavailable (bs : gmap Z Book) (it : Item) : Prop :=
  match bs !! item_book it with
  | None => True
  | Some b => stock b < item_quantity it
  end.

(** The status of an order in the committed rows. *)
Definition status_of (w : World) (order_id : Z) : option OrderStatus :=
  status <$> orders (db w) !! order_id.

(** The stock of a book in the committed rows. *)
Definition stock_of (w : World) (book_id : Z) : option Z :=
  stock <$> books (db w) !! book_id.

(** The next commit is accepted by the store. *)
Definition commit_accepted (w : World) : bool :=
  match commit_plan w with
  | false :: _ => false
  | _ => true
  end.

(* ===================================================================== *)
(** * Scenarios                                                           *)
(* ===================================================================== *)

Module Scenario.

Definition alice : User := mkUser "alice" "alice@example.org" false.
Definition bob : User := mkUser "bob" "bob@example.org" false.
Definition root : User := mkUser "root" "root@example.org" true.

Definition people : gmap Z User := <[1 := alice]> (<[2 := bob]> (<[3 := root]> ∅)).

Definition book (name : string) (copies : Z) : Book :=
  mkBook name "anonymous" (Some "book.pdf") copies.

(** A world at rest around the given rows: the store accepts every commit,
    the broker is up, the mail goes out and nothing is queued. *)
Definition at_rest (s : Store) : World :=
  {| db := s; sess := s; commit_plan := []; broker_up := true;
     mailer := MailSent; order_processing := []; inventory_update := [];
     emitted := []; shipping_threads := []; outbox := []; logged := [] |}.

(** Book 1 has five copies and book 2 has two; alice's order 1 asks for
    one copy of book 1 and a hundred of book 2. *)
Definition short_items : list Item := [mkItem 1 1; mkItem 2 100].

Definition short_order : Order := mkOrder 1 1 PROCESSING (items_json short_items).

Definition short_store : Store :=
  mkStore people (<[1 := book "A" 5]> (<[2 := book "B" 2]> ∅))
          (<[1 := short_order]> ∅) 2.

(** The same order, still PENDING, with its message waiting in the
    'order_processing' queue. *)
Definition short_submitted : World :=
  set_order_processing [mkMessage 1 (items_json short_items)]
    (at_rest (mkStore people (<[1 := book "A" 5]> (<[2 := book "B" 2]> ∅))
                      (<[1 := set_status PENDING short_order]> ∅) 2)).

(** Book 1 has six copies; alice's order 1 has two lines for it, of three
    and of four copies. *)
Definition twice_items : list Item := [mkItem 1 3; mkItem 1 4].

Definition twice_store : Store :=
  mkStore people (<[1 := book "A" 6]> ∅)
          (<[1 := mkOrder 1 1 PROCESSING (items_json twice_items)]> ∅) 2.

(** Book 3 has ten copies; alice's order 1 asks for two of them. *)
Definition plain_items : list Item := [mkItem 3 2].

Definition plain_order : Order := mkOrder 1 3 PROCESSING (items_json plain_items).

Definition plain_store : Store :=
  mkStore people (<[3 := book "X" 10]> ∅) (<[1 := plain_order]> ∅) 2.

(** No order yet: the shop of book 3 before anyone has bought. *)
Definition shop : Store := mkStore people (<[3 := book "X" 10]> ∅) ∅ 1.

Definition as_alice : CurrentUser := mkCurrentUser 1 false.
Definition as_bob : CurrentUser := mkCurrentUser 2 false.
Definition as_root : CurrentUser := mkCurrentUser 3 true.

(** The body of alice's POST /orders for two copies of book 3. *)
Definition plain_request : json :=
  JObj [("book_id", JNum 3); ("items", items_json plain_items)].

(** A body with the keys in place and no line at all. *)
Definition empty_request : json :=
  JObj [("book_id", JNum 3); ("items", JList [])].

(** The store refuses the next commit. *)
Definition refusing (w : World) : World := set_commit_plan [false] w.

End Scenario.


(* ===================================================================== *)
(** * Notions used by the statements                                      *)
(* ===================================================================== *)

(** The line item alone can be served from the table. *)
Definition available (bs : gmap Z Book) (it : Item) : Prop :=
  match bs !! item_book it with
  | None => False
  | Some b => item_quantity it <= stock b
  end.

(** The copies of book [b] an item list asks for, all lines together. *)
Fixpoint demand (its : list Item) (b : Z) : Z :=
  match its with
  | [] => 0
  | it :: rest =>
      if decide (item_book it = b)
      then item_quantity it + demand rest b
      else demand rest b
  end.

(** The first [n] commits to come are accepted. *)
Definition accepts (n : nat) (w : World) : bool :=
  forallb id (take n (commit_plan w)).

(** The moves of the status the design allows:
    PENDING -> PROCESSING -> {SHIPPED -> DELIVERED} | CANCELLED, where
    CANCELLED is entered from PENDING, from PROCESSING, and from SHIPPED
    when the delivery fails. *)
Definition transition (a b : OrderStatus) : bool :=
  match a, b with
  | PENDING, PROCESSING
  | PENDING, CANCELLED
  | PROCESSING, SHIPPED
  | PROCESSING, CANCELLED
  | SHIPPED, DELIVERED
  | SHIPPED, CANCELLED => true
  | _, _ => false
  end.

Inductive path : OrderStatus -> OrderStatus -> Prop :=
| path_here (s : OrderStatus) : path s s
| path_step (a b c : OrderStatus) : transition a b = true -> path b c -> path a c.

(** CANCELLED and DELIVERED end the life of an order. *)
Definition final (s : OrderStatus) : bool :=
  match s with
  | CANCELLED | DELIVERED => true
  | _ => false
  end.

(** The caller is the owner of the order or an administrator. *)
Definition authorized (current_user : CurrentUser) (o : Order) : bool :=
  (user_id o =? cu_id current_user) || cu_is_admin current_user.

(* ===================================================================== *)
(** * api/routes.py: allowed_file                                         *)
(* ===================================================================== *)

Module Upload.

(** [c in s] for a one-character string [c]. *)
Fixpoint contains (c : Ascii.ascii) (s : string) : bool :=
  match s with
  | EmptyString => false
  | String d rest => Ascii.eqb d c || contains c rest
  end.

(** [s.rsplit(sep, 1)]: the text before and after the last [sep], or [s]
    alone when it has none. *)
Fixpoint rsplit1 (sep : Ascii.ascii) (s : string) : list string :=
  match s with
  | EmptyString => [EmptyString]
  | String c rest =>
      match rsplit1 sep rest with
      | [tail] => if Ascii.eqb c sep then [EmptyString; tail] else [String c tail]
      | [head; tail] => [String c head; tail]
      | parts => parts
      end
  end.

(** [c.lower()] on an ASCII letter; other characters stay. File names are
    taken as byte strings: no character outside ASCII becomes one of the
    letters of an allowed extension when lowered. *)
Definition lower_ascii (c : Ascii.ascii) : Ascii.ascii :=
  let n := Ascii.nat_of_ascii c in
  if (65 <=? n)%nat && (n <=? 90)%nat then Ascii.ascii_of_nat (n + 32) else c.

Fixpoint lower (s : string) : string :=
  match s with
  | EmptyString => EmptyString
  | String c rest => String (lower_ascii c) (lower rest)
  end.

Definition ALLOWED_EXTENSIONS : list string := ["pdf"].

(** The [and] leaves the subscript [[1]] unevaluated on a name without a
    dot; with a dot the split has two parts. *)
Definition allowed_file (filename : string) : bool :=
  contains "."%char filename &&
  match rsplit1 "."%char filename with
  | [_; ext] => bool_decide (lower ext ∈ ALLOWED_EXTENSIONS)
  | _ => false
  end.

End Upload.

(* ===================================================================== *)
(** * Notions used by the further statements                              *)
(* ===================================================================== *)

(** What the first loop of [update_inventory] asks of one element of the
    items: the keys 'book_id' and 'quantity' are there, both hold integers,
    the book exists and has no fewer copies than the quantity. *)
Definition line_passes (bs : gmap Z Book) (item : json) : bool :=
  match getitem item "book_id", getitem item "quantity" with
  | Ok key, Ok quantity =>
      match as_int key, as_int quantity with
      | Some b, Some n =>
          match bs !! b with
          | Some bk => negb (stock bk <? n)
          | None => false
          end
      | _, _ => false
      end
  | _, _ => false
  end.

(** The items of a message can be walked over and every element passes. *)
Definition items_pass (bs : gmap Z Book) (its : json) : bool :=
  match iter its with
  | Ok lines => forallb (line_passes bs) lines
  | Raise _ => false
  end.

(** The values [Query.get] takes as the key of one row or of none: None,
    a boolean, an integer. What the store makes of a string, a list or an
    object as key (MySQL compares a string with the integer column, and a
    list or a dict is read as a composite key) is not modelled. *)
Definition plain_key (key : json) : bool :=
  match key with
  | JNull | JBool _ | JNum _ => true
  | _ => false
  end.

(** No element of the items has another kind of value under 'book_id'. *)
Definition plain_keys (its : json) : bool :=
  match iter its with
  | Ok lines =>
      forallb (fun item => match getitem item "book_id" with
                           | Ok key => plain_key key
                           | Raise _ => true
                           end) lines
  | Raise _ => true
  end.

(** The run from [before] to [after] has added lines to the log only, and
    [line] is not among them. For the line a consumer's wrapper logs when
    an exception has left [start_consuming], this says that the worker is
    still in its loop: [start_consuming] does not return otherwise. *)
Definition never_logged (line : LogLine) (before after : World) : Prop :=
  exists lines, logged after = logged before ++ lines /\ line ∉ lines.

(** What [ship_order] needs before it writes anything: the order, its
    user, its book with a pdf path, and a file that can be opened. *)
Definition deliverable (w : World) (order_id : Z) : bool :=
  match orders (db w) !! order_id with
  | Some o =>
      match users (db w) !! user_id o, books (db w) !! book_id o with
      | Some _, Some b =>
          match pdf_path b, mailer w with
          | Some _, MailSent | Some _, MailFailed => true
          | _, _ => false
          end
      | _, _ => false
      end
  | None => false
  end.

(* ===================================================================== *)
(** * api/routes.py: delete_book                                          *)
(* ===================================================================== *)

(** [os.remove(path)]. Which files can be removed is the environment's
    part, given as [removable]; a file that cannot raises. *)
Definition os_remove (removable : string -> bool) (path : string) : M unit :=
  if removable path then ret tt else raise OSError.

(** [db.session.delete(book)]. *)
Definition session_delete_book (book_id : Z) : M unit :=
  fun w => (Ok tt, set_sess (with_books (delete book_id) (sess w)) w).

(** [if pdf_path:] holds for a path that is neither None nor empty. *)
Definition delete_book (removable : string -> bool) (current_user : CurrentUser)
    (book_id : Z) : M Response :=
  fresh_session
    (if negb (cu_is_admin current_user)
     then ret (jsonify [("message", JStr "Admin access required")] 403)
     else
       do book <- Book_query_get_or_404 (JNum book_id);
       let pdf_path := pdf_path (snd book) in
       try_except
         (session_delete_book (fst book) ;;
          commit ;;
          match pdf_path with
          | Some (String c rest) => os_remove removable (String c rest)
          | _ => ret tt
          end ;;
          ret (jsonify [("message", JStr "Book deleted successfully")] 200))
         (fun e =>
            rollback ;;
            ret (jsonify [("message", JStr "Error deleting book");
                          ("error", JStr (exn_text e))] 500))).

(** The file of the book, when there is one to remove. *)
Definition file_of (b : Book) : option string :=
  match pdf_path b with
  | Some (String c rest) => Some (String c rest)
  | _ => None
  end.

(* ===================================================================== *)
(** * api/routes.py: the account routes                                   *)
(* ===================================================================== *)

Fixpoint prefix_of (p s : string) : bool :=
  match p, s with
  | EmptyString, _ => true
  | String a p', String b s' => Ascii.eqb a b && prefix_of p' s'
  | String _ _, EmptyString => false
  end.

Fixpoint is_substring (p s : string) : bool :=
  prefix_of p s ||
  match s with
  | EmptyString => false
  | String _ s' => is_substring p s'
  end.

(** [k in v] for a string [k]: a key of a dict, an element of a list, a
    substring of a string; other values cannot be searched. *)
Definition py_in (k : string) (v : json) : result bool :=
  match v with
  | JObj kv => Ok (existsb (fun p => String.eqb k (fst p)) kv)
  | JList l => Ok (existsb (fun x => match x with
                                     | JStr s => String.eqb k s
                                     | _ => false
                                     end) l)
  | JStr s => Ok (is_substring k s)
  | _ => Raise TypeError
  end.

(** [k1 not in data or k2 not in data or ...], left to right. *)
Fixpoint some_key_missing (keys : list string) (data : json) : result bool :=
  match keys with
  | [] => Ok false
  | k :: rest =>
      match py_in k data with
      | Ok true => some_key_missing rest data
      | Ok false => Ok true
      | Raise e => Raise e
      end
  end.

(** [not data or k1 not in data or ...], the test at the head of the
    account routes. *)
Definition missing_fields (keys : list string) (data : json) : result bool :=
  if negb (truthy data) then Ok true else some_key_missing keys data.

(** [User.query.filter_by(is_admin=True).first()] is a row. *)
Definition admin_exists (us : gmap Z User) : bool :=
  existsb (fun p => is_admin (snd p)) (map_to_list us).

Section Accounts.

(** What lies outside the repository: the text a String column stores for
    a value ([None]: the store refuses the value), werkzeug's
    [generate_password_hash] and [check_password_hash] on the stored row,
    the key the store gives a new row, and the row a query by username
    finds. *)
Variable string_column : json -> option string.
Variable generate_password_hash : json -> result string.
Variable check_password : User -> json -> result bool.
Variable next_user_id : gmap Z User -> Z.
Variable first_by_username : gmap Z User -> json -> result (option (Z * User)).

(** [User(...)], [set_password], [db.session.add] and the commit with its
    handler, shared by [register] and [create_admin]. The hash is not a
    field of the rows kept here. *)
Definition add_user (data : json) (admin : bool) (failure success : string) : M Response :=
  do name <- lift (getitem data "username");
  do mail <- lift (getitem data "email");
  do password <- lift (getitem data "password");
  do hash <- lift (generate_password_hash password);
  try_except
    (do name <- match string_column name with
                | Some s => ret s
                | None => raise SQLAlchemyError
                end;
     do mail <- match string_column mail with
                | Some s => ret s
                | None => raise SQLAlchemyError
                end;
     (fun w =>
        (Ok tt,
         set_sess {| users := <[next_user_id (users (sess w)) := mkUser name mail admin]>
                                (users (sess w));
                     books := books (sess w); orders := orders (sess w);
                     order_seq := order_seq (sess w) |} w)) ;;
     commit ;;
     ret (jsonify [("message", JStr success)] 201))
    (fun e =>
       rollback ;;
       ret (jsonify [("message", JStr failure); ("error", JStr (exn_text e))] 500)).

Definition register (data : json) : M Response :=
  fresh_session
    (do missing <- lift (missing_fields ["username"; "email"; "password"] data);
     if (missing : bool)
     then ret (jsonify [("message", JStr "Missing required fields")] 400)
     else add_user data false "Error registering user" "User registered successfully").

Definition create_admin (data : json) : M Response :=
  fresh_session
    (do missing <- lift (missing_fields ["username"; "email"; "password"] data);
     if (missing : bool)
     then ret (jsonify [("message", JStr "Missing required fields")] 400)
     else
       do taken <- (fun w => (Ok (admin_exists (users (sess w))), w));
       if (taken : bool)
       then ret (jsonify [("message", JStr "Admin account already exists")] 400)
       else add_user data true "Error creating admin account"
                     "Admin account created successfully").

(** The second component is the user handed to [login_user], if any. *)
Definition login (data : json) : M (Response * option Z) :=
  fresh_session
    (do missing <- lift (missing_fields ["email"; "password"] data);
     if (missing : bool)
     then ret (jsonify [("message", JStr "Missing required fields")] 400, None)
     else
       do name <- lift (getitem data "username");
       do user <- (fun w => (first_by_username (users (sess w)) name, w));
       match user with
       | Some (uid, u) =>
           do password <- lift (getitem data "password");
           do good <- lift (check_password u password);
           if (good : bool)
           then ret (jsonify [("message", JStr "Logged in successfully")] 200, Some uid)
           else ret (jsonify [("message", JStr "Invalid username or password")] 401, None)
       | None =>
           ret (jsonify [("message", JStr "Invalid username or password")] 401, None)
       end).

End Accounts.

(** No two rows of the User table are administrators. *)
Definition one_admin_at_most (us : gmap Z User) : Prop :=
  forall i j ui uj,
    us !! i = Some ui -> is_admin ui = true ->
    us !! j = Some uj -> is_admin uj = true ->
    i = j.

(* ===================================================================== *)
(** * services/ai_service.py and the summary route                        *)
(* ===================================================================== *)

Record BookProcessor : Type := mkBookProcessor {
  bp_book_id : Z;
  bp_pdf_path : option string
}.

(** [self.app.config(key)]: [config] is the configuration mapping of the
    application, a dict, and a dict cannot be called. *)
Definition call_config (key : string) : M string := raise TypeError.

(** [BookProcessor.__init__]; the last assignment is
    [openai.api_key = self.app.config('OPENAI_API_KEY')]. *)
Definition BookProcessor_init (book_id : Z) : M BookProcessor :=
  do book <- Book_query_get_or_404 (JNum book_id);
  do api_key <- call_config "OPENAI_API_KEY";
  ret (mkBookProcessor book_id (pdf_path (snd book))).

Section SummaryRoute.

(** [BookProcessor.process_book], which reads the pdf and asks OpenAI. *)
Variable process_book : BookProcessor -> string -> M string.

Definition get_book_summary (book_id : Z) : M Response :=
  fresh_session
    (do book <- Book_query_get_or_404 (JNum book_id);
     do processor <- BookProcessor_init book_id;
     do summary <- process_book processor "summary";
     ret (jsonify [("summary", JStr summary)] 200)).

End SummaryRoute.

(* ===================================================================== *)
(** * More scenarios                                                      *)
(* ===================================================================== *)

Module Cases.

(** A world at rest whose broker is down. *)
Definition offline (s : Store) : World :=
  {| db := s; sess := s; commit_plan := []; broker_up := false;
     mailer := MailSent; order_processing := []; inventory_update := [];
     emitted := []; shipping_threads := []; outbox := []; logged := [] |}.

(** A world at rest whose mail server refuses the mail. *)
Definition undelivered (s : Store) : World :=
  {| db := s; sess := s; commit_plan := []; broker_up := true;
     mailer := MailFailed; order_processing := []; inventory_update := [];
     emitted := []; shipping_threads := []; outbox := []; logged := [] |}.

(** alice's order for two copies of book 3, PENDING, its message waiting
    in the 'order_processing' queue. *)
Definition plain_submitted : World :=
  set_order_processing [mkMessage 1 (items_json Scenario.plain_items)]
    (Scenario.at_rest
       (mkStore Scenario.people (<[3 := Scenario.book "X" 10]> ∅)
                (<[1 := set_status PENDING Scenario.plain_order]> ∅) 2)).


(** bob's order 2 for one copy of book 3. *)
Definition second_items : list Item := [mkItem 3 1].

Definition second_order : Order := mkOrder 2 3 PENDING (items_json second_items).

(** alice's order and then bob's, both PENDING, their messages waiting in
    that order in the 'order_processing' queue. *)
Definition two_submitted : World :=
  set_order_processing [mkMessage 1 (items_json Scenario.plain_items);
                        mkMessage 2 (items_json second_items)]
    (Scenario.at_rest
       (mkStore Scenario.people (<[3 := Scenario.book "X" 10]> ∅)
                (<[1 := set_status PENDING Scenario.plain_order]>
                   (<[2 := second_order]> ∅)) 3)).

(** alice asks for a hundred copies of book 3, which has ten, and bob for
    one; both reservation messages are queued, alice's first. *)
Definition greedy_items : list Item := [mkItem 3 100].

Definition two_forwarded : World :=
  set_inventory_update [mkMessage 1 (items_json greedy_items);
                        mkMessage 2 (items_json second_items)]
    (Scenario.at_rest
       (mkStore Scenario.people (<[3 := Scenario.book "X" 10]> ∅)
                (<[1 := mkOrder 1 3 PROCESSING (items_json greedy_items)]>
                   (<[2 := second_order]> ∅)) 3)).

(** A store without rows. *)
Definition bare : Store := mkStore ∅ ∅ ∅ 1.

(** Stand-ins for what the account routes take from outside: a String
    column keeps strings, a password must be a string, the next key is
    the number of rows plus one, and no user is found by name. *)
Definition text (v : json) : option string :=
  match v with JStr s => Some s | _ => None end.

Definition hash (v : json) : result string :=
  match v with JStr s => Ok s | _ => Raise TypeError end.

Definition next_key (us : gmap Z User) : Z := Z.of_nat (size us) + 1.

Definition nobody (us : gmap Z User) (name : json) : result (option (Z * User)) :=
  Ok None.

Definition any_password (u : User) (password : json) : result bool := Ok true.

Definition credentials : json :=
  JObj [("username", JStr "carol"); ("email", JStr "carol@example.org");
        ("password", JStr "secret")].

End Cases.
(* ===================================================================== *)
(** * Lemmas on the reservation loops                                     *)
(* ===================================================================== *)

(** The validation loop changes nothing, whatever it meets. *)
Lemma check_stock_frame (its : list json) (w : World) :
  snd (check_stock its w) = w.
Proof.
  induction its as [|item rest IH]; [reflexivity|].
  cbn [check_stock]. unfold bind at 1, lift at 1.
  destruct (getitem item "book_id") as [key|e]; [|reflexivity].
  unfold bind at 1, Book_query_get_or_404.
  destruct (as_int key) as [bid|]; [|reflexivity].
  destruct (books (sess w) !! bid) as [b|]; [|reflexivity].
  unfold bind at 1, lift at 1.
  destruct (getitem item "quantity") as [q|e]; [|reflexivity].
  unfold bind at 1, lift at 1. cbn [snd].
  destruct (int_lt (stock b) q) as [[|]|e]; try reflexivity.
  apply IH.
Qed.

(** On well-formed items the loop raises as soon as one of them cannot be
    served. *)
Lemma check_stock_unavailable (its : list Item) (w : World) :
  Exists (unavailable (books (sess w))) its ->
  exists e, check_stock (map item_json its) w = (Raise e, w).
Proof.
  induction its as [|it rest IH]; intros Hex.
  - inversion Hex.
  - cbn [map check_stock]. unfold bind, lift, Book_query_get_or_404, int_lt. cbn.
    apply Exists_cons in Hex. unfold unavailable in Hex at 1.
    destruct (books (sess w) !! item_book it) as [b|] eqn:Hb; cbn.
    + destruct (stock b <? item_quantity it) eqn:Hlt.
      * eexists. reflexivity.
      * apply IH. destruct Hex as [Hhd|Htl]; [|exact Htl].
        apply Z.ltb_ge in Hlt. lia.
    + eexists. reflexivity.
Qed.

(** On well-formed items that can each be served the loop runs through. *)
Lemma check_stock_available (its : list Item) (w : World) :
  Forall (available (books (sess w))) its ->
  check_stock (map item_json its) w = (Ok tt, w).
Proof.
  induction 1 as [|it rest Hit _ IH]; [reflexivity|].
  cbn [map check_stock]. unfold bind, lift, Book_query_get_or_404, int_lt. cbn.
  unfold available in Hit.
  destruct (books (sess w) !! item_book it) as [b|]; [|contradiction]. cbn.
  destruct (stock b <? item_quantity it) eqn:Hlt; [|exact IH].
  apply Z.ltb_lt in Hlt. lia.
Qed.

(** Record identities. *)
Lemma set_sess_same (w : World) : set_sess (sess w) w = w.
Proof. destruct w; reflexivity. Qed.

Lemma set_stock_same (b : Book) : set_stock (stock b) b = b.
Proof. destruct b; reflexivity. Qed.

(** The deduction loop on well-formed items whose books exist: it changes
    the session only, and there each book loses what the lines ask of it,
    all lines together. *)
Lemma deduct_stock_demand (its : list Item) (w : World) :
  Forall (fun it => is_Some (books (sess w) !! item_book it)) its ->
  exists s,
    deduct_stock (map item_json its) w = (Ok tt, set_sess s w) /\
    users s = users (sess w) /\
    orders s = orders (sess w) /\
    order_seq s = order_seq (sess w) /\
    forall b, books s !! b =
              (fun bk => set_stock (stock bk - demand its b) bk) <$> books (sess w) !! b.
Proof.
  revert w. induction its as [|it rest IH]; intros w Hall.
  - exists (sess w). rewrite set_sess_same. repeat split.
    intros b. cbn [demand]. destruct (books (sess w) !! b) as [bk|]; [|reflexivity].
    cbn. rewrite Z.sub_0_r, set_stock_same. reflexivity.
  - apply Forall_cons in Hall as [[bk Hbk] Hrest].
    cbn [map deduct_stock]. unfold bind, lift, Book_query_get_or_404, int_sub, setattr_stock. cbn.
    rewrite Hbk. cbn.
    match goal with |- context [deduct_stock _ ?w1] =>
      destruct (IH w1) as (s & Hrun & Hu & Ho & Hq & Hb) end.
    { cbn. eapply Forall_impl; [exact Hrest|]. intros it' [bk' Hbk'].
      rewrite lookup_alter. case_decide; subst; rewrite ?Hbk, ?Hbk'; cbn; eauto. }
    exists s. rewrite Hrun. cbn in *. repeat split; try assumption.
    intros b. rewrite Hb. cbn [demand]. rewrite lookup_alter.
    destruct (decide (item_book it = b)) as [Heq|Hne].
    + rewrite <- Heq, Hbk. cbn. f_equal.
      unfold set_stock. cbn. f_equal. lia.
    + reflexivity.
Qed.

(** The deduction loop touches the Book rows of the session and nothing
    else, whatever the items are and whether or not it raises. *)
Lemma deduct_stock_frame (its : list json) (w : World) :
  exists s,
    snd (deduct_stock its w) = set_sess s w /\
    users s = users (sess w) /\
    orders s = orders (sess w) /\
    order_seq s = order_seq (sess w).
Proof.
  revert w. induction its as [|item rest IH]; intros w.
  - exists (sess w). rewrite set_sess_same. repeat split.
  - assert (Hstay : exists s, w = set_sess s w /\ users s = users (sess w) /\
                      orders s = orders (sess w) /\ order_seq s = order_seq (sess w))
      by (exists (sess w); rewrite set_sess_same; repeat split).
    cbn [deduct_stock]. unfold bind, lift, Book_query_get_or_404, setattr_stock.
    destruct (getitem item "book_id") as [key|e]; [|exact Hstay].
    destruct (as_int key) as [bid|]; [|exact Hstay].
    destruct (books (sess w) !! bid) as [b|]; [|exact Hstay].
    destruct (getitem item "quantity") as [q|e]; [|exact Hstay].
    cbn [fst snd].
    destruct (int_sub (stock b) q) as [n|e]; [|exact Hstay].
    match goal with |- context [deduct_stock _ ?w1] =>
      destruct (IH w1) as (s & Hrun & Hu & Ho & Hq) end.
    exists s. rewrite Hrun. cbn in *. repeat split; assumption.
Qed.

(* ===================================================================== *)
(** * What each handler does                                              *)
(* ===================================================================== *)

(** The reservation on well-formed lines that each pass the check, when
    the store accepts the commit. *)
Lemma update_inventory_reserves
    (w : World) (oid : Z) (o : Order) (its : list Item) :
  orders (db w) !! oid = Some o ->
  Forall (available (books (db w))) its ->
  commit_accepted w = true ->
  let run := update_inventory (mkMessage oid (items_json its)) w in
  fst run = Ok None /\
  (forall b, stock_of (snd run) b = (fun n => n - demand its b) <$> stock_of w b) /\
  status_of (snd run) oid = Some PROCESSING /\
  emitted (snd run) = emitted w ++ [mkEvent (user_id o) oid "processing"] /\
  shipping_threads (snd run) = shipping_threads w.
Proof.
  intros Ho Hall Hc run. subst run.
  destruct (update_inventory _ w) as [r w'] eqn:E. cbn [fst snd].
  unfold update_inventory, fresh_session in E.
  unfold bind at 1, log_info at 1 in E.
  unfold bind at 1, Order_query_get at 1 in E.
  cbn [sess set_sess set_logged db msg_order_id] in E.
  rewrite Ho in E. cbn [fmap option_fmap option_map] in E.
  unfold try_except at 1 in E. unfold bind at 1, lift at 1 in E.
  cbn [items_json msg_items iter] in E. unfold bind at 1 in E.
  rewrite check_stock_available in E by exact Hall.
  unfold bind at 1, lift at 1 in E. unfold bind at 1 in E.
  match type of E with context [deduct_stock _ ?w0] =>
    destruct (deduct_stock_demand its w0) as (s & Hrun & Hu & Hor & Hq & Hb) end.
  { cbn. eapply Forall_impl; [exact Hall|]. intros it Hit. unfold available in Hit.
    destruct (books (db w) !! item_book it); [eauto|contradiction]. }
  rewrite Hrun in E. cbn in Hu, Hor, Hq, Hb.
  unfold commit_accepted in Hc.
  unfold notify_status, send_order_status_update, log_error, rollback,
    log_info, setattr_status, attr, commit, bind, ret, try_except in E. cbn in E.
  unfold status_of, stock_of.
  destruct (commit_plan w) as [|[|] plan]; try discriminate; cbn in E;
    injection E as <- <-; cbn; rewrite lookup_alter_eq, Hor, Ho;
    (repeat split; try reflexivity); intros b; rewrite Hb;
    destruct (books (db w) !! b); reflexivity.
Qed.
(** Lines that each pass the check on their own are all deducted: a book
    asked for more often than it has copies ends below zero. *)
Lemma update_inventory_oversells
    (w : World) (oid : Z) (o : Order) (its : list Item) (b : Z) (bk : Book) :
  orders (db w) !! oid = Some o ->
  Forall (available (books (db w))) its ->
  commit_accepted w = true ->
  books (db w) !! b = Some bk ->
  stock bk < demand its b ->
  let run := update_inventory (mkMessage oid (items_json its)) w in
  exists n, stock_of (snd run) b = Some n /\ n < 0 /\
            status_of (snd run) oid = Some PROCESSING.
Proof.
  intros Ho Hall Hc Hb Hlt run. subst run.
  destruct (update_inventory_reserves w oid o its Ho Hall Hc) as (_ & Hst & Hs & _).
  exists (stock bk - demand its b). rewrite Hst. unfold stock_of. rewrite Hb. cbn.
  repeat split; [lia|exact Hs].
Qed.

(** Unfolding of the monad and of the small handlers in a hypothesis. *)
Ltac crunch H :=
  unfold cancel_after, notify_status, send_order_status_update, log_error, rollback,
    log_info, setattr_status, attr, commit, bind, ret, raise, lift, try_except in H;
  cbn in H.

(** Both [except] clauses of [update_inventory] run [cancel_after]. *)
Lemma update_inventory_handler (e : exn) (order : order_ref) (w : World) :
  exists text,
    match e with
    | InsufficientStockError => cancel_after "Insufficient stock for order" order
    | _ => cancel_after "Error processing order" order
    end w = cancel_after text order w.
Proof. destruct e; eexists; reflexivity. Qed.

(** What [cancel_after] does: on None it raises at once; on an order it
    commits the session with the order CANCELLED and emits the event, or
    the commit is refused and the exception leaves. *)
Lemma cancel_after_outcome (text : string) (order : order_ref) (w : World) :
  let run := cancel_after text order w in
  shipping_threads (snd run) = shipping_threads w /\
  outbox (snd run) = outbox w /\
  order_processing (snd run) = order_processing w /\
  inventory_update (snd run) = inventory_update w /\
  match order with
  | None => fst run = Raise AttributeError /\ snd run = w
  | Some (oid, o) =>
      (fst run = Ok None /\ commit_accepted w = true /\
       db (snd run) = with_orders (alter (set_status CANCELLED) oid) (sess w) /\
       emitted (snd run) = emitted w ++ [mkEvent (user_id o) oid "cancelled"])
      \/
      (fst run = Raise SQLAlchemyError /\ commit_accepted w = false /\
       db (snd run) = db w /\ emitted (snd run) = emitted w)
  end.
Proof.
  intros run. subst run.
  destruct (cancel_after text order w) as [r w'] eqn:E. cbn [fst snd].
  destruct order as [[oid o]|]; crunch E.
  - unfold commit_accepted.
    destruct (commit_plan w) as [|[|] plan]; cbn in E; injection E as <- <-; cbn;
      repeat split; auto.
  - injection E as <- <-. repeat split.
Qed.

(** [update_inventory] on any message: it starts no thread, sends no mail
    and publishes nothing; without the order it ends in an AttributeError
    with the store as it was; with the order, the status committed at the
    end is the old one, PROCESSING or CANCELLED. *)
Lemma update_inventory_outcome (update_data : Message) (w : World) :
  let run := update_inventory update_data w in
  shipping_threads (snd run) = shipping_threads w /\
  outbox (snd run) = outbox w /\
  order_processing (snd run) = order_processing w /\
  inventory_update (snd run) = inventory_update w /\
  match orders (db w) !! msg_order_id update_data with
  | None =>
      fst run = Raise AttributeError /\
      db (snd run) = db w /\
      emitted (snd run) = emitted w
  | Some o =>
      exists s, status_of (snd run) (msg_order_id update_data) = Some s /\
                (s = status o \/ s = PROCESSING \/ s = CANCELLED)
  end.
Proof.
  intros run. subst run.
  assert (Hcancel : forall s r w',
    orders s = orders (db w) ->
    (exists text, cancel_after text
       (pair (msg_order_id update_data) <$> orders (db w) !! msg_order_id update_data)
       (set_sess s (set_logged (logged w ++ [LogInfo "Updating inventory"])
                      (set_sess (db w) w))) = (r, w')) ->
    shipping_threads w' = shipping_threads w /\
    outbox w' = outbox w /\
    order_processing w' = order_processing w /\
    inventory_update w' = inventory_update w /\
    match orders (db w) !! msg_order_id update_data with
    | None => r = Raise AttributeError /\ db w' = db w /\ emitted w' = emitted w
    | Some o =>
        exists st, status_of w' (msg_order_id update_data) = Some st /\
                   (st = status o \/ st = PROCESSING \/ st = CANCELLED)
    end).
  { intros s r w' Hor [text E].
    pose proof (cancel_after_outcome text
       (pair (msg_order_id update_data) <$> orders (db w) !! msg_order_id update_data)
       (set_sess s (set_logged (logged w ++ [LogInfo "Updating inventory"])
                      (set_sess (db w) w)))) as H.
    rewrite E in H. cbn [fst snd] in H. cbn in H.
    destruct H as (H1 & H2 & H3 & H4 & H5). repeat (split; [assumption|]).
    destruct (orders (db w) !! msg_order_id update_data) as [o|] eqn:Ho; cbn in H5.
    - unfold status_of.
      destruct H5 as [(_ & _ & -> & _)|(_ & _ & -> & _)]; cbn.
      + rewrite lookup_alter_eq, Hor, Ho. cbn. eauto.
      + rewrite Ho. cbn. eauto.
    - destruct H5 as [-> ->]. repeat split. }
  destruct (update_inventory _ w) as [r w'] eqn:E. cbn [fst snd].
  unfold update_inventory, fresh_session in E.
  unfold bind at 1, log_info at 1 in E.
  unfold bind at 1, Order_query_get at 1 in E.
  cbn [sess set_sess set_logged db] in E.
  unfold try_except at 1 in E. unfold bind at 1, lift at 1 in E.
  destruct (iter (msg_items update_data)) as [its|e0].
  - unfold bind at 1 in E.
    match type of E with context [check_stock its ?w0] =>
      pose proof (check_stock_frame its w0) as Hck;
      destruct (check_stock its w0) as [[[]|e1] w1]; cbn in Hck; subst w1 end.
    + unfold bind at 1, lift at 1 in E. unfold bind at 1 in E.
      match type of E with context [deduct_stock its ?w0] =>
        destruct (deduct_stock_frame its w0) as (s & Hrun & Hu & Hor & Hq);
        destruct (deduct_stock its w0) as [[[]|e1] w1]; cbn in Hrun; subst w1 end;
      cbn in Hor.
      * destruct (orders (db w) !! msg_order_id update_data) as [o|] eqn:Ho;
          crunch E.
        -- unfold status_of.
           destruct (commit_plan w) as [|[|] plan]; cbn in E;
             injection E as <- <-; cbn; rewrite ?lookup_alter_eq, ?Hor, ?Ho;
             repeat split; eauto.
        -- injection E as <- <-. cbn. repeat split.
      * apply (Hcancel s); [exact Hor|].
        destruct (update_inventory_handler e1
          (pair (msg_order_id update_data) <$> orders (db w) !! msg_order_id update_data)
          (set_sess s (set_logged (logged w ++ [LogInfo "Updating inventory"])
                      (set_sess (db w) w)))) as [text Ht].
        exists text. rewrite <- Ht. exact E.
    + apply (Hcancel (db w)); [reflexivity|].
      destruct (update_inventory_handler e1
          (pair (msg_order_id update_data) <$> orders (db w) !! msg_order_id update_data)
          (set_sess (db w) (set_logged (logged w ++ [LogInfo "Updating inventory"])
                      (set_sess (db w) w)))) as [text Ht].
      exists text. rewrite <- Ht. exact E.
  - apply (Hcancel (db w)); [reflexivity|].
    destruct (update_inventory_handler e0
          (pair (msg_order_id update_data) <$> orders (db w) !! msg_order_id update_data)
          (set_sess (db w) (set_logged (logged w ++ [LogInfo "Updating inventory"])
                      (set_sess (db w) w)))) as [text Ht].
    exists text. rewrite <- Ht. exact E.
Qed.
(** [order_processor] on any message. *)
Lemma order_processor_outcome (order_data : Message) (w : World) :
  let run := order_processor order_data w in
  let oid := msg_order_id order_data in
  books (db (snd run)) = books (db w) /\
  outbox (snd run) = outbox w /\
  order_processing (snd run) = order_processing w /\
  match orders (db w) !! oid with
  | None =>
      fst run = Raise AttributeError /\
      db (snd run) = db w /\
      emitted (snd run) = emitted w /\
      inventory_update (snd run) = inventory_update w /\
      shipping_threads (snd run) = shipping_threads w
  | Some o =>
      if commit_accepted w
      then
        fst run = Ok tt /\
        status_of (snd run) oid = Some PROCESSING /\
        emitted (snd run) = emitted w ++ [mkEvent (user_id o) oid "processing"] /\
        inventory_update (snd run) =
          (if broker_up w
           then inventory_update w ++ [mkMessage oid (items o)]
           else inventory_update w) /\
        shipping_threads (snd run) = shipping_threads w ++ [oid]
      else
        fst run = Raise SQLAlchemyError /\
        db (snd run) = db w /\
        emitted (snd run) = emitted w /\
        inventory_update (snd run) = inventory_update w /\
        shipping_threads (snd run) = shipping_threads w
  end.
Proof.
  intros run oid. subst run oid.
  destruct (order_processor order_data w) as [r w'] eqn:E. cbn [fst snd].
  unfold order_processor, fresh_session, Order_query_get, initiate_shipping,
    RabbitMQHandler.publish_inventory_update in E.
  crunch E.
  destruct (orders (db w) !! msg_order_id order_data) as [o|] eqn:Ho; cbn in E.
  - unfold commit_accepted, status_of.
    destruct (commit_plan w) as [|[|] plan]; cbn in E;
      try (destruct (broker_up w); cbn in E);
      injection E as <- <-; cbn; rewrite ?lookup_alter_eq, ?Ho; repeat split.
  - injection E as <- <-. repeat split.
Qed.
Section OrderRoutes.

(** A route called by [current_user] on an order that exists. *)
Variables (current_user : CurrentUser) (order_id : Z) (o : Order) (w : World).
Hypothesis Ho : orders (db w) !! order_id = Some o.

(** The four answers of [cancel_order] on an order that exists. *)
Lemma cancel_order_outcome :
  let run := cancel_order current_user order_id w in
  books (db (snd run)) = books (db w) /\
  order_processing (snd run) = order_processing w /\
  inventory_update (snd run) = inventory_update w /\
  shipping_threads (snd run) = shipping_threads w /\
  if negb (authorized current_user o)
  then
    fst run = Ok (jsonify [("message", JStr "Unauthorized")] 403) /\
    db (snd run) = db w /\ emitted (snd run) = emitted w
  else
    match status o with
    | PENDING | PROCESSING =>
        if commit_accepted w
        then
          fst run = Ok (jsonify [("message", JStr "Order cancelled successfully");
                                 ("status", JStr "cancelled")] 200) /\
          status_of (snd run) order_id = Some CANCELLED /\
          emitted (snd run) = emitted w ++ [mkEvent (user_id o) order_id "cancelled"]
        else
          fst run = Ok (jsonify [("message", JStr "Error cancelling order");
                                 ("error", JStr "SQLAlchemyError")] 500) /\
          db (snd run) = db w /\ emitted (snd run) = emitted w
    | _ =>
        fst run = Ok (jsonify [("message", JStr "Order cannot be cancelled");
                               ("status", JStr (value (status o)))] 400) /\
        db (snd run) = db w /\ emitted (snd run) = emitted w
    end.
Proof.
  intros run. subst run.
  destruct (cancel_order current_user order_id w) as [r w'] eqn:E. cbn [fst snd].
  unfold cancel_order, fresh_session, Order_query_get_or_404 in E.
  crunch E. rewrite Ho in E. cbn in E. unfold authorized. rewrite negb_orb.
  destruct (negb (user_id o =? cu_id current_user) && negb (cu_is_admin current_user));
    cbn in E; [injection E as <- <-; repeat split|].
  unfold commit_accepted, status_of.
  destruct (status o) eqn:Hs; cbn in E;
    try (destruct (commit_plan w) as [|[|] plan]; cbn in E);
    injection E as <- <-; cbn; rewrite ?lookup_alter_eq, ?Ho; repeat split.
Qed.

(** The answers of [get_order_status] on an order that exists; it changes
    nothing but the session it reads through. *)
Lemma get_order_status_outcome :
  let run := get_order_status current_user order_id w in
  snd run = set_sess (db w) w /\
  fst run =
    if negb (authorized current_user o)
    then Ok (jsonify [("message", JStr "Unauthorized")] 403)
    else Ok (jsonify [("status", JStr (value (status o)))] 200).
Proof.
  intros run. subst run.
  destruct (get_order_status current_user order_id w) as [r w'] eqn:E. cbn [fst snd].
  unfold get_order_status, fresh_session, Order_query_get_or_404 in E.
  crunch E. rewrite Ho in E. cbn in E. unfold authorized. rewrite negb_orb.
  destruct (negb (user_id o =? cu_id current_user) && negb (cu_is_admin current_user));
    cbn in E; injection E as <- <-; repeat split.
Qed.

End OrderRoutes.

(** The answers of [place_order]. *)
Lemma place_order_outcome (current_user : CurrentUser) (data : json) (w : World) :
  let run := place_order current_user data w in
  let failed := jsonify [("error", JStr "Order processing failed, try again")] 400 in
  books (db (snd run)) = books (db w) /\
  inventory_update (snd run) = inventory_update w /\
  shipping_threads (snd run) = shipping_threads w /\
  if negb (truthy data)
  then
    fst run = Ok (jsonify [("message", JStr "No data provided")] 400) /\
    db (snd run) = db w /\ emitted (snd run) = emitted w /\
    order_processing (snd run) = order_processing w
  else
    match getitem data "book_id", getitem data "items" with
    | Ok b, Ok its =>
        match as_int b with
        | Some bid =>
            if commit_accepted w
            then
              let oid := order_seq (db w) in
              fst run = Ok (jsonify [("message", JStr "Order placed successfully");
                                     ("order_id", JNum oid)] 201) /\
              orders (db (snd run)) =
                <[oid := mkOrder (cu_id current_user) bid PENDING its]> (orders (db w)) /\
              emitted (snd run) = emitted w ++ [mkEvent (cu_id current_user) oid "pending"] /\
              order_processing (snd run) =
                (if broker_up w
                 then order_processing w ++ [mkMessage oid its]
                 else order_processing w)
            else
              fst run = Ok failed /\
              db (snd run) = db w /\ emitted (snd run) = emitted w /\
              order_processing (snd run) = order_processing w
        | None =>
            fst run = Ok failed /\
            db (snd run) = db w /\ emitted (snd run) = emitted w /\
            order_processing (snd run) = order_processing w
        end
    | _, _ =>
        fst run = Ok failed /\
        db (snd run) = db w /\ emitted (snd run) = emitted w /\
        order_processing (snd run) = order_processing w
    end.
Proof.
  intros run failed. subst run failed.
  destruct (place_order current_user data w) as [r w'] eqn:E. cbn [fst snd].
  unfold place_order, fresh_session, process_order, integer_column,
    session_add_order, RabbitMQHandler.publish_order in E.
  crunch E.
  destruct (truthy data); cbn in E |- *; [|injection E as <- <-; repeat split].
  destruct (getitem data "book_id") as [b|e1]; cbn in E;
    [|injection E as <- <-; repeat split].
  destruct (getitem data "items") as [its|e2]; cbn in E;
    [|injection E as <- <-; repeat split].
  destruct (as_int b) as [bid|]; cbn in E;
    [|injection E as <- <-; repeat split].
  unfold commit_accepted.
  destruct (commit_plan w) as [|[|] plan]; cbn in E;
    try (destruct (broker_up w); cbn in E);
    injection E as <- <-; cbn; repeat split.
Qed.
(** [inventory_processor] runs [update_inventory] and drops its result. *)
Lemma inventory_processor_run (body : Message) (w : World) :
  snd (inventory_processor body w) = snd (update_inventory body w) /\
  fst (inventory_processor body w) =
    match fst (update_inventory body w) with
    | Ok _ => Ok tt
    | Raise e => Raise e
    end.
Proof.
  unfold inventory_processor, bind, ret.
  destruct (update_inventory body w) as [[x|e] w']; split; reflexivity.
Qed.

(* ===================================================================== *)
(** * The paths of the status                                             *)
(* ===================================================================== *)

Lemma path_one (a b : OrderStatus) : transition a b = true -> path a b.
Proof. intros H. eapply path_step; [exact H|apply path_here]. Qed.



(* ===================================================================== *)
(** * The reservation and the shipping, field by field                    *)
(* ===================================================================== *)

(** The reservation on well-formed lines that each pass the check and
    whose commit is accepted, field by field. *)
Lemma reservation_accepted
    (w : World) (oid : Z) (o : Order) (its : list Item) :
  orders (db w) !! oid = Some o ->
  Forall (available (books (db w))) its ->
  commit_accepted w = true ->
  let run := update_inventory (mkMessage oid (items_json its)) w in
  fst run = Ok None /\
  (forall b, books (db (snd run)) !! b =
             (fun bk => set_stock (stock bk - demand its b) bk) <$> books (db w) !! b) /\
  orders (db (snd run)) = alter (set_status PROCESSING) oid (orders (db w)) /\
  users (db (snd run)) = users (db w) /\
  emitted (snd run) = emitted w ++ [mkEvent (user_id o) oid "processing"] /\
  commit_plan (snd run) = tail (commit_plan w) /\
  broker_up (snd run) = broker_up w /\
  mailer (snd run) = mailer w /\
  order_processing (snd run) = order_processing w /\
  inventory_update (snd run) = inventory_update w /\
  shipping_threads (snd run) = shipping_threads w /\
  outbox (snd run) = outbox w.
Proof.
  intros Ho Hall Hc run. subst run.
  destruct (update_inventory _ w) as [r w'] eqn:E. cbn [fst snd].
  unfold update_inventory, fresh_session in E.
  unfold bind at 1, log_info at 1 in E.
  unfold bind at 1, Order_query_get at 1 in E.
  cbn [sess set_sess set_logged db msg_order_id] in E.
  rewrite Ho in E. cbn [fmap option_fmap option_map] in E.
  unfold try_except at 1 in E. unfold bind at 1, lift at 1 in E.
  cbn [items_json msg_items iter] in E. unfold bind at 1 in E.
  rewrite check_stock_available in E by exact Hall.
  unfold bind at 1, lift at 1 in E. unfold bind at 1 in E.
  match type of E with context [deduct_stock _ ?w0] =>
    destruct (deduct_stock_demand its w0) as (s & Hrun & Hu & Hor & Hq & Hb) end.
  { cbn. eapply Forall_impl; [exact Hall|]. intros it Hit. unfold available in Hit.
    destruct (books (db w) !! item_book it); [eauto|contradiction]. }
  rewrite Hrun in E. cbn in Hu, Hor, Hq, Hb.
  unfold commit_accepted in Hc. crunch E.
  destruct (commit_plan w) as [|[|] plan] eqn:Hp; try discriminate; cbn in E;
    rewrite ?Hp in E; injection E as <- <-; cbn; rewrite ?Hor, ?Hu;
    repeat split; try exact Hb; exact Hp.
Qed.

(** A reservation with a line that cannot be served, the commit accepted:
    the order is cancelled. *)
Lemma reservation_rejected_cancels
    (w : World) (oid : Z) (o : Order) (its : list Item) :
  orders (db w) !! oid = Some o ->
  Exists (unavailable (books (db w))) its ->
  commit_accepted w = true ->
  status_of (snd (update_inventory (mkMessage oid (items_json its)) w)) oid =
    Some CANCELLED.
Proof.
  intros Ho Hex Hc.
  destruct (update_inventory _ w) as [r w'] eqn:E. cbn [fst snd].
  unfold update_inventory, fresh_session in E.
  unfold bind at 1, log_info at 1 in E.
  unfold bind at 1, Order_query_get at 1 in E.
  cbn [sess set_sess set_logged db msg_order_id] in E.
  rewrite Ho in E. cbn [fmap option_fmap option_map] in E.
  unfold try_except at 1 in E. unfold bind at 1, lift at 1 in E.
  cbn [items_json msg_items iter] in E. unfold bind at 1 in E.
  match type of E with context [check_stock _ ?w0] =>
    destruct (check_stock_unavailable its w0) as [e He]; [exact Hex|] end.
  rewrite He in E.
  match type of E with _ ?w0 = _ =>
    destruct (update_inventory_handler e (Some (oid, o)) w0) as [text Ht];
    rewrite Ht in E;
    pose proof (cancel_after_outcome text (Some (oid, o)) w0) as H end.
  rewrite E in H. cbn [fst snd] in H.
  destruct H as (_ & _ & _ & _ & [(_ & _ & Hdb & _)|(_ & Hno & _)]).
  - unfold status_of. rewrite Hdb. cbn. rewrite lookup_alter_eq, Ho. reflexivity.
  - unfold commit_accepted in *. cbn in Hno. congruence.
Qed.

(** [ship_order] when the order, its user, its book and the file are
    found and both commits are accepted, field by field: the mail server
    decides on the outbox only. *)
Lemma ship_order_delivers
    (w : World) (oid : Z) (o : Order) (b : Book) (u : User) (path : string) :
  orders (db w) !! oid = Some o ->
  books (db w) !! book_id o = Some b ->
  users (db w) !! user_id o = Some u ->
  pdf_path b = Some path ->
  mailer w <> NoSuchFile ->
  accepts 2 w = true ->
  let run := ship_order oid w in
  fst run = Ok tt /\
  books (db (snd run)) = books (db w) /\
  users (db (snd run)) = users (db w) /\
  orders (db (snd run)) !! oid = Some (set_status CANCELLED o) /\
  emitted (snd run) =
    emitted w ++ [mkEvent (user_id o) oid "shipped";
                  mkEvent (user_id o) oid "cancelled"] /\
  outbox (snd run) =
    outbox w ++ match mailer w with
                | MailSent => [mkMail (email u) (title b)]
                | _ => []
                end /\
  commit_plan (snd run) = drop 2 (commit_plan w) /\
  broker_up (snd run) = broker_up w /\
  mailer (snd run) = mailer w /\
  order_processing (snd run) = order_processing w /\
  inventory_update (snd run) = inventory_update w /\
  shipping_threads (snd run) = shipping_threads w.
Proof.
  intros Ho Hb Hu Hpath Hmail Hacc run. subst run.
  destruct (ship_order oid w) as [r w'] eqn:E. cbn [fst snd].
  unfold ship_order, fresh_session, Order_query_get, Book_query_get,
    User_query_get, send_book_email in E.
  crunch E.
  rewrite Ho in E. cbn in E. rewrite Hu, Hb in E. cbn in E.
  rewrite Hpath in E. cbn in E.
  unfold accepts in Hacc.
  destruct (mailer w) eqn:Hm; [| |congruence]; cbn in E;
    (destruct (commit_plan w) as [|[|] [|[|] plan]] eqn:Hp; try discriminate;
     cbn in E; rewrite ?Hp in E; cbn in E;
     injection E as <- <-; cbn; rewrite ?lookup_alter_eq, ?Ho; cbn;
     rewrite <- ?app_assoc, ?app_nil_r; repeat split; rewrite ?Hp; auto).
Qed.
(* ===================================================================== *)
(** * C1: all-or-nothing reservation *)
(* ===================================================================== *)

(** C1. When a line item of a reservation message names a book that does
    not exist, or asks for more copies than the book has in stock,
    [update_inventory] leaves the Book table of the store as it was (no
    line is deducted), whatever the store does with the commit; and when
    the store accepts the commit, the function returns, the order is
    CANCELLED and one "cancelled" event is emitted. *)
Theorem update_inventory_all_or_nothing
    (w : World) (oid : Z) (o : Order) (its : list Item) :
  orders (db w) !! oid = Some o ->
  Exists (unavailable (books (db w))) its ->
  let run := update_inventory (mkMessage oid (items_json its)) w in
  books (db (snd run)) = books (db w) /\
  (commit_accepted w = true ->
   fst run = Ok None /\
   status_of (snd run) oid = Some CANCELLED /\
   emitted (snd run) = emitted w ++ [mkEvent (user_id o) oid "cancelled"]).
Proof.
  intros Ho Hex run. subst run.
  destruct (update_inventory _ w) as [r w'] eqn:E. cbn [fst snd].
  unfold update_inventory, fresh_session in E.
  unfold bind at 1, log_info at 1 in E.
  unfold bind at 1, Order_query_get at 1 in E.
  cbn [sess set_sess set_logged db msg_order_id] in E.
  rewrite Ho in E. cbn [fmap option_fmap option_map] in E.
  unfold try_except at 1 in E. unfold bind at 1, lift at 1 in E.
  cbn [items_json msg_items iter] in E. unfold bind at 1 in E.
  match type of E with context [check_stock _ ?w0] =>
    destruct (check_stock_unavailable its w0) as [e He]; [exact Hex|] end.
  rewrite He in E.
  match type of E with _ ?w0 = _ =>
    assert (E' : exists text, cancel_after text (Some (oid, o)) w0 = (r, w'))
      by (destruct e; eexists; exact E) end.
  clear E He. destruct E' as [text E].
  unfold cancel_after, notify_status, send_order_status_update, log_error,
    log_info, setattr_status, attr, commit, bind, ret in E. cbn in E.
  unfold commit_accepted, status_of.
  destruct (commit_plan w) as [|[|] plan]; cbn in E; injection E as <- <-; cbn;
    (split; [reflexivity|]); intros Hc; try discriminate;
    rewrite lookup_alter_eq, Ho; auto.
Qed.

(** The order of the scenario: a hundred copies are asked of book 2, which
    has two; the Book table is left as it was and the order is
    cancelled. *)
Lemma update_inventory_all_or_nothing_witness :
  let w := Scenario.at_rest Scenario.short_store in
  let run := update_inventory (mkMessage 1 (items_json Scenario.short_items)) w in
  Exists (unavailable (books (db w))) Scenario.short_items /\
  books (db (snd run)) = books (db w) /\
  status_of (snd run) 1 = Some CANCELLED.
Proof.
  assert (Hshort : Exists (unavailable
                     (books (db (Scenario.at_rest Scenario.short_store))))
                     Scenario.short_items)
    by (apply Exists_cons_tl, Exists_cons_hd; vm_compute; reflexivity).
  destruct (update_inventory_all_or_nothing
              (Scenario.at_rest Scenario.short_store) 1 Scenario.short_order
              Scenario.short_items eq_refl Hshort) as (Hbooks & Hrest).
  destruct (Hrest eq_refl) as (_ & Hst & _).
  split; [exact Hshort|]. split; [exact Hbooks|exact Hst].
Defined.

(* ===================================================================== *)
(** * C2: two lines for one book *)
(* ===================================================================== *)

(** C2 (the code departs from the claim). The check compares each line
    with the stock on its own and never adds up the lines of one book: with
    six copies in stock and two lines of three and of four copies (seven
    asked for in all), [update_inventory] rejects nothing, deducts both
    lines, commits a stock of -1 and keeps the order in PROCESSING. *)
Theorem update_inventory_checks_each_line_alone :
  let w := Scenario.at_rest Scenario.twice_store in
  let run := update_inventory (mkMessage 1 (items_json Scenario.twice_items)) w in
  stock_of w 1 = Some 6 /\
  demand Scenario.twice_items 1 = 7 /\
  fst run = Ok None /\
  stock_of (snd run) 1 = Some (-1) /\
  status_of (snd run) 1 = Some PROCESSING /\
  emitted (snd run) = [mkEvent 1 1 "processing"].
Proof. vm_compute. repeat split. Qed.

(* ===================================================================== *)
(** * C3: when shipping starts *)
(* ===================================================================== *)

(** C3 (the code departs from the claim). [order_processor] starts the
    shipping thread itself, right after publishing the reservation message
    and before that message is consumed; [update_inventory] starts none.
    For an order whose reservation fails (a hundred copies asked of a book
    that has two) the thread runs all the same: the book of the order is
    mailed and "shipped" is emitted although the order is cancelled for
    lack of stock, under either schedule of the thread. *)
Theorem shipping_is_started_by_the_order_processor :
  let w := Scenario.short_submitted in
  let queued := mkMessage 1 (items_json Scenario.short_items) in
  let processed := snd (start_order_processing w) in
  let done := snd (run_pipeline w) in
  let done' := snd (run_pipeline_shipping_first w) in
  (shipping_threads processed = [1] /\ inventory_update processed = [queued]) /\
  (status_of done 1 = Some CANCELLED /\
   stock_of done 1 = Some 5 /\ stock_of done 2 = Some 2 /\
   outbox done = [mkMail "alice@example.org" "A"] /\
   map ev_status (emitted done) = ["processing"; "cancelled"; "shipped"; "cancelled"]) /\
  (status_of done' 1 = Some CANCELLED /\
   outbox done' = [mkMail "alice@example.org" "A"] /\
   map ev_status (emitted done') = ["processing"; "shipped"; "cancelled"; "cancelled"]).
Proof. vm_compute. repeat split. Qed.

(* ===================================================================== *)
(** * C4: the end of ship_order *)
(* ===================================================================== *)

(** C4 (the code departs from the claim). [ship_order] compares the
    function [send_book_email] itself with [True], not what the call
    returned, so the DELIVERED branch is never taken: when the mail has
    gone out and both commits are accepted, the order still ends CANCELLED,
    after a "shipped" and a "cancelled" event. *)
Theorem ship_order_ignores_delivery_result
    (w : World) (oid : Z) (o : Order) (b : Book) (u : User) (path : string) :
  orders (db w) !! oid = Some o ->
  books (db w) !! book_id o = Some b ->
  users (db w) !! user_id o = Some u ->
  pdf_path b = Some path ->
  mailer w = MailSent ->
  accepts 2 w = true ->
  let run := ship_order oid w in
  fst run = Ok tt /\
  outbox (snd run) = outbox w ++ [mkMail (email u) (title b)] /\
  status_of (snd run) oid = Some CANCELLED /\
  emitted (snd run) =
    emitted w ++ [mkEvent (user_id o) oid "shipped";
                  mkEvent (user_id o) oid "cancelled"].
Proof.
  intros Ho Hb Hu Hpath Hmail Hacc run. subst run.
  destruct (ship_order oid w) as [r w'] eqn:E. cbn [fst snd].
  unfold ship_order, fresh_session, Order_query_get, Book_query_get,
    User_query_get, send_book_email in E.
  crunch E. unfold status_of.
  rewrite Ho in E. cbn in E. rewrite Hu, Hb in E. cbn in E.
  rewrite Hpath in E. cbn in E. rewrite Hmail in E. cbn in E.
  unfold accepts in Hacc.
  destruct (commit_plan w) as [|[|] [|[|] plan]] eqn:Hp; try discriminate;
    cbn in E; rewrite ?Hp in E; cbn in E;
    injection E as <- <-; cbn; rewrite !lookup_alter_eq, Ho; cbn;
    rewrite <- ?app_assoc; repeat split.
Qed.

(** The order for book 3 of the scenario: mailed, then cancelled. *)
Lemma ship_order_ignores_delivery_result_witness :
  let w := Scenario.at_rest Scenario.plain_store in
  mailer w = MailSent /\
  outbox (snd (ship_order 1 w)) = [mkMail "alice@example.org" "X"] /\
  status_of (snd (ship_order 1 w)) 1 = Some CANCELLED.
Proof.
  destruct (ship_order_ignores_delivery_result
              (Scenario.at_rest Scenario.plain_store) 1 Scenario.plain_order
              (Scenario.book "X" 10) Scenario.alice "book.pdf"
              eq_refl eq_refl eq_refl eq_refl eq_refl eq_refl)
    as (_ & Hout & Hst & _).
  split; [reflexivity|]. split; [exact Hout|exact Hst].
Defined.

(* ===================================================================== *)
(** * C5: who writes the status *)
(* ===================================================================== *)




(* ===================================================================== *)
(** * C6: a refused commit of the reservation *)
(* ===================================================================== *)

(** C6, as stated, fails: the store refuses the commit of a reservation
    that passed the check; [update_inventory] rolls back and returns its
    500 pair, the order stays in PROCESSING, no second commit is tried and
    no event is emitted. *)
Lemma refused_commit_leaves_order_uncancelled :
  let w := Scenario.refusing (Scenario.at_rest Scenario.plain_store) in
  let run := update_inventory (mkMessage 1 (items_json Scenario.plain_items)) w in
  commit_plan w = [false] /\
  fst run = Ok (Some (jsonify [("message", JStr "Error updating Inventory");
                               ("error", JStr "SQLAlchemyError")] 500)) /\
  stock_of (snd run) 3 = Some 10 /\
  status_of (snd run) 1 = Some PROCESSING /\
  status_of (snd run) 1 <> Some CANCELLED /\
  emitted (snd run) = [] /\
  commit_plan (snd run) = [].
Proof. vm_compute. repeat split. discriminate. Qed.

(** C6, amended. When the commit of the deductions and of the status is
    refused, [update_inventory] rolls the session back, so that the store
    and the session hold the rows as they were (all deductions undone, the
    status of the order unchanged), logs the failure and returns the pair
    of an error body and 500; it tries no further commit and emits no
    event. *)
Theorem update_inventory_commit_refused
    (w : World) (oid : Z) (o : Order) (its : list Item) (plan : list bool) :
  orders (db w) !! oid = Some o ->
  Forall (available (books (db w))) its ->
  commit_plan w = false :: plan ->
  let run := update_inventory (mkMessage oid (items_json its)) w in
  fst run = Ok (Some (jsonify [("message", JStr "Error updating Inventory");
                               ("error", JStr "SQLAlchemyError")] 500)) /\
  db (snd run) = db w /\
  sess (snd run) = db w /\
  commit_plan (snd run) = plan /\
  emitted (snd run) = emitted w /\
  last (logged (snd run)) = Some (LogInfo "Inventory update failed").
Proof.
  intros Ho Hall Hplan run. subst run.
  destruct (update_inventory _ w) as [r w'] eqn:E. cbn [fst snd].
  unfold update_inventory, fresh_session in E.
  unfold bind at 1, log_info at 1 in E.
  unfold bind at 1, Order_query_get at 1 in E.
  cbn [sess set_sess set_logged db msg_order_id] in E.
  rewrite Ho in E. cbn [fmap option_fmap option_map] in E.
  unfold try_except at 1 in E. unfold bind at 1, lift at 1 in E.
  cbn [items_json msg_items iter] in E. unfold bind at 1 in E.
  rewrite check_stock_available in E by exact Hall.
  unfold bind at 1, lift at 1 in E. unfold bind at 1 in E.
  match type of E with context [deduct_stock _ ?w0] =>
    destruct (deduct_stock_demand its w0) as (s & Hrun & Hu & Hor & Hq & Hb) end.
  { cbn. eapply Forall_impl; [exact Hall|]. intros it Hit. unfold available in Hit.
    destruct (books (db w) !! item_book it); [eauto|contradiction]. }
  rewrite Hrun in E. clear Hrun Hb.
  crunch E. rewrite Hplan in E. cbn in E.
  injection E as <- <-. cbn. repeat split. apply last_snoc.
Qed.

(** The reservation of two copies of book 3 against a refusing store. *)
Lemma update_inventory_commit_refused_witness :
  let w := Scenario.refusing (Scenario.at_rest Scenario.plain_store) in
  let run := update_inventory (mkMessage 1 (items_json Scenario.plain_items)) w in
  db (snd run) = db w /\ emitted (snd run) = emitted w.
Proof.
  destruct (update_inventory_commit_refused
              (Scenario.refusing (Scenario.at_rest Scenario.plain_store))
              1 Scenario.plain_order Scenario.plain_items [] eq_refl)
    as (_ & Hdb & _ & _ & Hev & _).
  - repeat constructor. vm_compute. discriminate.
  - reflexivity.
  - split; [exact Hdb|exact Hev].
Defined.

(* ===================================================================== *)
(** * C7: a message for an order that is gone *)
(* ===================================================================== *)

(** C7, as stated, fails: neither callback looks whether the order was
    found. On a message for order 7, which does not exist, both raise an
    AttributeError; the consume wrapper logs it and leaves its loop, so
    the message queued behind it is never handled and its order stays
    PENDING. *)
Lemma absent_order_stops_the_consumer :
  let later := mkMessage 1 (items_json Scenario.plain_items) in
  let gone := mkMessage 7 (items_json Scenario.plain_items) in
  let w := set_order_processing [gone; later]
             (Scenario.at_rest
                (mkStore Scenario.people (<[3 := Scenario.book "X" 10]> ∅)
                         (<[1 := set_status PENDING Scenario.plain_order]> ∅) 8)) in
  orders (db w) !! 7 = None /\
  fst (order_processor gone w) = Raise AttributeError /\
  fst (inventory_processor gone w) = Raise AttributeError /\
  order_processing (snd (start_order_processing w)) = [later] /\
  status_of (snd (start_order_processing w)) 1 = Some PENDING /\
  logged (snd (start_order_processing w)) =
    [LogInfo "Started consuming orders from RabbitMQ"; LogInfo "Processing order";
     LogError "Failed to consume orders"].
Proof. vm_compute. repeat split. Qed.

(** C7, amended. On a message whose order does not exist, [order_processor]
    and [inventory_processor] end in an AttributeError; no row of the
    store is changed (no Book row in particular), no event is emitted, no
    thread is started and nothing is published. The exception does not
    leave the consume wrapper of the queue: [process_orders] and
    [process_inventory_updates] log it as an error and return, with the
    message taken off the queue and the ones behind it left there. *)
Theorem absent_order_message (w : World) (msg : Message) :
  orders (db w) !! msg_order_id msg = None ->
  (let run := order_processor msg w in
   fst run = Raise AttributeError /\
   db (snd run) = db w /\
   emitted (snd run) = emitted w /\
   order_processing (snd run) = order_processing w /\
   inventory_update (snd run) = inventory_update w /\
   shipping_threads (snd run) = shipping_threads w) /\
  (let run := inventory_processor msg w in
   fst run = Raise AttributeError /\
   db (snd run) = db w /\
   emitted (snd run) = emitted w /\
   order_processing (snd run) = order_processing w /\
   inventory_update (snd run) = inventory_update w /\
   shipping_threads (snd run) = shipping_threads w) /\
  (forall rest, order_processing w = msg :: rest ->
   let run := start_order_processing w in
   fst run = Ok tt /\
   db (snd run) = db w /\
   emitted (snd run) = emitted w /\
   order_processing (snd run) = rest /\
   inventory_update (snd run) = inventory_update w /\
   last (logged (snd run)) = Some (LogError "Failed to consume orders")) /\
  (forall rest, inventory_update w = msg :: rest ->
   let run := start_inventory_processing w in
   fst run = Ok tt /\
   db (snd run) = db w /\
   emitted (snd run) = emitted w /\
   order_processing (snd run) = order_processing w /\
   inventory_update (snd run) = rest /\
   last (logged (snd run)) = Some (LogError "Failed to consume inventory updates")).
Proof.
  intros Hnone.
  assert (Hop : forall w0, db w0 = db w ->
    let run := order_processor msg w0 in
    fst run = Raise AttributeError /\ db (snd run) = db w0 /\
    emitted (snd run) = emitted w0 /\
    order_processing (snd run) = order_processing w0 /\
    inventory_update (snd run) = inventory_update w0 /\
    shipping_threads (snd run) = shipping_threads w0).
  { intros w0 Hdb.
    pose proof (order_processor_outcome msg w0) as H. cbn zeta in H.
    rewrite Hdb, Hnone in H. cbn zeta. rewrite Hdb. tauto. }
  assert (Hip : forall w0, db w0 = db w ->
    let run := inventory_processor msg w0 in
    fst run = Raise AttributeError /\ db (snd run) = db w0 /\
    emitted (snd run) = emitted w0 /\
    order_processing (snd run) = order_processing w0 /\
    inventory_update (snd run) = inventory_update w0 /\
    shipping_threads (snd run) = shipping_threads w0).
  { intros w0 Hdb.
    pose proof (update_inventory_outcome msg w0) as H. cbn zeta in H.
    rewrite Hdb, Hnone in H. cbn zeta.
    destruct (inventory_processor_run msg w0) as [-> ->].
    destruct H as (H1 & H2 & H3 & H4 & -> & H6 & H7). rewrite Hdb. tauto. }
  split; [apply Hop; reflexivity|]. split; [apply Hip; reflexivity|]. split.
  - intros rest Hq run. subst run.
    destruct (start_order_processing w) as [r w'] eqn:E. cbn [fst snd].
    unfold start_order_processing, RabbitMQHandler.process_orders in E.
    unfold try_except, bind at 1, log_info at 1 in E.
    cbn [order_processing set_logged] in E.
    rewrite Hq in E. cbn [RabbitMQHandler.consume_orders] in E.
    unfold bind at 1 in E. unfold bind at 1 in E.
    match type of E with context [order_processor msg ?w0] =>
      destruct (Hop w0 eq_refl) as (H1 & H2 & H3 & H4 & H5 & H6);
      destruct (order_processor msg w0) as [r1 w1] end.
    cbn [fst snd] in *. subst r1. unfold log_error in E.
    injection E as <- <-. cbn.
    rewrite H2, H3, H4, H5. repeat split. apply last_snoc.
  - intros rest Hq run. subst run.
    destruct (start_inventory_processing w) as [r w'] eqn:E. cbn [fst snd].
    unfold start_inventory_processing, RabbitMQHandler.process_inventory_updates in E.
    unfold try_except, bind at 1, log_info at 1 in E.
    cbn [inventory_update set_logged] in E.
    rewrite Hq in E. cbn [RabbitMQHandler.consume_inventory_updates] in E.
    unfold bind at 1 in E. unfold bind at 1 in E.
    match type of E with context [inventory_processor msg ?w0] =>
      destruct (Hip w0 eq_refl) as (H1 & H2 & H3 & H4 & H5 & H6);
      destruct (inventory_processor msg w0) as [r1 w1] end.
    cbn [fst snd] in *. subst r1. unfold log_error in E.
    injection E as <- <-. cbn.
    rewrite H2, H3, H4, H5. repeat split. apply last_snoc.
Qed.

(** A message for order 7 in the scenario, where only order 1 exists. *)
Lemma absent_order_message_witness :
  let gone := mkMessage 7 (items_json Scenario.plain_items) in
  let w := Scenario.at_rest Scenario.plain_store in
  fst (order_processor gone w) = Raise AttributeError /\
  db (snd (order_processor gone w)) = db w /\
  db (snd (inventory_processor gone w)) = db w.
Proof.
  destruct (absent_order_message (Scenario.at_rest Scenario.plain_store)
              (mkMessage 7 (items_json Scenario.plain_items)) eq_refl)
    as ((Hr & Hdb & _) & (_ & Hdb' & _) & _).
  split; [exact Hr|]. split; [exact Hdb|exact Hdb'].
Defined.

(* ===================================================================== *)
(** * C8: the guard of cancel_order *)
(* ===================================================================== *)

(** C8. For a caller allowed to act on the order: [cancel_order] answers
    200 only if the order is PENDING or PROCESSING; from these, when the
    store accepts the commit, the order becomes CANCELLED in the store and
    exactly one event, "cancelled", is emitted; from SHIPPED or DELIVERED
    the answer is the 400 error and the store, the status with it, and the
    events stay as they were. *)
Theorem cancel_order_guard
    (w : World) (current_user : CurrentUser) (oid : Z) (o : Order) :
  orders (db w) !! oid = Some o ->
  authorized current_user o = true ->
  let run := cancel_order current_user oid w in
  (* success needs PENDING or PROCESSING *)
  (forall response, fst run = Ok response -> code response = 200 ->
     status o = PENDING \/ status o = PROCESSING) /\
  (* from PENDING or PROCESSING the order is cancelled, with one event *)
  (status o = PENDING \/ status o = PROCESSING ->
   commit_accepted w = true ->
     fst run = Ok (jsonify [("message", JStr "Order cancelled successfully");
                            ("status", JStr "cancelled")] 200) /\
     status_of (snd run) oid = Some CANCELLED /\
     emitted (snd run) = emitted w ++ [mkEvent (user_id o) oid "cancelled"]) /\
  (* from SHIPPED or DELIVERED the answer is an error and nothing changes *)
  (status o = SHIPPED \/ status o = DELIVERED ->
     fst run = Ok (jsonify [("message", JStr "Order cannot be cancelled");
                            ("status", JStr (value (status o)))] 400) /\
     db (snd run) = db w /\
     status_of (snd run) oid = Some (status o) /\
     emitted (snd run) = emitted w).
Proof.
  intros Ho Hauth run. subst run.
  pose proof (cancel_order_outcome current_user oid o w Ho) as H. cbn zeta in H.
  rewrite Hauth in H. cbn [negb] in H. destruct H as (_ & _ & _ & _ & H).
  assert (Hsame : status_of w oid = Some (status o))
    by (unfold status_of; rewrite Ho; reflexivity).
  split; [|split].
  - intros response Hr Hcode.
    destruct (status o); auto; destruct H as (Hf & _); rewrite Hf in Hr;
      injection Hr as <-; discriminate.
  - intros Hs Hc. rewrite Hc in H. destruct Hs as [Hs|Hs]; rewrite Hs in H; exact H.
  - intros Hs.
    assert (H' : fst (cancel_order current_user oid w) =
                   Ok (jsonify [("message", JStr "Order cannot be cancelled");
                                ("status", JStr (value (status o)))] 400) /\
                 db (snd (cancel_order current_user oid w)) = db w /\
                 emitted (snd (cancel_order current_user oid w)) = emitted w)
      by (destruct Hs as [Hs|Hs]; rewrite Hs in H |- *; exact H).
    destruct H' as (Hf & Hdb & Hev). repeat split; try assumption.
    unfold status_of in *. rewrite Hdb. exact Hsame.
Qed.

(** alice cancels her order in PROCESSING. *)
Lemma cancel_order_guard_witness :
  let w := Scenario.at_rest Scenario.plain_store in
  let run := cancel_order Scenario.as_alice 1 w in
  status_of w 1 = Some PROCESSING /\
  status_of (snd run) 1 = Some CANCELLED /\
  emitted (snd run) = [mkEvent 1 1 "cancelled"].
Proof.
  destruct (cancel_order_guard (Scenario.at_rest Scenario.plain_store)
              Scenario.as_alice 1 Scenario.plain_order eq_refl eq_refl)
    as (_ & Hcancel & _).
  destruct (Hcancel (or_intror eq_refl) eq_refl) as (_ & Hst & Hev).
  split; [reflexivity|]. split; [exact Hst|exact Hev].
Defined.

(* ===================================================================== *)
(** * C9: what place_order checks *)
(* ===================================================================== *)

(** C9, as stated, fails: a body with the keys in place and an empty list
    of items is accepted; the order is created in PENDING with no line, and
    its message is published. *)
Lemma place_order_accepts_empty_items :
  let w := Scenario.at_rest Scenario.shop in
  let run := place_order Scenario.as_alice Scenario.empty_request w in
  getitem Scenario.empty_request "items" = Ok (JList []) /\
  fst run = Ok (jsonify [("message", JStr "Order placed successfully");
                         ("order_id", JNum 1)] 201) /\
  orders (db (snd run)) !! 1 = Some (mkOrder 1 3 PENDING (JList [])) /\
  order_processing (snd run) = [mkMessage 1 (JList [])] /\
  emitted (snd run) = [mkEvent 1 1 "pending"].
Proof. vm_compute. repeat split. Qed.

(** C9, amended. When the body is missing or empty, or has no 'items' key,
    or has no 'book_id' key, [place_order] answers 400, creates no Order
    row, publishes nothing and emits nothing. The value under 'items' is
    not checked: for a body that has both keys, an integer under 'book_id'
    and any value under 'items' (an empty list too), an accepted commit
    creates the order in PENDING with these items, a "pending" event is
    emitted, and the message is published when the broker is up. *)
Theorem place_order_validation (w : World) (current_user : CurrentUser) (data : json) :
  let run := place_order current_user data w in
  (truthy data = false \/
   (forall v, getitem data "items" <> Ok v) \/
   (forall v, getitem data "book_id" <> Ok v) ->
   exists response,
     fst run = Ok response /\ code response = 400 /\
     db (snd run) = db w /\
     order_processing (snd run) = order_processing w /\
     emitted (snd run) = emitted w) /\
  (forall b bid its,
     getitem data "book_id" = Ok b -> as_int b = Some bid ->
     getitem data "items" = Ok its ->
     commit_accepted w = true ->
     let oid := order_seq (db w) in
     fst run = Ok (jsonify [("message", JStr "Order placed successfully");
                            ("order_id", JNum oid)] 201) /\
     orders (db (snd run)) =
       <[oid := mkOrder (cu_id current_user) bid PENDING its]> (orders (db w)) /\
     emitted (snd run) = emitted w ++ [mkEvent (cu_id current_user) oid "pending"] /\
     (broker_up w = true ->
      order_processing (snd run) = order_processing w ++ [mkMessage oid its])).
Proof.
  intros run. subst run.
  pose proof (place_order_outcome current_user data w) as H. cbn zeta in H.
  destruct H as (_ & _ & _ & H).
  assert (Hfail : forall response : Response,
    code response = 400 ->
    fst (place_order current_user data w) = Ok response /\
    db (snd (place_order current_user data w)) = db w /\
    emitted (snd (place_order current_user data w)) = emitted w /\
    order_processing (snd (place_order current_user data w)) = order_processing w ->
    exists response,
      fst (place_order current_user data w) = Ok response /\ code response = 400 /\
      db (snd (place_order current_user data w)) = db w /\
      order_processing (snd (place_order current_user data w)) = order_processing w /\
      emitted (snd (place_order current_user data w)) = emitted w).
  { intros response Hcode (Hf & Hdb & Hev & Hq). exists response. auto. }
  split.
  - intros Hbad.
    destruct (truthy data) eqn:Ht; cbn [negb] in H.
    + destruct Hbad as [Hbad|[Hbad|Hbad]]; [discriminate| |].
      * destruct (getitem data "items") as [its|e]; [destruct (Hbad its eq_refl)|].
        destruct (getitem data "book_id"); eapply Hfail; [|exact H| |exact H];
          reflexivity.
      * destruct (getitem data "book_id") as [b|e]; [destruct (Hbad b eq_refl)|].
        eapply Hfail; [|exact H]; reflexivity.
    + eapply Hfail; [|exact H]; reflexivity.
  - intros b bid its Hb Hint Hits Hc oid. subst oid.
    assert (Ht : truthy data = true).
    { destruct data; try discriminate. cbn in Hb. destruct kv; [discriminate|reflexivity]. }
    rewrite Ht, Hb, Hits, Hint, Hc in H. cbn [negb] in H.
    destruct H as (Hf & Ho & Hev & Hq). repeat split; try assumption.
    intros Hup. rewrite Hup in Hq. exact Hq.
Qed.

(** A body without 'items' is refused; alice's order for book 3 is
    created. *)
Lemma place_order_validation_witness :
  let w := Scenario.at_rest Scenario.shop in
  (exists response,
     fst (place_order Scenario.as_alice (JObj [("book_id", JNum 3)]) w) = Ok response /\
     code response = 400 /\
     db (snd (place_order Scenario.as_alice (JObj [("book_id", JNum 3)]) w)) = db w) /\
  orders (db (snd (place_order Scenario.as_alice Scenario.plain_request w))) =
    <[1 := mkOrder 1 3 PENDING (items_json Scenario.plain_items)]> ∅.
Proof.
  split.
  - destruct (place_order_validation (Scenario.at_rest Scenario.shop)
                Scenario.as_alice (JObj [("book_id", JNum 3)])) as [Hbad _].
    destruct Hbad as (response & Hf & Hcode & Hdb & _).
    + right. left. intros v. vm_compute. discriminate.
    + exists response. split; [exact Hf|]. split; [exact Hcode|exact Hdb].
  - destruct (place_order_validation (Scenario.at_rest Scenario.shop)
                Scenario.as_alice Scenario.plain_request) as [_ Hgood].
    destruct (Hgood (JNum 3) 3 (items_json Scenario.plain_items)
                eq_refl eq_refl eq_refl eq_refl) as (_ & Ho & _).
    exact Ho.
Defined.

(* ===================================================================== *)
(** * C10: owner or administrator *)
(* ===================================================================== *)

(** C10. For a caller who is neither the owner of the order nor an
    administrator, [get_order_status] and [cancel_order] answer
    'Unauthorized' with 403 and leave the store (the status of the order
    and every stock) and the events as they were. *)
Theorem unauthorized_caller_is_refused
    (w : World) (current_user : CurrentUser) (oid : Z) (o : Order) :
  orders (db w) !! oid = Some o ->
  user_id o <> cu_id current_user ->
  cu_is_admin current_user = false ->
  (let run := get_order_status current_user oid w in
   fst run = Ok (jsonify [("message", JStr "Unauthorized")] 403) /\
   db (snd run) = db w /\
   emitted (snd run) = emitted w) /\
  (let run := cancel_order current_user oid w in
   fst run = Ok (jsonify [("message", JStr "Unauthorized")] 403) /\
   db (snd run) = db w /\
   emitted (snd run) = emitted w).
Proof.
  intros Ho Hne Hadmin.
  assert (Hauth : authorized current_user o = false).
  { unfold authorized. rewrite Hadmin, orb_false_r. apply Z.eqb_neq. exact Hne. }
  split.
  - destruct (get_order_status_outcome current_user oid o w Ho) as [Hw Hr].
    rewrite Hauth in Hr. cbn zeta. rewrite Hw, Hr. repeat split.
  - pose proof (cancel_order_outcome current_user oid o w Ho) as H. cbn zeta in H.
    rewrite Hauth in H. cbn [negb] in H. intros run. subst run. tauto.
Qed.

(** bob asks for alice's order. *)
Lemma unauthorized_caller_is_refused_witness :
  let w := Scenario.at_rest Scenario.plain_store in
  fst (cancel_order Scenario.as_bob 1 w) =
    Ok (jsonify [("message", JStr "Unauthorized")] 403) /\
  db (snd (cancel_order Scenario.as_bob 1 w)) = db w /\
  db (snd (get_order_status Scenario.as_bob 1 w)) = db w.
Proof.
  destruct (unauthorized_caller_is_refused (Scenario.at_rest Scenario.plain_store)
              Scenario.as_bob 1 Scenario.plain_order eq_refl)
    as ((_ & Hg & _) & (Hr & Hc & _)).
  - vm_compute. discriminate.
  - reflexivity.
  - split; [exact Hr|]. split; [exact Hc|exact Hg].
Defined.
(* ===================================================================== *)
(** * Further properties: allowed_file                                    *)
(* ===================================================================== *)

Section AllowedFile.
Import Upload.

(** The two shapes of a split at the last separator. *)
Lemma rsplit1_spec (sep : ascii) (s : string) :
  if contains sep s
  then exists head tail,
         rsplit1 sep s = [head; tail] /\
         s = (head +:+ String sep tail) /\
         contains sep tail = false
  else rsplit1 sep s = [s].
Proof.
  induction s as [|c rest IH]; [reflexivity|].
  cbn [contains rsplit1].
  destruct (contains sep rest) eqn:Hrest.
  - destruct IH as (head & tail & -> & -> & Htail).
    rewrite orb_true_r. exists (String c head), tail. repeat split. exact Htail.
  - rewrite IH, orb_false_r.
    destruct (Ascii.eqb c sep) eqn:Hc.
    + apply Ascii.eqb_eq in Hc. subst c.
      exists EmptyString, rest. repeat split. exact Hrest.
    + reflexivity.
Qed.

Lemma contains_app (c : ascii) (a b : string) :
  contains c (a +:+ b) = contains c a || contains c b.
Proof.
  induction a as [|d a IH]; [reflexivity|].
  change (String d a +:+ b) with (String d (a +:+ b)).
  cbn [contains]. rewrite IH. apply orb_assoc.
Qed.

Lemma rsplit1_last (sep : ascii) (stem ext : string) :
  contains sep ext = false ->
  rsplit1 sep (stem +:+ String sep ext) = [stem; ext].
Proof.
  intros Hext. induction stem as [|c stem IH].
  - change (EmptyString +:+ String sep ext) with (String sep ext).
    cbn [rsplit1]. pose proof (rsplit1_spec sep ext) as H.
    rewrite Hext in H. rewrite H, Ascii.eqb_refl. reflexivity.
  - change (String c stem +:+ String sep ext) with (String c (stem +:+ String sep ext)).
    cbn [rsplit1]. rewrite IH. reflexivity.
Qed.

(** X1. [allowed_file] accepts a name exactly when it ends in a dot
    followed by an extension without a dot that is "pdf" up to the case of
    its letters: only the text after the last dot counts, and a name
    without a dot is refused. *)
Theorem allowed_file_last_extension (filename : string) :
  allowed_file filename = true <->
  exists stem ext,
    filename = (stem +:+ String "." ext) /\
    contains "." ext = false /\
    lower ext = "pdf".
Proof.
  unfold allowed_file. split.
  - intros H. apply andb_true_iff in H as [Hdot Hext].
    pose proof (rsplit1_spec "." filename) as Hs. rewrite Hdot in Hs.
    destruct Hs as (head & tail & Hsplit & Hname & Htail).
    rewrite Hsplit in Hext. apply bool_decide_eq_true in Hext.
    exists head, tail. repeat split; try assumption.
    unfold ALLOWED_EXTENSIONS in Hext. apply list_elem_of_singleton in Hext. exact Hext.
  - intros (stem & ext & -> & Hext & Hpdf).
    rewrite contains_app, rsplit1_last by exact Hext.
    cbn [contains]. rewrite Ascii.eqb_refl, orb_true_r. cbn [andb].
    apply bool_decide_eq_true. rewrite Hpdf. unfold ALLOWED_EXTENSIONS. apply list_elem_of_singleton. reflexivity.
Qed.

Lemma lower_ascii_dot (c : ascii) :
  Ascii.eqb (lower_ascii c) "." = Ascii.eqb c ".".
Proof. destruct c as [[] [] [] [] [] [] [] []]; reflexivity. Qed.

Lemma lower_ascii_twice (c : ascii) : lower_ascii (lower_ascii c) = lower_ascii c.
Proof. destruct c as [[] [] [] [] [] [] [] []]; reflexivity. Qed.

Lemma lower_twice (s : string) : lower (lower s) = lower s.
Proof.
  induction s as [|c s IH]; [reflexivity|].
  cbn [lower]. rewrite lower_ascii_twice, IH. reflexivity.
Qed.

Lemma contains_dot_lower (s : string) : contains "." (lower s) = contains "." s.
Proof.
  induction s as [|c s IH]; [reflexivity|].
  cbn [lower contains]. rewrite lower_ascii_dot, IH. reflexivity.
Qed.

Lemma rsplit1_dot_lower (s : string) :
  rsplit1 "." (lower s) = map lower (rsplit1 "." s).
Proof.
  induction s as [|c s IH]; [reflexivity|].
  cbn [lower rsplit1]. rewrite IH, lower_ascii_dot.
  destruct (rsplit1 "." s) as [|a [|b [|d rest]]]; try reflexivity.
  cbn [map]. destruct (Ascii.eqb c "."); reflexivity.
Qed.

(** X2. [allowed_file] does not look at the case of the letters: a name
    and the same name in lower case get the same answer. *)
Theorem allowed_file_ignores_case (filename : string) :
  allowed_file (lower filename) = allowed_file filename.
Proof.
  unfold allowed_file. rewrite contains_dot_lower, rsplit1_dot_lower.
  destruct (rsplit1 "." filename) as [|a [|b [|d rest]]]; try reflexivity.
  cbn [map]. rewrite lower_twice. reflexivity.
Qed.

End AllowedFile.

(* ===================================================================== *)
(** * Further properties: the reservation *)
(* ===================================================================== *)

(** A line that cannot be served stops the reservation before any write:
    the Book table stays, whatever the store does with the commit. *)
Lemma reservation_rejected
    (w : World) (oid : Z) (o : Order) (its : list Item) :
  orders (db w) !! oid = Some o ->
  Exists (unavailable (books (db w))) its ->
  books (db (snd (update_inventory (mkMessage oid (items_json its)) w))) = books (db w).
Proof.
  intros Ho Hex.
  destruct (update_inventory _ w) as [r w'] eqn:E. cbn [fst snd].
  unfold update_inventory, fresh_session in E.
  unfold bind at 1, log_info at 1 in E.
  unfold bind at 1, Order_query_get at 1 in E.
  cbn [sess set_sess set_logged db msg_order_id] in E.
  rewrite Ho in E. cbn [fmap option_fmap option_map] in E.
  unfold try_except at 1 in E. unfold bind at 1, lift at 1 in E.
  cbn [items_json msg_items iter] in E. unfold bind at 1 in E.
  match type of E with context [check_stock _ ?w0] =>
    destruct (check_stock_unavailable its w0) as [e He]; [exact Hex|] end.
  rewrite He in E.
  match type of E with _ ?w0 = _ =>
    destruct (update_inventory_handler e (Some (oid, o)) w0) as [text Ht];
    rewrite Ht in E;
    pose proof (cancel_after_outcome text (Some (oid, o)) w0) as H end.
  rewrite E in H. cbn [fst snd] in H.
  destruct H as (_ & _ & _ & _ & [(_ & _ & -> & _)|(_ & _ & -> & _)]); reflexivity.
Qed.

(** A refused commit of a reservation leaves the store as it was. *)
Lemma reservation_refused
    (w : World) (oid : Z) (o : Order) (its : list Item) :
  orders (db w) !! oid = Some o ->
  Forall (available (books (db w))) its ->
  commit_accepted w = false ->
  db (snd (update_inventory (mkMessage oid (items_json its)) w)) = db w.
Proof.
  intros Ho Hall Hc.
  destruct (update_inventory _ w) as [r w'] eqn:E. cbn [fst snd].
  unfold update_inventory, fresh_session in E.
  unfold bind at 1, log_info at 1 in E.
  unfold bind at 1, Order_query_get at 1 in E.
  cbn [sess set_sess set_logged db msg_order_id] in E.
  rewrite Ho in E. cbn [fmap option_fmap option_map] in E.
  unfold try_except at 1 in E. unfold bind at 1, lift at 1 in E.
  cbn [items_json msg_items iter] in E. unfold bind at 1 in E.
  rewrite check_stock_available in E by exact Hall.
  unfold bind at 1, lift at 1 in E. unfold bind at 1 in E.
  match type of E with context [deduct_stock _ ?w0] =>
    destruct (deduct_stock_demand its w0) as (s & Hrun & _) end.
  { cbn. eapply Forall_impl; [exact Hall|]. intros it Hit. unfold available in Hit.
    destruct (books (db w) !! item_book it); [eauto|contradiction]. }
  rewrite Hrun in E. unfold commit_accepted in Hc. crunch E.
  destruct (commit_plan w) as [|[|] plan]; try discriminate; cbn in E.
  injection E as <- <-. reflexivity.
Qed.

(** Every line can be served, or one of them cannot. *)
Lemma available_or_not (bs : gmap Z Book) (its : list Item) :
  Forall (available bs) its \/ Exists (unavailable bs) its.
Proof.
  induction its as [|it rest [IH|IH]].
  - left. constructor.
  - assert (Hit : available bs it \/ unavailable bs it).
    { unfold available, unavailable. destruct (bs !! item_book it); [lia|auto]. }
    destruct Hit as [Hit|Hit]; [left; constructor; assumption|].
    right. apply Exists_cons_hd. exact Hit.
  - right. apply Exists_cons_tl. exact IH.
Qed.

Lemma demand_absent (its : list Item) (b : Z) :
  b ∉ map item_book its -> demand its b = 0.
Proof.
  induction its as [|it rest IH]; intros Hb; [reflexivity|].
  cbn [demand]. cbn [map] in Hb. apply not_elem_of_cons in Hb as [Hne Hb].
  rewrite decide_False by congruence. apply IH, Hb.
Qed.

(** With one line per book at most, what is asked of a book in stock is
    within its stock. *)
Lemma demand_within_stock (bs : gmap Z Book) (its : list Item) (b : Z) (bk : Book) :
  NoDup (map item_book its) ->
  Forall (available bs) its ->
  bs !! b = Some bk ->
  0 <= stock bk ->
  demand its b <= stock bk.
Proof.
  intros Hnd Hall Hb Hpos. induction its as [|it rest IH]; [exact Hpos|].
  cbn [map] in Hnd. apply NoDup_cons in Hnd as [Hnotin Hnd].
  apply Forall_cons in Hall as [Hit Hall]. cbn [demand].
  destruct (decide (item_book it = b)) as [Heq|Hne]; [|apply IH; assumption].
  rewrite demand_absent by (rewrite <- Heq; exact Hnotin).
  unfold available in Hit. rewrite Heq, Hb in Hit. lia.
Qed.

(** X4. With one line per book at most, a reservation never takes a stock
    below zero: a book whose stock is not negative before
    [update_inventory] is still there afterwards with a stock that is not
    negative, whether the lines pass or not and whatever the store does
    with the commit. *)
Theorem reservation_keeps_stock_nonnegative
    (w : World) (oid : Z) (o : Order) (its : list Item) (b : Z) (bk : Book) :
  orders (db w) !! oid = Some o ->
  NoDup (map item_book its) ->
  books (db w) !! b = Some bk ->
  0 <= stock bk ->
  exists n, stock_of (snd (update_inventory (mkMessage oid (items_json its)) w)) b = Some n /\
            0 <= n.
Proof.
  intros Ho Hnd Hb Hpos. unfold stock_of.
  destruct (available_or_not (books (db w)) its) as [Hall|Hex].
  - destruct (commit_accepted w) eqn:Hc.
    + destruct (reservation_accepted w oid o its Ho Hall Hc) as (_ & Hbooks & _).
      rewrite Hbooks, Hb. cbn. eexists. split; [reflexivity|].
      pose proof (demand_within_stock _ its b bk Hnd Hall Hb Hpos). lia.
    + rewrite (reservation_refused w oid o its Ho Hall Hc), Hb. cbn. eauto.
  - rewrite (reservation_rejected w oid o its Ho Hex), Hb. cbn. eauto.
Qed.

(** X3. When every line of a reservation names an existing book and asks
    for no more than its stock, and the commit is accepted,
    [update_inventory] returns, takes from every book the quantities of
    all its lines together and changes nothing else of the Book rows, puts
    the order in PROCESSING, leaves the other orders and the users as they
    were, emits one "processing" event, starts no thread and publishes
    nothing. *)
Theorem reservation_deducts_every_line
    (w : World) (oid : Z) (o : Order) (its : list Item) :
  orders (db w) !! oid = Some o ->
  Forall (available (books (db w))) its ->
  commit_accepted w = true ->
  let run := update_inventory (mkMessage oid (items_json its)) w in
  fst run = Ok None /\
  (forall b, books (db (snd run)) !! b =
             (fun bk => set_stock (stock bk - demand its b) bk) <$> books (db w) !! b) /\
  orders (db (snd run)) = alter (set_status PROCESSING) oid (orders (db w)) /\
  users (db (snd run)) = users (db w) /\
  emitted (snd run) = emitted w ++ [mkEvent (user_id o) oid "processing"] /\
  shipping_threads (snd run) = shipping_threads w /\
  order_processing (snd run) = order_processing w /\
  inventory_update (snd run) = inventory_update w.
Proof.
  intros Ho Hall Hc run. subst run.
  destruct (reservation_accepted w oid o its Ho Hall Hc)
    as (Hf & Hb & Hor & Hu & Hev & _ & _ & _ & Hq & Hinv & Hthr & _).
  repeat split; assumption.
Qed.

(** Two copies of book 3 are taken from ten. *)
Lemma reservation_deducts_every_line_witness :
  let w := Scenario.at_rest Scenario.plain_store in
  let run := update_inventory (mkMessage 1 (items_json Scenario.plain_items)) w in
  Forall (available (books (db w))) Scenario.plain_items /\
  books (db (snd run)) !! 3 = Some (Scenario.book "X" 8).
Proof.
  assert (Hall : Forall (available (books (db (Scenario.at_rest Scenario.plain_store))))
                        Scenario.plain_items)
    by (repeat constructor; vm_compute; discriminate).
  destruct (reservation_deducts_every_line (Scenario.at_rest Scenario.plain_store) 1
              Scenario.plain_order Scenario.plain_items eq_refl Hall eq_refl)
    as (_ & Hb & _).
  split; [exact Hall|]. rewrite Hb. reflexivity.
Defined.

(** The same reservation leaves book 3 with a stock that is not negative. *)
Lemma reservation_keeps_stock_nonnegative_witness :
  let w := Scenario.at_rest Scenario.plain_store in
  exists n,
    stock_of (snd (update_inventory (mkMessage 1 (items_json Scenario.plain_items)) w)) 3 =
      Some n /\ 0 <= n.
Proof.
  apply (reservation_keeps_stock_nonnegative (Scenario.at_rest Scenario.plain_store) 1
           Scenario.plain_order Scenario.plain_items 3 (Scenario.book "X" 10)).
  - reflexivity.
  - repeat constructor. intros H. inversion H.
  - reflexivity.
  - vm_compute. discriminate.
Defined.

(** The first loop runs through exactly when every element passes. *)
Lemma check_stock_passes (lines : list json) (w : World) :
  if forallb (line_passes (books (sess w))) lines
  then check_stock lines w = (Ok tt, w)
  else exists e, check_stock lines w = (Raise e, w).
Proof.
  induction lines as [|item rest IH]; [reflexivity|].
  cbn [forallb check_stock]. unfold line_passes at 1.
  unfold bind, lift, Book_query_get_or_404, int_lt.
  destruct (getitem item "book_id") as [key|e1]; [|cbn; eauto].
  destruct (getitem item "quantity") as [q|e2].
  - destruct (as_int key) as [b|]; [|cbn; eauto].
    destruct (books (sess w) !! b) as [bk|]; cbn [fst snd].
    + destruct (as_int q) as [n|]; [|cbn; eauto].
      destruct (stock bk <? n); cbn; [eauto|exact IH].
    + destruct (as_int q); cbn; eauto.
  - destruct (as_int key) as [b|]; [|cbn; eauto].
    destruct (books (sess w) !! b) as [bk|]; cbn; eauto.
Qed.

(** After the first loop has run through, the second one does not raise:
    it meets the same keys, and a book that was there is still there. *)
Lemma deduct_stock_passes (bs : gmap Z Book) (lines : list json) (w : World) :
  forallb (line_passes bs) lines = true ->
  (forall b, is_Some (bs !! b) -> is_Some (books (sess w) !! b)) ->
  fst (deduct_stock lines w) = Ok tt.
Proof.
  revert w. induction lines as [|item rest IH]; intros w Hall Hdom; [reflexivity|].
  cbn [forallb] in Hall. apply andb_true_iff in Hall as [Hitem Hall].
  unfold line_passes in Hitem.
  cbn [deduct_stock]. unfold bind, lift, Book_query_get_or_404, int_sub, setattr_stock.
  destruct (getitem item "book_id") as [key|e1]; [|discriminate].
  destruct (getitem item "quantity") as [q|e2]; [|discriminate].
  destruct (as_int key) as [b|]; [|discriminate].
  destruct (as_int q) as [n|]; [|discriminate].
  destruct (bs !! b) as [bk|] eqn:Hb; [|discriminate].
  destruct (Hdom b) as [bk' Hbk']; [eauto|]. rewrite Hbk'. cbn [fst snd].
  apply IH; [exact Hall|]. intros b' Hb'. cbn.
  rewrite lookup_alter. case_decide; [subst; rewrite Hbk'; cbn; eauto|apply Hdom, Hb'].
Qed.

(** X5. For any value as the items of a message in which no element
    has a string, a list or an object under 'book_id' (keys the store
    would have to interpret), with the order there and the commit
    accepted, [update_inventory] raises nothing; the order ends in
    PROCESSING when the items can be walked over and every element has the
    two keys with integers, an existing book and enough stock, and
    otherwise (items that are null or a number, an element without
    'quantity', a text as quantity, a missing book, a short stock) it ends
    CANCELLED with the Book table untouched. *)
Theorem update_inventory_cancels_iff_check_fails
    (w : World) (oid : Z) (o : Order) (its : json) :
  orders (db w) !! oid = Some o ->
  plain_keys its = true ->
  commit_accepted w = true ->
  let run := update_inventory (mkMessage oid its) w in
  fst run = Ok None /\
  if items_pass (books (db w)) its
  then status_of (snd run) oid = Some PROCESSING /\
       emitted (snd run) = emitted w ++ [mkEvent (user_id o) oid "processing"]
  else status_of (snd run) oid = Some CANCELLED /\
       books (db (snd run)) = books (db w) /\
       emitted (snd run) = emitted w ++ [mkEvent (user_id o) oid "cancelled"].
Proof.
  intros Ho _ Hc run. subst run.
  assert (Hcancel : forall r w' e,
    match e with
    | InsufficientStockError => cancel_after "Insufficient stock for order" (Some (oid, o))
    | _ => cancel_after "Error processing order" (Some (oid, o))
    end (set_logged (logged w ++ [LogInfo "Updating inventory"]) (set_sess (db w) w))
    = (r, w') ->
    r = Ok None /\ status_of w' oid = Some CANCELLED /\
    books (db w') = books (db w) /\
    emitted w' = emitted w ++ [mkEvent (user_id o) oid "cancelled"]).
  { intros r w' e E.
    match type of E with _ ?w0 = _ =>
      destruct (update_inventory_handler e (Some (oid, o)) w0) as [text Ht];
      rewrite Ht in E;
      pose proof (cancel_after_outcome text (Some (oid, o)) w0) as H end.
    rewrite E in H. cbn [fst snd] in H.
    destruct H as (_ & _ & _ & _ & [(Hr & _ & Hdb & Hev)|(_ & Hno & _)]).
    - unfold status_of. rewrite Hdb. cbn. rewrite lookup_alter_eq, Ho. auto.
    - unfold commit_accepted in *. cbn in Hno. congruence. }
  destruct (update_inventory _ w) as [r w'] eqn:E. cbn [fst snd].
  unfold update_inventory, fresh_session in E.
  unfold bind at 1, log_info at 1 in E.
  unfold bind at 1, Order_query_get at 1 in E.
  cbn [sess set_sess set_logged db msg_order_id msg_items] in E.
  rewrite Ho in E. cbn [fmap option_fmap option_map] in E.
  unfold try_except at 1 in E. unfold bind at 1, lift at 1 in E.
  unfold items_pass.
  destruct (iter its) as [lines|e0]; [|apply Hcancel in E; tauto].
  unfold bind at 1 in E.
  match type of E with context [check_stock lines ?w0] =>
    pose proof (check_stock_passes lines w0) as Hck end.
  cbn [sess set_sess set_logged] in Hck.
  destruct (forallb (line_passes (books (db w))) lines) eqn:Hall.
  - rewrite Hck in E. unfold bind at 1, lift at 1 in E. unfold bind at 1 in E.
    match type of E with context [deduct_stock lines ?w0] =>
      pose proof (deduct_stock_passes (books (db w)) lines w0 Hall) as Hded;
      destruct (deduct_stock_frame lines w0) as (s & Hrun & Hu & Hor & Hq);
      destruct (deduct_stock lines w0) as [rd wd] end.
    cbn [fst snd] in Hded, Hrun. rewrite Hded in E by (cbn; auto). subst wd.
    cbn in Hor. unfold commit_accepted in Hc. crunch E. unfold status_of.
    destruct (commit_plan w) as [|[|] plan]; try discriminate; cbn in E;
      injection E as <- <-; cbn; rewrite lookup_alter_eq, Hor, Ho; repeat split.
  - destruct Hck as [e He]. rewrite He in E. apply Hcancel in E. tauto.
Qed.

(** A line without quantity cancels the order; the list of the scenario passes. *)
Lemma update_inventory_cancels_iff_check_fails_witness :
  let w := Scenario.at_rest Scenario.plain_store in
  let no_quantity := JList [JObj [("book_id", JNum 3)]] in
  items_pass (books (db w)) no_quantity = false /\
  status_of (snd (update_inventory (mkMessage 1 no_quantity) w)) 1 = Some CANCELLED /\
  items_pass (books (db w)) (items_json Scenario.plain_items) = true /\
  status_of (snd (update_inventory (mkMessage 1 (items_json Scenario.plain_items)) w)) 1 =
    Some PROCESSING.
Proof.
  destruct (update_inventory_cancels_iff_check_fails
              (Scenario.at_rest Scenario.plain_store) 1 Scenario.plain_order
              (JList [JObj [("book_id", JNum 3)]])
              eq_refl eq_refl eq_refl) as (_ & Hbad & _).
  destruct (update_inventory_cancels_iff_check_fails
              (Scenario.at_rest Scenario.plain_store) 1 Scenario.plain_order
              (items_json Scenario.plain_items) eq_refl eq_refl eq_refl) as (_ & Hgood & _).
  split; [reflexivity|]. split; [exact Hbad|]. split; [reflexivity|exact Hgood].
Defined.

(* ===================================================================== *)
(** * Further properties: placing an order and handing it on *)
(* ===================================================================== *)

(** X6. After a [place_order] that the store accepts, the same user's
    [get_order_status] on the new order id answers 200 with the status
    "pending" and writes nothing. *)
Theorem placed_order_reads_pending
    (w : World) (current_user : CurrentUser) (data b its : json) (bid : Z) :
  getitem data "book_id" = Ok b ->
  as_int b = Some bid ->
  getitem data "items" = Ok its ->
  commit_accepted w = true ->
  let placed := snd (place_order current_user data w) in
  get_order_status current_user (order_seq (db w)) placed =
    (Ok (jsonify [("status", JStr "pending")] 200), set_sess (db placed) placed).
Proof.
  intros Hb Hint Hits Hc placed. subst placed.
  pose proof (place_order_outcome current_user data w) as H. cbn zeta in H.
  assert (Ht : truthy data = true).
  { destruct data; try discriminate. cbn in Hb. destruct kv; [discriminate|reflexivity]. }
  rewrite Ht, Hb, Hits, Hint, Hc in H. cbn [negb] in H.
  destruct H as (_ & _ & _ & _ & Ho & _).
  set (w1 := snd (place_order current_user data w)) in *.
  assert (Hrow : orders (db w1) !! order_seq (db w) =
                 Some (mkOrder (cu_id current_user) bid PENDING its))
    by (rewrite Ho; apply lookup_insert_eq).
  destruct (get_order_status_outcome current_user (order_seq (db w)) _ w1 Hrow) as [Hw Hr].
  destruct (get_order_status current_user (order_seq (db w)) w1) as [r w2].
  cbn [fst snd] in Hw, Hr. subst w2. f_equal.
  rewrite Hr. unfold authorized. cbn [user_id]. rewrite Z.eqb_refl. reflexivity.
Qed.

(** X7. When the broker does not take the message, [place_order] still
    commits the order and answers 201: the order is PENDING in the store
    and the queues and the started threads are as before, so no worker
    will ever see it. *)
Theorem lost_publish_goes_unnoticed
    (w : World) (current_user : CurrentUser) (data b its : json) (bid : Z) :
  getitem data "book_id" = Ok b ->
  as_int b = Some bid ->
  getitem data "items" = Ok its ->
  commit_accepted w = true ->
  broker_up w = false ->
  let run := place_order current_user data w in
  let oid := order_seq (db w) in
  fst run = Ok (jsonify [("message", JStr "Order placed successfully");
                         ("order_id", JNum oid)] 201) /\
  status_of (snd run) oid = Some PENDING /\
  order_processing (snd run) = order_processing w /\
  inventory_update (snd run) = inventory_update w /\
  shipping_threads (snd run) = shipping_threads w.
Proof.
  intros Hb Hint Hits Hc Hdown run oid. subst run oid.
  pose proof (place_order_outcome current_user data w) as H. cbn zeta in H.
  assert (Ht : truthy data = true).
  { destruct data; try discriminate. cbn in Hb. destruct kv; [discriminate|reflexivity]. }
  rewrite Ht, Hb, Hits, Hint, Hc, Hdown in H. cbn [negb] in H.
  destruct H as (_ & Hinv & Hthr & Hf & Ho & _ & Hq).
  repeat split; try assumption.
  unfold status_of. rewrite Ho, lookup_insert_eq. reflexivity.
Qed.

(** X8. When the broker does not take the reservation message,
    [order_processor] still puts the order in PROCESSING and starts its
    shipping thread: nothing is queued for the Inventory worker and no
    stock is touched. *)
Theorem order_processor_ships_without_reservation
    (w : World) (oid : Z) (o : Order) (its : json) :
  orders (db w) !! oid = Some o ->
  commit_accepted w = true ->
  broker_up w = false ->
  let run := order_processor (mkMessage oid its) w in
  fst run = Ok tt /\
  status_of (snd run) oid = Some PROCESSING /\
  inventory_update (snd run) = inventory_update w /\
  shipping_threads (snd run) = shipping_threads w ++ [oid] /\
  books (db (snd run)) = books (db w).
Proof.
  intros Ho Hc Hdown run. subst run.
  pose proof (order_processor_outcome (mkMessage oid its) w) as H. cbn zeta in H.
  cbn [msg_order_id] in H. rewrite Ho, Hc, Hdown in H.
  destruct H as (Hb & _ & _ & Hf & Hs & _ & Hq & Ht). auto.
Qed.

(** alice places an order and reads it back. *)
Lemma placed_order_reads_pending_witness :
  let w := Scenario.at_rest Scenario.shop in
  let placed := snd (place_order Scenario.as_alice Scenario.plain_request w) in
  fst (get_order_status Scenario.as_alice 1 placed) =
    Ok (jsonify [("status", JStr "pending")] 200).
Proof.
  exact (f_equal fst
           (placed_order_reads_pending (Scenario.at_rest Scenario.shop)
              Scenario.as_alice Scenario.plain_request (JNum 3)
              (items_json Scenario.plain_items) 3 eq_refl eq_refl eq_refl eq_refl)).
Defined.

(** The same order with the broker down. *)
Lemma lost_publish_goes_unnoticed_witness :
  let w := Cases.offline Scenario.shop in
  let run := place_order Scenario.as_alice Scenario.plain_request w in
  broker_up w = false /\
  status_of (snd run) 1 = Some PENDING /\
  order_processing (snd run) = [].
Proof.
  destruct (lost_publish_goes_unnoticed (Cases.offline Scenario.shop)
              Scenario.as_alice Scenario.plain_request (JNum 3)
              (items_json Scenario.plain_items) 3 eq_refl eq_refl eq_refl eq_refl eq_refl)
    as (_ & Hst & Hq & _).
  split; [reflexivity|]. split; [exact Hst|exact Hq].
Defined.

(** Order 1 processed with the broker down. *)
Lemma order_processor_ships_without_reservation_witness :
  let w := Cases.offline Scenario.plain_store in
  let run := order_processor (mkMessage 1 (items_json Scenario.plain_items)) w in
  inventory_update (snd run) = [] /\
  shipping_threads (snd run) = [1].
Proof.
  destruct (order_processor_ships_without_reservation
              (Cases.offline Scenario.plain_store) 1 Scenario.plain_order
              (items_json Scenario.plain_items) eq_refl eq_refl eq_refl)
    as (_ & _ & Hinv & Hthr & _).
  split; [exact Hinv|exact Hthr].
Defined.

(* ===================================================================== *)
(** * Further properties: the two workers *)
(* ===================================================================== *)

Lemma never_logged_here (line : LogLine) (w w' : World) :
  logged w' = logged w -> never_logged line w w'.
Proof. intros H. exists []. rewrite app_nil_r. split; [exact H|apply not_elem_of_nil]. Qed.

Lemma never_logged_then (line : LogLine) (w1 w2 w3 : World) :
  never_logged line w1 w2 -> never_logged line w2 w3 -> never_logged line w1 w3.
Proof.
  intros (l1 & H1 & N1) (l2 & H2 & N2). exists (l1 ++ l2).
  rewrite H2, H1, app_assoc. split; [reflexivity|].
  rewrite elem_of_app. tauto.
Qed.

(** Lines that differ from [line], one after the other. *)
Ltac other_lines :=
  rewrite <- ?app_assoc; eexists; split; [reflexivity|];
  cbn [app]; rewrite ?not_elem_of_cons; repeat split;
  try discriminate; apply not_elem_of_nil.

(** [order_processor] on an order that exists, with the store accepting
    the commit and the broker up, field by field. *)
Lemma order_processor_forwards (w : World) (m : Message) (o : Order) :
  orders (db w) !! msg_order_id m = Some o ->
  commit_plan w = [] ->
  broker_up w = true ->
  let run := order_processor m w in
  fst run = Ok tt /\
  db (snd run) = with_orders (alter (set_status PROCESSING) (msg_order_id m)) (db w) /\
  commit_plan (snd run) = [] /\
  broker_up (snd run) = true /\
  mailer (snd run) = mailer w /\
  order_processing (snd run) = order_processing w /\
  inventory_update (snd run) =
    inventory_update w ++ [mkMessage (msg_order_id m) (items o)] /\
  emitted (snd run) =
    emitted w ++ [mkEvent (user_id o) (msg_order_id m) "processing"] /\
  shipping_threads (snd run) = shipping_threads w ++ [msg_order_id m] /\
  outbox (snd run) = outbox w /\
  never_logged (LogError "Failed to consume orders") w (snd run).
Proof.
  intros Ho Hp Hup run. subst run.
  destruct (order_processor m w) as [r w'] eqn:E. cbn [fst snd].
  unfold order_processor, fresh_session, Order_query_get, initiate_shipping,
    RabbitMQHandler.publish_inventory_update in E.
  crunch E. rewrite Ho in E. cbn in E. rewrite Hp in E. cbn in E.
  rewrite Hup in E. cbn in E. injection E as <- <-. cbn.
  repeat (split; [assumption || reflexivity|]).
  unfold never_logged. cbn. other_lines.
Qed.

Lemma set_status_twice (s : OrderStatus) (o : Order) :
  set_status s (set_status s o) = set_status s o.
Proof. reflexivity. Qed.

(** The loop of the Order Processor over a queue whose messages carry the
    items of their orders: no call of the callback raises. *)
Lemma consume_orders_forwards (msgs : list Message) (w : World) :
  commit_plan w = [] ->
  broker_up w = true ->
  Forall (fun m => items <$> orders (db w) !! msg_order_id m = Some (msg_items m)) msgs ->
  let run := RabbitMQHandler.consume_orders order_processor msgs w in
  fst run = Ok tt /\
  order_processing (snd run) = match msgs with [] => order_processing w | _ => [] end /\
  inventory_update (snd run) = inventory_update w ++ msgs /\
  shipping_threads (snd run) = shipping_threads w ++ map msg_order_id msgs /\
  books (db (snd run)) = books (db w) /\
  (forall k, orders (db (snd run)) !! k =
             (if decide (k ∈ map msg_order_id msgs)
              then set_status PROCESSING <$> orders (db w) !! k
              else orders (db w) !! k)) /\
  never_logged (LogError "Failed to consume orders") w (snd run).
Proof.
  revert w. induction msgs as [|m rest IH]; intros w Hp Hup Hall run; subst run.
  - cbn. rewrite !app_nil_r. repeat split. apply never_logged_here. reflexivity.
  - apply Forall_cons in Hall as [Hm Hrest].
    destruct (orders (db w) !! msg_order_id m) as [o|] eqn:Ho; [|discriminate].
    cbn in Hm. injection Hm as Hitems.
    destruct (RabbitMQHandler.consume_orders order_processor (m :: rest) w)
      as [r w'] eqn:E. cbn [fst snd].
    cbn [RabbitMQHandler.consume_orders] in E. unfold bind at 1 in E.
    unfold bind at 1 in E.
    match type of E with context [order_processor m ?w0] =>
      destruct (order_processor_forwards w0 m o Ho Hp Hup)
        as (Hf & Hdb & Hp1 & Hup1 & _ & Hq1 & Hinv1 & _ & Hthr1 & _ & Hlog1);
      destruct (order_processor m w0) as [r1 w1] end.
    cbn [fst snd] in *. subst r1.
    cbn in Hdb, Hq1, Hinv1, Hthr1.
    destruct (IH w1 Hp1 Hup1) as (Hf2 & Hq2 & Hinv2 & Hthr2 & Hb2 & Ho2 & Hlog2).
    { rewrite Hdb. cbn. eapply Forall_impl; [exact Hrest|]. intros m' Hm'. cbn in Hm'.
      rewrite lookup_alter. case_decide as Heq; [rewrite Heq|exact Hm'].
      rewrite <- Hm'. destruct (orders (db w) !! msg_order_id m'); reflexivity. }
    rewrite E in Hf2, Hq2, Hinv2, Hthr2, Hb2, Ho2, Hlog2. cbn [fst snd] in *.
    rewrite Hinv2, Hinv1, Hthr2, Hthr1, Hb2, Hdb, Hitems. cbn.
    rewrite <- !app_assoc. repeat split.
    + exact Hf2.
    + rewrite Hq2, Hq1. destruct rest; reflexivity.
    + destruct m; reflexivity.
    + intros k. rewrite Ho2, Hdb. cbn. rewrite lookup_alter.
      destruct (decide (msg_order_id m = k)) as [<-|Hne].
      * rewrite Ho. rewrite (decide_True (P := _ ∈ _ :: _)) by left.
        case_decide; reflexivity.
      * destruct (decide (k ∈ map msg_order_id rest)) as [Hin|Hnin].
        -- rewrite decide_True by (right; exact Hin). reflexivity.
        -- rewrite decide_False; [reflexivity|].
           intros Hin. apply elem_of_cons in Hin as [Hin|Hin]; congruence.
    + eapply never_logged_then; [|exact Hlog2].
      eapply never_logged_then; [|exact Hlog1]. apply never_logged_here. reflexivity.
Qed.

(** X9. With every commit accepted and the broker up, the Order
    Processor's consumer takes every message of a queue whose messages
    carry the items of their orders, and no callback raises: the wrapper
    logs no "Failed to consume orders", so the worker stays in its loop;
    every named order is in PROCESSING, the messages are appended to the
    'inventory_update' queue unchanged and in the same order, one shipping
    thread per message is started in that order, and no Book row
    changes. *)
Theorem order_worker_forwards_in_order (w : World) :
  commit_plan w = [] ->
  broker_up w = true ->
  Forall (fun m => items <$> orders (db w) !! msg_order_id m = Some (msg_items m))
         (order_processing w) ->
  let run := start_order_processing w in
  never_logged (LogError "Failed to consume orders") w (snd run) /\
  order_processing (snd run) = [] /\
  inventory_update (snd run) = inventory_update w ++ order_processing w /\
  shipping_threads (snd run) =
    shipping_threads w ++ map msg_order_id (order_processing w) /\
  books (db (snd run)) = books (db w) /\
  (forall m, m ∈ order_processing w ->
             status_of (snd run) (msg_order_id m) = Some PROCESSING).
Proof.
  intros Hp Hup Hall run. subst run.
  destruct (start_order_processing w) as [r w'] eqn:E. cbn [fst snd].
  unfold start_order_processing, RabbitMQHandler.process_orders in E.
  unfold try_except, bind at 1, log_info at 1 in E.
  cbn [order_processing set_logged] in E.
  match type of E with context [RabbitMQHandler.consume_orders _ _ ?w0] =>
    destruct (consume_orders_forwards (order_processing w) w0 Hp Hup Hall)
      as (Hf & Hq & Hinv & Hthr & Hb & Ho & Hlog);
    destruct (RabbitMQHandler.consume_orders order_processor (order_processing w) w0)
      as [r1 w1] end.
  cbn [fst snd] in *. subst r1. injection E as <- <-.
  cbn in Hq, Hinv, Hthr, Hb, Ho. repeat split; try assumption.
  - eapply never_logged_then; [|exact Hlog]. unfold never_logged. cbn. other_lines.
  - rewrite Hq. destruct (order_processing w); reflexivity.
  - intros m Hm. unfold status_of. rewrite Ho.
    rewrite decide_True by (apply list_elem_of_fmap; eauto).
    rewrite Forall_forall in Hall. specialize (Hall m Hm).
    destruct (orders (db w) !! msg_order_id m); [reflexivity|discriminate].
Qed.

(** [update_inventory] on an order that exists, with every commit
    accepted: it raises nothing, and the order is the only row of the
    Order table it changes, to PROCESSING or to CANCELLED. *)
Lemma update_inventory_settles (w : World) (m : Message) (o : Order) :
  orders (db w) !! msg_order_id m = Some o ->
  commit_plan w = [] ->
  let run := update_inventory m w in
  fst run = Ok None /\
  commit_plan (snd run) = [] /\
  order_processing (snd run) = order_processing w /\
  inventory_update (snd run) = inventory_update w /\
  shipping_threads (snd run) = shipping_threads w /\
  never_logged (LogError "Failed to consume inventory updates") w (snd run) /\
  exists s, (s = PROCESSING \/ s = CANCELLED) /\
            orders (db (snd run)) = alter (set_status s) (msg_order_id m) (orders (db w)).
Proof.
  intros Ho Hp run. subst run.
  assert (Hcancel : forall s r w' e,
    orders s = orders (db w) ->
    match e with
    | InsufficientStockError =>
        cancel_after "Insufficient stock for order" (Some (msg_order_id m, o))
    | _ => cancel_after "Error processing order" (Some (msg_order_id m, o))
    end (set_sess s (set_logged (logged w ++ [LogInfo "Updating inventory"])
                       (set_sess (db w) w))) = (r, w') ->
    r = Ok None /\ commit_plan w' = [] /\
    order_processing w' = order_processing w /\
    inventory_update w' = inventory_update w /\
    shipping_threads w' = shipping_threads w /\
    never_logged (LogError "Failed to consume inventory updates") w w' /\
    exists st, (st = PROCESSING \/ st = CANCELLED) /\
               orders (db w') = alter (set_status st) (msg_order_id m) (orders (db w))).
  { intros s r w' e Hor E.
    destruct e; crunch E; rewrite Hp in E; cbn in E; injection E as <- <-; cbn;
      rewrite Hor; repeat split; eauto; unfold never_logged; cbn; other_lines. }
  destruct (update_inventory m w) as [r w'] eqn:E. cbn [fst snd].
  unfold update_inventory, fresh_session in E.
  unfold bind at 1, log_info at 1 in E.
  unfold bind at 1, Order_query_get at 1 in E.
  cbn [sess set_sess set_logged db] in E.
  rewrite Ho in E. cbn [fmap option_fmap option_map] in E.
  unfold try_except at 1 in E. unfold bind at 1, lift at 1 in E.
  destruct (iter (msg_items m)) as [its|e0].
  - unfold bind at 1 in E.
    match type of E with context [check_stock its ?w0] =>
      pose proof (check_stock_frame its w0) as Hck;
      destruct (check_stock its w0) as [[[]|e1] w1]; cbn in Hck; subst w1 end.
    + unfold bind at 1, lift at 1 in E. unfold bind at 1 in E.
      match type of E with context [deduct_stock its ?w0] =>
        destruct (deduct_stock_frame its w0) as (s & Hrun & Hu & Hor & Hq);
        destruct (deduct_stock its w0) as [[[]|e1] w1]; cbn in Hrun; subst w1 end;
      cbn in Hor.
      * crunch E. rewrite Hp in E. cbn in E. injection E as <- <-. cbn.
        rewrite Hor. repeat split; eauto. unfold never_logged; cbn; other_lines.
      * apply (Hcancel s _ _ e1 Hor E).
    + apply (Hcancel (db w) _ _ e1 eq_refl). exact E.
  - apply (Hcancel (db w) _ _ e0 eq_refl). exact E.
Qed.

(** The loop of the Inventory worker over messages whose orders exist: no
    call of the callback raises. *)
Lemma consume_inventory_updates_settles (msgs : list Message) (w : World) :
  commit_plan w = [] ->
  Forall (fun m => is_Some (orders (db w) !! msg_order_id m)) msgs ->
  let run := RabbitMQHandler.consume_inventory_updates inventory_processor msgs w in
  fst run = Ok tt /\
  inventory_update (snd run) = match msgs with [] => inventory_update w | _ => [] end /\
  order_processing (snd run) = order_processing w /\
  shipping_threads (snd run) = shipping_threads w /\
  (forall k, k ∉ map msg_order_id msgs ->
             orders (db (snd run)) !! k = orders (db w) !! k) /\
  (forall k, k ∈ map msg_order_id msgs ->
             status_of (snd run) k = Some PROCESSING \/
             status_of (snd run) k = Some CANCELLED) /\
  never_logged (LogError "Failed to consume inventory updates") w (snd run).
Proof.
  revert w. induction msgs as [|m rest IH]; intros w Hp Hall run; subst run.
  - cbn. repeat split; [intros k Hk; inversion Hk|].
    apply never_logged_here. reflexivity.
  - apply Forall_cons in Hall as [[o Ho] Hrest].
    destruct (RabbitMQHandler.consume_inventory_updates inventory_processor (m :: rest) w)
      as [r w'] eqn:E. cbn [fst snd].
    cbn [RabbitMQHandler.consume_inventory_updates] in E. unfold bind at 1 in E.
    unfold bind at 1 in E.
    match type of E with context [inventory_processor m ?w0] =>
      destruct (inventory_processor_run m w0) as [Hw Hr];
      destruct (update_inventory_settles w0 m o Ho Hp)
        as (Hf & Hp1 & Hq1 & Hinv1 & Hthr1 & Hlog1 & s & Hs & Hor1);
      rewrite Hf in Hr; rewrite <- Hw in Hp1, Hq1, Hinv1, Hthr1, Hlog1, Hor1;
      destruct (inventory_processor m w0) as [r1 w1] end.
    cbn [fst snd] in *. subst r1. cbn in Hq1, Hinv1, Hthr1, Hor1.
    destruct (IH w1 Hp1) as (Hf2 & Hinv2 & Hq2 & Hthr2 & Hout2 & Hin2 & Hlog2).
    { rewrite Hor1. eapply Forall_impl; [exact Hrest|]. intros m' [o' Hm'].
      rewrite lookup_alter. case_decide as Heq; [rewrite Heq|]; rewrite Hm'; cbn; eauto. }
    rewrite E in Hf2, Hinv2, Hq2, Hthr2, Hout2, Hin2, Hlog2. cbn [fst snd] in *.
    repeat split.
    + exact Hf2.
    + rewrite Hinv2, Hinv1. destruct rest; reflexivity.
    + congruence.
    + congruence.
    + intros k Hk. cbn [map] in Hk. apply not_elem_of_cons in Hk as [Hne Hk].
      rewrite Hout2 by exact Hk. rewrite Hor1. apply lookup_alter_ne. congruence.
    + intros k Hk. cbn [map] in Hk.
      destruct (decide (k ∈ map msg_order_id rest)) as [Hin|Hnin]; [apply Hin2, Hin|].
      apply elem_of_cons in Hk as [->|Hk]; [|contradiction].
      unfold status_of. rewrite Hout2 by exact Hnin. rewrite Hor1, lookup_alter_eq, Ho.
      cbn. destruct Hs as [->| ->]; auto.
    + eapply never_logged_then; [|exact Hlog2].
      eapply never_logged_then; [|exact Hlog1]. apply never_logged_here. reflexivity.
Qed.

(** X10. With every commit accepted, the Inventory consumer takes every
    queued message whose order exists, whatever its items are: a
    reservation that fails is cancelled inside [update_inventory] and does
    not leave the loop. The wrapper logs no "Failed to consume inventory
    updates", the queue is used up, every named order ends in PROCESSING or
    CANCELLED, the orders not named keep their rows, nothing is published
    and no thread is started. *)
Theorem inventory_worker_handles_every_message (w : World) :
  commit_plan w = [] ->
  Forall (fun m => is_Some (orders (db w) !! msg_order_id m)) (inventory_update w) ->
  let run := start_inventory_processing w in
  never_logged (LogError "Failed to consume inventory updates") w (snd run) /\
  inventory_update (snd run) = [] /\
  order_processing (snd run) = order_processing w /\
  shipping_threads (snd run) = shipping_threads w /\
  (forall m, m ∈ inventory_update w ->
             status_of (snd run) (msg_order_id m) = Some PROCESSING \/
             status_of (snd run) (msg_order_id m) = Some CANCELLED) /\
  (forall k, k ∉ map msg_order_id (inventory_update w) ->
             orders (db (snd run)) !! k = orders (db w) !! k).
Proof.
  intros Hp Hall run. subst run.
  destruct (start_inventory_processing w) as [r w'] eqn:E. cbn [fst snd].
  unfold start_inventory_processing, RabbitMQHandler.process_inventory_updates in E.
  unfold try_except, bind at 1, log_info at 1 in E.
  cbn [inventory_update set_logged] in E.
  match type of E with context [RabbitMQHandler.consume_inventory_updates _ _ ?w0] =>
    destruct (consume_inventory_updates_settles (inventory_update w) w0 Hp Hall)
      as (Hf & Hinv & Hq & Hthr & Hout & Hin & Hlog);
    destruct (RabbitMQHandler.consume_inventory_updates inventory_processor
                (inventory_update w) w0) as [r1 w1] end.
  cbn [fst snd] in *. subst r1. injection E as <- <-.
  cbn in Hinv, Hq, Hthr, Hout, Hin. repeat split; try assumption.
  - eapply never_logged_then; [|exact Hlog]. unfold never_logged. cbn. other_lines.
  - rewrite Hinv. destruct (inventory_update w); reflexivity.
  - intros m Hm. apply Hin. apply list_elem_of_fmap. eauto.
Qed.

(** Two messages, forwarded in the order of their arrival. *)
Lemma order_worker_forwards_in_order_witness :
  let w := Cases.two_submitted in
  let run := start_order_processing w in
  never_logged (LogError "Failed to consume orders") w (snd run) /\
  inventory_update (snd run) =
    [mkMessage 1 (items_json Scenario.plain_items);
     mkMessage 2 (items_json Cases.second_items)] /\
  shipping_threads (snd run) = [1; 2] /\
  order_processing (snd run) = [] /\
  status_of (snd run) 1 = Some PROCESSING /\
  status_of (snd run) 2 = Some PROCESSING.
Proof.
  destruct (order_worker_forwards_in_order Cases.two_submitted eq_refl eq_refl)
    as (Hlog & Hq & Hinv & Hthr & _ & Hst).
  - repeat constructor.
  - split; [exact Hlog|]. split; [exact Hinv|]. split; [exact Hthr|].
    split; [exact Hq|]. split.
    + apply (Hst (mkMessage 1 (items_json Scenario.plain_items))). left.
    + apply (Hst (mkMessage 2 (items_json Cases.second_items))). right. left.
Defined.

(** A reservation that fails, followed by one for an order still PENDING. *)
Lemma inventory_worker_handles_every_message_witness :
  let w := Cases.two_forwarded in
  let run := start_inventory_processing w in
  status_of (snd (update_inventory (mkMessage 1 (items_json Cases.greedy_items)) w)) 1 =
    Some CANCELLED /\
  status_of w 2 = Some PENDING /\
  never_logged (LogError "Failed to consume inventory updates") w (snd run) /\
  inventory_update (snd run) = [] /\
  (status_of (snd run) 2 = Some PROCESSING \/ status_of (snd run) 2 = Some CANCELLED).
Proof.
  destruct (inventory_worker_handles_every_message Cases.two_forwarded eq_refl)
    as (Hlog & Hinv & _ & _ & Hst & _).
  - repeat constructor; vm_compute; eauto.
  - split; [reflexivity|]. split; [reflexivity|].
    split; [exact Hlog|]. split; [exact Hinv|].
    apply (Hst (mkMessage 2 (items_json Cases.second_items))). right. left.
Defined.

(* ===================================================================== *)
(** * Further properties: shipping and cancelling *)
(* ===================================================================== *)

(** X11. When the order, its user or its book is missing, the book has no
    pdf path, or the file cannot be opened, [ship_order] ends in an
    exception before it writes: the store, the events and the mails sent
    are as before. *)
Theorem ship_order_needs_its_rows (w : World) (oid : Z) :
  deliverable w oid = false ->
  let run := ship_order oid w in
  (exists e, fst run = Raise e) /\
  db (snd run) = db w /\
  emitted (snd run) = emitted w /\
  outbox (snd run) = outbox w.
Proof.
  intros Hno run. subst run. unfold deliverable in Hno.
  destruct (ship_order oid w) as [r w'] eqn:E. cbn [fst snd].
  unfold ship_order, fresh_session, Order_query_get, Book_query_get,
    User_query_get, send_book_email in E.
  crunch E.
  destruct (orders (db w) !! oid) as [o|]; cbn in E;
    [|injection E as <- <-; cbn; eauto].
  destruct (users (db w) !! user_id o) as [u|]; cbn in E;
    [|injection E as <- <-; cbn; eauto].
  destruct (books (db w) !! book_id o) as [b|]; cbn in E;
    [|injection E as <- <-; cbn; eauto].
  destruct (pdf_path b) as [path|]; cbn in E;
    [|injection E as <- <-; cbn; eauto].
  destruct (mailer w); try discriminate; cbn in E.
  injection E as <- <-; cbn; eauto.
Qed.

(** X12. When sending the mail fails, [ship_order] still passes through
    SHIPPED: with both commits accepted it emits "shipped" and then
    "cancelled", the order ends CANCELLED, no mail is in the outbox and no
    stock is given back. *)
Theorem ship_order_failed_mail
    (w : World) (oid : Z) (o : Order) (b : Book) (u : User) (path : string) :
  orders (db w) !! oid = Some o ->
  books (db w) !! book_id o = Some b ->
  users (db w) !! user_id o = Some u ->
  pdf_path b = Some path ->
  mailer w = MailFailed ->
  accepts 2 w = true ->
  let run := ship_order oid w in
  fst run = Ok tt /\
  outbox (snd run) = outbox w /\
  status_of (snd run) oid = Some CANCELLED /\
  books (db (snd run)) = books (db w) /\
  emitted (snd run) =
    emitted w ++ [mkEvent (user_id o) oid "shipped";
                  mkEvent (user_id o) oid "cancelled"].
Proof.
  intros Ho Hb Hu Hpath Hmail Hacc run. subst run.
  destruct (ship_order oid w) as [r w'] eqn:E. cbn [fst snd].
  unfold ship_order, fresh_session, Order_query_get, Book_query_get,
    User_query_get, send_book_email in E.
  crunch E. unfold status_of.
  rewrite Ho in E. cbn in E. rewrite Hu, Hb in E. cbn in E.
  rewrite Hpath in E. cbn in E. rewrite Hmail in E. cbn in E.
  unfold accepts in Hacc.
  destruct (commit_plan w) as [|[|] [|[|] plan]] eqn:Hp; try discriminate;
    cbn in E; rewrite ?Hp in E; cbn in E;
    injection E as <- <-; cbn; rewrite !lookup_alter_eq, Ho; cbn;
    rewrite <- ?app_assoc; repeat split.
Qed.

(** [cancel_order] by an allowed caller on an order in PENDING or
    PROCESSING, the commit accepted, field by field. *)
Lemma cancel_order_accepted
    (w : World) (current_user : CurrentUser) (oid : Z) (o : Order) :
  orders (db w) !! oid = Some o ->
  authorized current_user o = true ->
  status o = PENDING \/ status o = PROCESSING ->
  commit_accepted w = true ->
  let run := cancel_order current_user oid w in
  db (snd run) = with_orders (alter (set_status CANCELLED) oid) (db w) /\
  commit_plan (snd run) = tail (commit_plan w) /\
  emitted (snd run) = emitted w ++ [mkEvent (user_id o) oid "cancelled"].
Proof.
  intros Ho Hauth Hs Hc run. subst run.
  destruct (cancel_order current_user oid w) as [r w'] eqn:E. cbn [fst snd].
  unfold cancel_order, fresh_session, Order_query_get_or_404 in E.
  crunch E. rewrite Ho in E. cbn in E.
  unfold authorized in Hauth. rewrite <- negb_orb, Hauth in E. cbn in E.
  unfold commit_accepted in Hc.
  destruct Hs as [Hs|Hs]; rewrite Hs in E; cbn in E;
    destruct (commit_plan w) as [|[|] plan] eqn:Hp; try discriminate; cbn in E;
    injection E as <- <-; cbn; repeat split; exact Hp.
Qed.

(** X13. After a successful [cancel_order], a further [cancel_order] by
    any caller allowed on the order answers 400 "Order cannot be
    cancelled" with status "cancelled", and changes neither the store nor
    the events. *)
Theorem cancelled_order_stays_cancelled
    (w : World) (first second : CurrentUser) (oid : Z) (o : Order) :
  orders (db w) !! oid = Some o ->
  authorized first o = true ->
  authorized second o = true ->
  status o = PENDING \/ status o = PROCESSING ->
  commit_accepted w = true ->
  let cancelled := snd (cancel_order first oid w) in
  let run := cancel_order second oid cancelled in
  fst run = Ok (jsonify [("message", JStr "Order cannot be cancelled");
                         ("status", JStr "cancelled")] 400) /\
  db (snd run) = db cancelled /\
  emitted (snd run) = emitted cancelled /\
  status_of (snd run) oid = Some CANCELLED.
Proof.
  intros Ho H1 H2 Hs Hc cancelled run. subst run cancelled.
  destruct (cancel_order_accepted w first oid o Ho H1 Hs Hc) as (Hdb & _ & _).
  set (w1 := snd (cancel_order first oid w)) in *.
  assert (Hrow : orders (db w1) !! oid = Some (set_status CANCELLED o))
    by (rewrite Hdb; cbn; rewrite lookup_alter_eq, Ho; reflexivity).
  pose proof (cancel_order_outcome second oid (set_status CANCELLED o) w1 Hrow) as H.
  cbn zeta in H. unfold authorized in H, H2. cbn [set_status user_id status] in H.
  rewrite H2 in H. cbn [negb] in H.
  destruct H as (_ & _ & _ & _ & Hf & Hd & Hev). repeat split; try assumption.
  unfold status_of. rewrite Hd, Hrow. reflexivity.
Qed.

(** X14. [cancel_order] gives no stock back: after a reservation that
    went through, cancelling the order leaves it CANCELLED and every book
    at its stock minus what the order's lines asked for. *)
Theorem cancel_after_reservation_keeps_deduction
    (w : World) (current_user : CurrentUser) (oid : Z) (o : Order)
    (its : list Item) :
  orders (db w) !! oid = Some o ->
  Forall (available (books (db w))) its ->
  authorized current_user o = true ->
  accepts 2 w = true ->
  let reserved := snd (update_inventory (mkMessage oid (items_json its)) w) in
  let run := cancel_order current_user oid reserved in
  status_of (snd run) oid = Some CANCELLED /\
  (forall b, stock_of (snd run) b = (fun n => n - demand its b) <$> stock_of w b).
Proof.
  intros Ho Hall Hauth Hacc reserved run. subst run reserved.
  assert (Hc : commit_accepted w = true).
  { unfold accepts in Hacc. unfold commit_accepted.
    destruct (commit_plan w) as [|[|] ?]; [reflexivity|reflexivity|discriminate]. }
  destruct (reservation_accepted w oid o its Ho Hall Hc)
    as (_ & Hbooks & Hor & _ & _ & Hp & _).
  set (w1 := snd (update_inventory (mkMessage oid (items_json its)) w)) in *.
  assert (Hrow : orders (db w1) !! oid = Some (set_status PROCESSING o))
    by (rewrite Hor, lookup_alter_eq, Ho; reflexivity).
  assert (Hc1 : commit_accepted w1 = true).
  { unfold commit_accepted. rewrite Hp. unfold accepts in Hacc.
    destruct (commit_plan w) as [|[|] [|[|] ?]]; try reflexivity; discriminate. }
  pose proof (cancel_order_outcome current_user oid (set_status PROCESSING o) w1 Hrow) as H.
  cbn zeta in H. unfold authorized in H, Hauth. cbn [set_status user_id status] in H.
  rewrite Hauth, Hc1 in H. cbn [negb] in H.
  destruct H as (Hb & _ & _ & _ & _ & Hst & _). split; [exact Hst|].
  intros b. unfold stock_of. rewrite Hb, Hbooks.
  destruct (books (db w) !! b); reflexivity.
Qed.

(** Order 7 does not exist. *)
Lemma ship_order_needs_its_rows_witness :
  let w := Scenario.at_rest Scenario.plain_store in
  deliverable w 7 = false /\
  db (snd (ship_order 7 w)) = db w /\
  outbox (snd (ship_order 7 w)) = [].
Proof.
  destruct (ship_order_needs_its_rows (Scenario.at_rest Scenario.plain_store) 7 eq_refl)
    as (_ & Hdb & _ & Hout).
  split; [reflexivity|]. split; [exact Hdb|exact Hout].
Defined.

(** Order 1 with a mail server that refuses. *)
Lemma ship_order_failed_mail_witness :
  let w := Cases.undelivered Scenario.plain_store in
  let run := ship_order 1 w in
  outbox (snd run) = [] /\
  status_of (snd run) 1 = Some CANCELLED /\
  map ev_status (emitted (snd run)) = ["shipped"; "cancelled"].
Proof.
  destruct (ship_order_failed_mail (Cases.undelivered Scenario.plain_store) 1
              Scenario.plain_order (Scenario.book "X" 10) Scenario.alice "book.pdf"
              eq_refl eq_refl eq_refl eq_refl eq_refl eq_refl)
    as (_ & Hout & Hst & _ & Hev).
  split; [exact Hout|]. split; [exact Hst|]. cbn zeta. rewrite Hev. reflexivity.
Defined.

(** alice cancels, then the administrator tries again. *)
Lemma cancelled_order_stays_cancelled_witness :
  let w := Scenario.at_rest Scenario.plain_store in
  let cancelled := snd (cancel_order Scenario.as_alice 1 w) in
  let run := cancel_order Scenario.as_root 1 cancelled in
  fst run = Ok (jsonify [("message", JStr "Order cannot be cancelled");
                         ("status", JStr "cancelled")] 400) /\
  status_of (snd run) 1 = Some CANCELLED.
Proof.
  destruct (cancelled_order_stays_cancelled (Scenario.at_rest Scenario.plain_store)
              Scenario.as_alice Scenario.as_root 1 Scenario.plain_order
              eq_refl eq_refl eq_refl (or_intror eq_refl) eq_refl)
    as (Hf & _ & _ & Hst).
  split; [exact Hf|exact Hst].
Defined.

(** Order 1 reserved, then cancelled: book 3 stays at eight. *)
Lemma cancel_after_reservation_keeps_deduction_witness :
  let w := Scenario.at_rest Scenario.plain_store in
  let reserved := snd (update_inventory (mkMessage 1 (items_json Scenario.plain_items)) w) in
  let run := cancel_order Scenario.as_alice 1 reserved in
  status_of (snd run) 1 = Some CANCELLED /\
  stock_of (snd run) 3 = Some 8.
Proof.
  destruct (cancel_after_reservation_keeps_deduction
              (Scenario.at_rest Scenario.plain_store) Scenario.as_alice 1
              Scenario.plain_order Scenario.plain_items eq_refl) as (Hst & Hb).
  - repeat constructor. vm_compute. discriminate.
  - reflexivity.
  - reflexivity.
  - split; [exact Hst|]. rewrite Hb. reflexivity.
Defined.

(* ===================================================================== *)
(** * Further properties: the reservation and the shipping thread *)
(* ===================================================================== *)

(** X15. After [order_processor] has taken the message of an order whose
    lines can all be served, the reservation message and the shipping
    thread of the order are both outstanding, and the status the order is
    left in depends on which of them runs first: when [update_inventory]
    runs before [ship_order] the order ends CANCELLED, when [ship_order]
    runs first it ends PROCESSING. In both orders the stock is reduced by
    the lines, the book is mailed to the buyer and the same four events
    are emitted. (Store accepting every commit, broker up, mail going
    out.) *)
Theorem final_status_depends_on_schedule
    (w : World) (m : Message) (o : Order) (its : list Item)
    (b : Book) (u : User) (path : string) :
  commit_plan w = [] ->
  broker_up w = true ->
  mailer w = MailSent ->
  orders (db w) !! msg_order_id m = Some o ->
  items o = items_json its ->
  Forall (available (books (db w))) its ->
  books (db w) !! book_id o = Some b ->
  pdf_path b = Some path ->
  users (db w) !! user_id o = Some u ->
  let oid := msg_order_id m in
  let reservation := mkMessage oid (items o) in
  let forwarded := snd (order_processor m w) in
  let reserved_first :=
    snd (ship_order oid (snd (update_inventory reservation forwarded))) in
  let shipped_first :=
    snd (update_inventory reservation (snd (ship_order oid forwarded))) in
  inventory_update forwarded = inventory_update w ++ [reservation] /\
  shipping_threads forwarded = shipping_threads w ++ [oid] /\
  status_of reserved_first oid = Some CANCELLED /\
  status_of shipped_first oid = Some PROCESSING /\
  (forall k, stock_of reserved_first k = (fun n => n - demand its k) <$> stock_of w k) /\
  (forall k, stock_of shipped_first k = (fun n => n - demand its k) <$> stock_of w k) /\
  outbox reserved_first = outbox w ++ [mkMail (email u) (title b)] /\
  outbox shipped_first = outbox w ++ [mkMail (email u) (title b)] /\
  emitted reserved_first =
    emitted w ++ [mkEvent (user_id o) oid "processing";
                  mkEvent (user_id o) oid "processing";
                  mkEvent (user_id o) oid "shipped";
                  mkEvent (user_id o) oid "cancelled"] /\
  emitted shipped_first =
    emitted w ++ [mkEvent (user_id o) oid "processing";
                  mkEvent (user_id o) oid "shipped";
                  mkEvent (user_id o) oid "cancelled";
                  mkEvent (user_id o) oid "processing"].
Proof.
  intros Hp Hup Hmail Ho Hitems Hall Hb Hpath Hu oid reservation forwarded.
  subst oid reservation forwarded. cbn zeta.
  destruct (order_processor_forwards w m o Ho Hp Hup)
    as (_ & Hdb1 & Hp1 & _ & Hm1 & _ & Hinv1 & Hev1 & Hthr1 & Hout1 & _).
  destruct (order_processor m w) as [r1 w1]. cbn [fst snd] in *.
  rewrite Hitems in *.
  assert (Ho1 : orders (db w1) !! msg_order_id m = Some (set_status PROCESSING o))
    by (rewrite Hdb1; cbn; rewrite lookup_alter_eq, Ho; reflexivity).
  assert (Hb1 : books (db w1) = books (db w)) by (rewrite Hdb1; reflexivity).
  assert (Hu1 : users (db w1) = users (db w)) by (rewrite Hdb1; reflexivity).
  assert (Hall1 : Forall (available (books (db w1))) its) by (rewrite Hb1; exact Hall).
  assert (Hacc : forall x, commit_plan x = [] -> commit_accepted x = true /\ accepts 2 x = true)
    by (intros x Hx; unfold commit_accepted, accepts; rewrite Hx; split; reflexivity).
  split; [exact Hinv1|]. split; [exact Hthr1|].
  (* the reservation first *)
  destruct (reservation_accepted w1 (msg_order_id m) _ its Ho1 Hall1 (proj1 (Hacc w1 Hp1)))
    as (_ & Hb2 & Hor2 & Hu2 & Hev2 & Hp2 & _ & Hm2 & _ & _ & _ & Hout2).
  destruct (update_inventory (mkMessage (msg_order_id m) (items_json its)) w1)
    as [r2 w2]. cbn [fst snd] in *.
  rewrite Hp1 in Hp2. cbn in Hp2.
  assert (Ho2 : orders (db w2) !! msg_order_id m =
                Some (set_status PROCESSING (set_status PROCESSING o)))
    by (rewrite Hor2, lookup_alter_eq, Ho1; reflexivity).
  assert (Hbk2 : books (db w2) !! book_id o =
                 Some (set_stock (stock b - demand its (book_id o)) b))
    by (rewrite Hb2, Hb1, Hb; reflexivity).
  assert (Hu2' : users (db w2) !! user_id o = Some u) by (rewrite Hu2, Hu1; exact Hu).
  destruct (ship_order_delivers w2 (msg_order_id m) _ _ u path Ho2 Hbk2 Hu2' Hpath)
    as (_ & Hb3 & _ & Hor3 & Hev3 & Hout3 & _);
    [rewrite Hm2, Hm1, Hmail; discriminate|exact (proj2 (Hacc w2 Hp2))|].
  rewrite Hm2, Hm1, Hmail in Hout3.
  destruct (ship_order (msg_order_id m) w2) as [r3 w3]. cbn [fst snd] in *.
  (* the shipping thread first *)
  destruct (ship_order_delivers w1 (msg_order_id m) _ b u path Ho1)
    as (_ & Hb4 & Hu4 & Hor4 & Hev4 & Hout4 & Hp4 & _ & _ & _ & _ & _);
    [rewrite Hb1; exact Hb|rewrite Hu1; exact Hu|exact Hpath
    |rewrite Hm1, Hmail; discriminate|exact (proj2 (Hacc w1 Hp1))|].
  rewrite Hm1, Hmail in Hout4.
  destruct (ship_order (msg_order_id m) w1) as [r4 w4]. cbn [fst snd] in *.
  rewrite Hp1 in Hp4. cbn in Hp4.
  assert (Hall4 : Forall (available (books (db w4))) its)
    by (rewrite Hb4, Hb1; exact Hall).
  destruct (reservation_accepted w4 (msg_order_id m) _ its Hor4 Hall4 (proj1 (Hacc w4 Hp4)))
    as (_ & Hb5 & Hor5 & _ & Hev5 & _ & _ & _ & _ & _ & _ & Hout5).
  destruct (update_inventory (mkMessage (msg_order_id m) (items_json its)) w4)
    as [r5 w5]. cbn [fst snd] in *.
  cbn [set_status user_id title set_stock] in *.
  unfold status_of, stock_of. repeat split.
  - rewrite Hor3. reflexivity.
  - rewrite Hor5, lookup_alter_eq, Hor4. reflexivity.
  - intros k. rewrite Hb3, Hb2, Hb1. destruct (books (db w) !! k); reflexivity.
  - intros k. rewrite Hb5, Hb4, Hb1. destruct (books (db w) !! k); reflexivity.
  - rewrite Hout3, Hout2, Hout1. reflexivity.
  - rewrite Hout5, Hout4, Hout1. reflexivity.
  - rewrite Hev3, Hev2, Hev1. rewrite <- !app_assoc. reflexivity.
  - rewrite Hev5, Hev4, Hev1. rewrite <- !app_assoc. reflexivity.
Qed.

(** Order 1 for two copies of book 3, under both orders. *)
Lemma final_status_depends_on_schedule_witness :
  let w := Cases.plain_submitted in
  let m := mkMessage 1 (items_json Scenario.plain_items) in
  let forwarded := snd (order_processor m w) in
  let reserved_first := snd (ship_order 1 (snd (update_inventory m forwarded))) in
  let shipped_first := snd (update_inventory m (snd (ship_order 1 forwarded))) in
  status_of reserved_first 1 = Some CANCELLED /\
  status_of shipped_first 1 = Some PROCESSING /\
  stock_of reserved_first 3 = Some 8 /\
  stock_of shipped_first 3 = Some 8.
Proof.
  destruct (final_status_depends_on_schedule Cases.plain_submitted
              (mkMessage 1 (items_json Scenario.plain_items))
              (set_status PENDING Scenario.plain_order) Scenario.plain_items
              (Scenario.book "X" 10) Scenario.alice "book.pdf"
              eq_refl eq_refl eq_refl eq_refl eq_refl)
    as (_ & _ & Hr & Hs & Hbr & Hbs & _).
  - repeat constructor. vm_compute. discriminate.
  - reflexivity.
  - reflexivity.
  - reflexivity.
  - split; [exact Hr|]. split; [exact Hs|].
    split; [rewrite Hbr; reflexivity|rewrite Hbs; reflexivity].
Defined.

(* ===================================================================== *)
(** * Further properties: delete_book *)
(* ===================================================================== *)

Lemma delete_book_outcome
    (removable : string -> bool) (current_user : CurrentUser) (book_id : Z) (w : World) :
  let run := delete_book removable current_user book_id w in
  orders (db (snd run)) = orders (db w) /\
  users (db (snd run)) = users (db w) /\
  emitted (snd run) = emitted w /\
  if negb (cu_is_admin current_user)
  then fst run = Ok (jsonify [("message", JStr "Admin access required")] 403) /\
       db (snd run) = db w
  else
    match books (db w) !! book_id with
    | None => fst run = Raise NotFound /\ db (snd run) = db w
    | Some b =>
        if commit_accepted w
        then
          books (db (snd run)) = delete book_id (books (db w)) /\
          fst run =
            match file_of b with
            | Some path =>
                if removable path
                then Ok (jsonify [("message", JStr "Book deleted successfully")] 200)
                else Ok (jsonify [("message", JStr "Error deleting book");
                                  ("error", JStr "OSError")] 500)
            | None => Ok (jsonify [("message", JStr "Book deleted successfully")] 200)
            end
        else
          fst run = Ok (jsonify [("message", JStr "Error deleting book");
                                 ("error", JStr "SQLAlchemyError")] 500) /\
          db (snd run) = db w
    end.
Proof.
  intros run. subst run.
  destruct (delete_book removable current_user book_id w) as [r w'] eqn:E.
  cbn [fst snd].
  unfold delete_book, fresh_session, Book_query_get_or_404, session_delete_book,
    os_remove in E.
  crunch E.
  destruct (cu_is_admin current_user); cbn in E |- *;
    [|injection E as <- <-; repeat split].
  destruct (books (db w) !! book_id) as [b|]; cbn in E;
    [|injection E as <- <-; repeat split].
  unfold commit_accepted, file_of.
  destruct (commit_plan w) as [|[|] plan]; cbn in E;
    try (destruct (pdf_path b) as [[|c rest]|]; cbn in E;
         try (destruct (removable (String c rest)); cbn in E));
    injection E as <- <-; cbn; repeat split.
Qed.

(** [delete_book] by an administrator on a book that exists tries one
    commit. *)
Lemma delete_book_commits_once
    (removable : string -> bool) (current_user : CurrentUser) (book_id : Z)
    (b : Book) (w : World) :
  cu_is_admin current_user = true ->
  books (db w) !! book_id = Some b ->
  commit_plan (snd (delete_book removable current_user book_id w)) = tail (commit_plan w).
Proof.
  intros Hadmin Hb.
  destruct (delete_book removable current_user book_id w) as [r w'] eqn:E.
  cbn [fst snd].
  unfold delete_book, fresh_session, Book_query_get_or_404, session_delete_book,
    os_remove in E.
  crunch E. rewrite Hadmin in E. cbn in E. rewrite Hb in E. cbn in E.
  destruct (commit_plan w) as [|[|] plan] eqn:Hp; cbn in E;
    try (destruct (pdf_path b) as [[|c rest]|]; cbn in E;
         try (destruct (removable (String c rest)); cbn in E));
    injection E as <- <-; cbn; rewrite ?Hp; reflexivity.
Qed.

(** X16. [delete_book] on an existing book that no order row refers to
    ([Order.book_id] is a foreign key to [book.id]; the store lets a book
    go only then), the commit accepted: for an administrator the row is
    gone from the store, the other books and the orders are untouched, and
    the answer is 200 when there is no file or the file could be removed;
    for any other user the answer is 403 and the store is unchanged. *)
Theorem delete_book_removes_the_row
    (removable : string -> bool) (current_user : CurrentUser) (bid : Z)
    (b : Book) (w : World) :
  books (db w) !! bid = Some b ->
  (forall k o, orders (db w) !! k = Some o -> book_id o <> bid) ->
  commit_accepted w = true ->
  let run := delete_book removable current_user bid w in
  if cu_is_admin current_user
  then
    stock_of (snd run) bid = None /\
    (forall k, k <> bid -> books (db (snd run)) !! k = books (db w) !! k) /\
    orders (db (snd run)) = orders (db w) /\
    (match file_of b with Some path => removable path = true | None => True end ->
     fst run = Ok (jsonify [("message", JStr "Book deleted successfully")] 200))
  else
    fst run = Ok (jsonify [("message", JStr "Admin access required")] 403) /\
    db (snd run) = db w.
Proof.
  intros Hb _ Hc run. subst run.
  pose proof (delete_book_outcome removable current_user bid w) as H.
  cbn zeta in H. destruct H as (Ho & _ & _ & H).
  destruct (cu_is_admin current_user); cbn [negb] in H; [|exact H].
  rewrite Hb, Hc in H. destruct H as [Hbooks Hf].
  unfold stock_of. rewrite Hbooks. repeat split.
  - rewrite lookup_delete_eq. reflexivity.
  - intros k Hk. apply lookup_delete_ne. congruence.
  - exact Ho.
  - intros Hfile. rewrite Hf. destruct (file_of b); [rewrite Hfile|]; reflexivity.
Qed.

(** X17. When the file of the book cannot be removed, [delete_book]
    answers 500 "Error deleting book" although the row is deleted: the file
    is removed after the commit, and the rollback of the handler finds
    nothing to undo. *)
Theorem delete_book_error_after_commit
    (removable : string -> bool) (current_user : CurrentUser) (book_id : Z)
    (b : Book) (path : string) (w : World) :
  cu_is_admin current_user = true ->
  books (db w) !! book_id = Some b ->
  file_of b = Some path ->
  removable path = false ->
  commit_accepted w = true ->
  let run := delete_book removable current_user book_id w in
  (exists err, fst run = Ok (jsonify [("message", JStr "Error deleting book");
                                      ("error", JStr err)] 500)) /\
  books (db (snd run)) !! book_id = None.
Proof.
  intros Hadmin Hb Hfile Hrm Hc run. subst run.
  pose proof (delete_book_outcome removable current_user book_id w) as H.
  cbn zeta in H. destruct H as (_ & _ & _ & H).
  rewrite Hadmin, Hb, Hc, Hfile, Hrm in H. cbn [negb] in H.
  destruct H as [Hbooks Hf]. split; [eexists; exact Hf|].
  rewrite Hbooks. apply lookup_delete_eq.
Qed.


(** X18. After an administrator has deleted a book, a reservation with a
    line for that book is rejected: the order is CANCELLED and the Book
    table stays as the deletion left it. *)
Theorem order_for_deleted_book_is_cancelled
    (removable : string -> bool) (admin : CurrentUser) (book_id : Z) (b : Book)
    (w : World) (oid : Z) (o : Order) (its : list Item) :
  cu_is_admin admin = true ->
  books (db w) !! book_id = Some b ->
  orders (db w) !! oid = Some o ->
  book_id ∈ map item_book its ->
  accepts 2 w = true ->
  let deleted := snd (delete_book removable admin book_id w) in
  let run := update_inventory (mkMessage oid (items_json its)) deleted in
  status_of (snd run) oid = Some CANCELLED /\
  books (db (snd run)) = delete book_id (books (db w)).
Proof.
  intros Hadmin Hb Ho Hin Hacc deleted run. subst run deleted.
  assert (Hc : commit_accepted w = true).
  { unfold accepts in Hacc. unfold commit_accepted.
    destruct (commit_plan w) as [|[|] ?]; [reflexivity|reflexivity|discriminate]. }
  pose proof (delete_book_outcome removable admin book_id w) as H.
  cbn zeta in H. destruct H as (Hor & _ & _ & H).
  rewrite Hadmin, Hb, Hc in H. cbn [negb] in H. destruct H as [Hbooks _].
  set (w1 := snd (delete_book removable admin book_id w)) in *.
  assert (Ho1 : orders (db w1) !! oid = Some o) by (rewrite Hor; exact Ho).
  assert (Hex : Exists (unavailable (books (db w1))) its).
  { apply list_elem_of_fmap in Hin as (it & Hit & Hin).
    apply Exists_exists. exists it. split; [exact Hin|].
    unfold unavailable. rewrite Hbooks, <- Hit, lookup_delete_eq. exact I. }
  split.
  - apply (reservation_rejected_cancels w1 oid o its Ho1 Hex).
    unfold commit_accepted, w1.
    rewrite (delete_book_commits_once removable admin book_id b w Hadmin Hb).
    unfold accepts in Hacc.
    destruct (commit_plan w) as [|[|] [|[|] ?]]; try reflexivity; discriminate.
  - rewrite (reservation_rejected w1 oid o its Ho1 Hex). exact Hbooks.
Qed.

(** The administrator deletes book 2, which no order row refers to. *)
Lemma delete_book_removes_the_row_witness :
  let w := Scenario.at_rest Scenario.short_store in
  let run := delete_book (fun _ => true) Scenario.as_root 2 w in
  stock_of w 2 = Some 2 /\
  stock_of (snd run) 2 = None /\
  stock_of (snd run) 1 = Some 5 /\
  orders (db (snd run)) = orders (db w) /\
  fst run = Ok (jsonify [("message", JStr "Book deleted successfully")] 200).
Proof.
  pose proof (delete_book_removes_the_row (fun _ => true) Scenario.as_root 2
                (Scenario.book "B" 2) (Scenario.at_rest Scenario.short_store)
                eq_refl) as H.
  cbn zeta in H. change (cu_is_admin Scenario.as_root) with true in H.
  destruct H as (Hgone & Hrest & Hor & Hf).
  - intros k o Hk. cbn in Hk.
    apply lookup_insert_Some in Hk as [[_ <-]|[_ Hk]]; [discriminate|].
    rewrite lookup_empty in Hk. discriminate.
  - reflexivity.
  - split; [reflexivity|]. split; [exact Hgone|].
    split; [unfold stock_of; rewrite Hrest by discriminate; reflexivity|].
    split; [exact Hor|]. apply Hf. reflexivity.
Defined.

(** The same with a file that cannot be removed. *)
Lemma delete_book_error_after_commit_witness :
  let w := Scenario.at_rest Scenario.plain_store in
  let run := delete_book (fun _ => false) Scenario.as_root 3 w in
  code <$> (match fst run with Ok response => Some response | Raise _ => None end) =
    Some 500 /\
  books (db (snd run)) !! 3 = None.
Proof.
  destruct (delete_book_error_after_commit (fun _ => false) Scenario.as_root 3
              (Scenario.book "X" 10) "book.pdf" (Scenario.at_rest Scenario.plain_store)
              eq_refl eq_refl eq_refl eq_refl eq_refl) as ((err & Hf) & Hgone).
  split; [|exact Hgone]. cbn zeta. rewrite Hf. reflexivity.
Defined.

(** Order 1 asks for book 3 after its deletion. *)
Lemma order_for_deleted_book_is_cancelled_witness :
  let w := Scenario.at_rest Scenario.plain_store in
  let deleted := snd (delete_book (fun _ => true) Scenario.as_root 3 w) in
  let run := update_inventory (mkMessage 1 (items_json Scenario.plain_items)) deleted in
  status_of (snd run) 1 = Some CANCELLED.
Proof.
  destruct (order_for_deleted_book_is_cancelled (fun _ => true) Scenario.as_root 3
              (Scenario.book "X" 10) (Scenario.at_rest Scenario.plain_store) 1
              Scenario.plain_order Scenario.plain_items eq_refl eq_refl eq_refl)
    as (Hst & _).
  - vm_compute. left.
  - reflexivity.
  - exact Hst.
Defined.

(* ===================================================================== *)
(** * Further properties: the account routes *)
(* ===================================================================== *)

Section AccountRoutes.

Variable string_column : json -> option string.
Variable generate_password_hash : json -> result string.
Variable check_password : User -> json -> result bool.
Variable next_user_id : gmap Z User -> Z.
Variable first_by_username : gmap Z User -> json -> result (option (Z * User)).

(** [add_user] started on a clean session: the User table of the store
    stays or gets the one new row; the other tables stay. *)
Lemma add_user_outcome (data : json) (admin : bool) (failure success : string)
    (w : World) :
  sess w = db w ->
  let run := add_user string_column generate_password_hash next_user_id
               data admin failure success w in
  books (db (snd run)) = books (db w) /\
  orders (db (snd run)) = orders (db w) /\
  emitted (snd run) = emitted w /\
  (users (db (snd run)) = users (db w) \/
   exists name mail,
     users (db (snd run)) =
       <[next_user_id (users (db w)) := mkUser name mail admin]> (users (db w))).
Proof.
  intros Hs run. subst run.
  destruct (add_user _ _ _ data admin failure success w) as [r w'] eqn:E.
  cbn [fst snd]. unfold add_user in E. crunch E.
  destruct (getitem data "username") as [name|e]; cbn in E;
    [|injection E as <- <-; auto].
  destruct (getitem data "email") as [mail|e]; cbn in E;
    [|injection E as <- <-; auto].
  destruct (getitem data "password") as [password|e]; cbn in E;
    [|injection E as <- <-; auto].
  destruct (generate_password_hash password) as [hash|e]; cbn in E;
    [|injection E as <- <-; auto].
  destruct (string_column name) as [n|]; cbn in E;
    [|injection E as <- <-; cbn; auto].
  destruct (string_column mail) as [ml|]; cbn in E;
    [|injection E as <- <-; cbn; auto].
  destruct (commit_plan w) as [|[|] plan]; cbn in E;
    injection E as <- <-; cbn; rewrite ?Hs; repeat split; eauto.
Qed.

Lemma admin_exists_false (us : gmap Z User) (i : Z) (u : User) :
  admin_exists us = false -> us !! i = Some u -> is_admin u = false.
Proof.
  unfold admin_exists. intros Hno Hi.
  destruct (is_admin u) eqn:Hu; [|reflexivity].
  assert (Hex : existsb (fun p : Z * User => is_admin p.2) (map_to_list us) = true).
  { apply existsb_exists. exists (i, u). split; [|exact Hu].
    apply list_elem_of_In, elem_of_map_to_list. exact Hi. }
  congruence.
Qed.

(** [register] leaves the store or adds one row that is no administrator. *)
Lemma register_outcome (data : json) (w : World) :
  let run := register string_column generate_password_hash next_user_id data w in
  books (db (snd run)) = books (db w) /\
  orders (db (snd run)) = orders (db w) /\
  emitted (snd run) = emitted w /\
  (users (db (snd run)) = users (db w) \/
   exists name mail,
     users (db (snd run)) =
       <[next_user_id (users (db w)) := mkUser name mail false]> (users (db w))).
Proof.
  intros run. subst run.
  destruct (register _ _ _ data w) as [r w'] eqn:E. cbn [fst snd].
  unfold register, fresh_session in E. unfold bind at 1, lift at 1 in E.
  destruct (missing_fields _ data) as [[|]|e]; cbn -[add_user] in E;
    try (injection E as <- <-; cbn; auto; fail).
  pose proof (add_user_outcome data false "Error registering user"
                "User registered successfully" (set_sess (db w) w) eq_refl) as H.
  cbn zeta in H. rewrite E in H. exact H.
Qed.

(** [create_admin] leaves the store or, when no administrator exists, adds
    one row that is an administrator. *)
Lemma create_admin_outcome (data : json) (w : World) :
  let run := create_admin string_column generate_password_hash next_user_id data w in
  books (db (snd run)) = books (db w) /\
  orders (db (snd run)) = orders (db w) /\
  emitted (snd run) = emitted w /\
  (users (db (snd run)) = users (db w) \/
   admin_exists (users (db w)) = false /\
   exists name mail,
     users (db (snd run)) =
       <[next_user_id (users (db w)) := mkUser name mail true]> (users (db w))).
Proof.
  intros run. subst run.
  destruct (create_admin _ _ _ data w) as [r w'] eqn:E. cbn [fst snd].
  unfold create_admin, fresh_session in E. unfold bind at 1, lift at 1 in E.
  destruct (missing_fields _ data) as [[|]|e];
    unfold bind in E; cbn -[add_user admin_exists] in E;
    try (injection E as <- <-; cbn; auto; fail).
  destruct (admin_exists (users (db w))) eqn:Hnone; cbn -[add_user] in E;
    [injection E as <- <-; cbn; auto|].
  pose proof (add_user_outcome data true "Error creating admin account"
                "Admin account created successfully" (set_sess (db w) w) eq_refl) as H.
  cbn zeta in H. rewrite E in H. cbn [fst snd db set_sess emitted] in H.
  destruct H as (Hb & Ho & He & Hu). repeat split; try assumption.
  destruct Hu as [Hu|Hu]; auto.
Qed.

(** X19. [register] never makes an administrator: whatever the body, every
    administrator row in the store after the call was there before, and
    the Book and Order tables are unchanged. *)
Theorem register_creates_no_admin (data : json) (w : World) :
  let run := register string_column generate_password_hash next_user_id data w in
  books (db (snd run)) = books (db w) /\
  orders (db (snd run)) = orders (db w) /\
  (forall i u, users (db (snd run)) !! i = Some u -> is_admin u = true ->
               users (db w) !! i = Some u).
Proof.
  intros run. subst run.
  destruct (register_outcome data w) as (Hb & Ho & _ & Hu).
  repeat split; try assumption.
  intros i u Hi Hadmin. destruct Hu as [Hu|(name & mail & Hu)]; rewrite Hu in Hi.
  - exact Hi.
  - rewrite lookup_insert in Hi. case_decide; [|exact Hi].
    injection Hi as <-. discriminate.
Qed.

(** X20. When an administrator exists, [create_admin] changes neither the
    store nor the events, whatever the body; with the three fields present
    the answer is 400 "Admin account already exists". *)
Theorem create_admin_only_without_admin (data : json) (w : World) :
  admin_exists (users (db w)) = true ->
  let run := create_admin string_column generate_password_hash next_user_id data w in
  db (snd run) = db w /\
  emitted (snd run) = emitted w /\
  (missing_fields ["username"; "email"; "password"] data = Ok false ->
   fst run = Ok (jsonify [("message", JStr "Admin account already exists")] 400)).
Proof.
  intros Hadmin run. subst run.
  destruct (create_admin _ _ _ data w) as [r w'] eqn:E. cbn [fst snd].
  unfold create_admin, fresh_session in E. unfold bind at 1, lift at 1 in E.
  destruct (missing_fields _ data) as [[|]|e];
    unfold bind in E; cbn -[add_user admin_exists] in E.
  - injection E as <- <-. repeat split. discriminate.
  - rewrite Hadmin in E. cbn in E.
    injection E as <- <-. repeat split.
  - injection E as <- <-. repeat split. discriminate.
Qed.

(** X21. [register] and [create_admin] keep the User table with at most
    one administrator. *)
Theorem account_routes_keep_one_admin (data : json) (w : World) :
  one_admin_at_most (users (db w)) ->
  one_admin_at_most
    (users (db (snd (register string_column generate_password_hash next_user_id data w)))) /\
  one_admin_at_most
    (users (db (snd (create_admin string_column generate_password_hash next_user_id data w)))).
Proof.
  intros Hone. split.
  - destruct (register_outcome data w) as (_ & _ & _ & Hu).
    intros i j ui uj Hi Hai Hj Haj.
    destruct Hu as [Hu|(name & mail & Hu)]; rewrite Hu in Hi, Hj;
      [eapply Hone; eauto|].
    rewrite lookup_insert in Hi, Hj.
    destruct (decide (next_user_id (users (db w)) = i)) as [Hi'|Hni];
      [injection Hi as <-; discriminate|].
    destruct (decide (next_user_id (users (db w)) = j)) as [Hj'|Hnj];
      [injection Hj as <-; discriminate|].
    eapply Hone; eauto.
  - destruct (create_admin_outcome data w) as (_ & _ & _ & Hu).
    destruct Hu as [Hu|(Hnone & name & mail & Hu)]; rewrite Hu; [exact Hone|].
    intros i j ui uj Hi Hai Hj Haj.
    rewrite lookup_insert in Hi, Hj.
    destruct (decide (next_user_id (users (db w)) = i)) as [<-|Hni];
      destruct (decide (next_user_id (users (db w)) = j)) as [<-|Hnj];
      try reflexivity.
    + pose proof (admin_exists_false _ _ _ Hnone Hj). congruence.
    + pose proof (admin_exists_false _ _ _ Hnone Hi). congruence.
    + pose proof (admin_exists_false _ _ _ Hnone Hi). congruence.
Qed.

End AccountRoutes.

Section LoginRoute.

Variable check_password : User -> json -> result bool.
Variable first_by_username : gmap Z User -> json -> result (option (Z * User)).

(** A key is among the keys of a dict exactly when it can be read. *)
Lemma py_in_dict (k : string) (kv : list (string * json)) :
  py_in k (JObj kv) = Ok (bool_decide (is_Some (assoc k kv))).
Proof.
  cbn [py_in]. f_equal. induction kv as [|[k' v] kv IH]; [reflexivity|].
  cbn [existsb assoc fst]. destruct (String.eqb k k'); [reflexivity|exact IH].
Qed.

(** X22. [login] tests the body for 'email' and 'password' but reads
    'username': an object without 'email' (one with a username and a
    password included) is answered 400 "Missing required fields", an
    object with email and password and no username ends in a KeyError, and
    no call on an object writes to the store. *)
Theorem login_checks_email_reads_username
    (kv : list (string * json)) (w : World) :
  let run := login check_password first_by_username (JObj kv) w in
  snd run = set_sess (db w) w /\
  (assoc "email" kv = None ->
   fst run = Ok (jsonify [("message", JStr "Missing required fields")] 400, None)) /\
  (is_Some (assoc "email" kv) ->
   is_Some (assoc "password" kv) ->
   assoc "username" kv = None ->
   fst run = Raise KeyError).
Proof.
  intros run. subst run.
  destruct (login _ _ (JObj kv) w) as [r w'] eqn:E. cbn [fst snd].
  unfold login, fresh_session, missing_fields in E. cbn [some_key_missing] in E.
  rewrite !py_in_dict in E. unfold bind, lift, ret in E.
  destruct (truthy (JObj kv)) eqn:Ht; cbn [negb] in E.
  2: { destruct kv; [|discriminate]. cbn in E. injection E as <- <-.
       repeat split. intros [? H]. discriminate. }
  cbn [getitem] in E.
  destruct (assoc "email" kv) as [e|] eqn:He.
  - rewrite bool_decide_eq_true_2 in E by eauto.
    destruct (assoc "password" kv) as [p0|] eqn:Hp.
    + rewrite bool_decide_eq_true_2 in E by eauto.
      destruct (assoc "username" kv) as [n|] eqn:Hn.
      * cbn [sess set_sess] in E.
        destruct (first_by_username (users (db w)) n) as [[[uid u]|]|e1].
        -- destruct (check_password u p0) as [[|]|e2];
             injection E as <- <-; repeat split; try discriminate.
        -- injection E as <- <-; repeat split; try discriminate.
        -- injection E as <- <-; repeat split; try discriminate.
      * injection E as <- <-. repeat split. discriminate.
    + rewrite bool_decide_eq_false_2 in E by (intros [? ?]; discriminate).
      injection E as <- <-. repeat split; try discriminate.
      intros _ [? ?]. discriminate.
  - rewrite bool_decide_eq_false_2 in E by (intros [? ?]; discriminate).
    injection E as <- <-. repeat split.
    intros [? ?]. discriminate.
Qed.

End LoginRoute.

(** The shop has an administrator already. *)
Lemma create_admin_only_without_admin_witness :
  let w := Scenario.at_rest Scenario.shop in
  let run := create_admin Cases.text Cases.hash Cases.next_key Cases.credentials w in
  admin_exists (users (db w)) = true /\
  fst run = Ok (jsonify [("message", JStr "Admin account already exists")] 400) /\
  db (snd run) = db w.
Proof.
  destruct (create_admin_only_without_admin Cases.text Cases.hash Cases.next_key
              Cases.credentials (Scenario.at_rest Scenario.shop) eq_refl)
    as (Hdb & _ & Hf).
  split; [reflexivity|]. split; [apply Hf; reflexivity|exact Hdb].
Defined.

(** The first administrator of an empty store. *)
Lemma account_routes_keep_one_admin_witness :
  let w := Scenario.at_rest Cases.bare in
  users (db (snd (create_admin Cases.text Cases.hash Cases.next_key
                    Cases.credentials w))) !! 1 =
    Some (mkUser "carol" "carol@example.org" true) /\
  one_admin_at_most
    (users (db (snd (create_admin Cases.text Cases.hash Cases.next_key
                       Cases.credentials w)))).
Proof.
  destruct (account_routes_keep_one_admin Cases.text Cases.hash Cases.next_key
              Cases.credentials (Scenario.at_rest Cases.bare)) as [_ Hadmin].
  - intros i j ui uj Hi. cbn in Hi. rewrite lookup_empty in Hi. discriminate.
  - split; [reflexivity|exact Hadmin].
Defined.

(** A body without username, and one without email. *)
Lemma login_checks_email_reads_username_witness :
  let w := Scenario.at_rest Scenario.shop in
  fst (login Cases.any_password Cases.nobody
         (JObj [("email", JStr "alice@example.org"); ("password", JStr "secret")]) w) =
    Raise KeyError /\
  fst (login Cases.any_password Cases.nobody
         (JObj [("username", JStr "alice"); ("password", JStr "secret")]) w) =
    Ok (jsonify [("message", JStr "Missing required fields")] 400, None).
Proof.
  split.
  - destruct (login_checks_email_reads_username Cases.any_password Cases.nobody
                [("email", JStr "alice@example.org"); ("password", JStr "secret")]
                (Scenario.at_rest Scenario.shop)) as (_ & _ & Hkey).
    apply Hkey; [eexists; reflexivity|eexists; reflexivity|reflexivity].
  - destruct (login_checks_email_reads_username Cases.any_password Cases.nobody
                [("username", JStr "alice"); ("password", JStr "secret")]
                (Scenario.at_rest Scenario.shop)) as (_ & Hmiss & _).
    apply Hmiss. reflexivity.
Defined.

(* ===================================================================== *)
(** * Further properties: the summary route *)
(* ===================================================================== *)

(** X23. [get_book_summary] never answers: for a missing book it ends in
    the 404 of [get_or_404], and for an existing book the constructor of
    [BookProcessor] calls the configuration mapping, which raises a
    TypeError before [process_book] is reached. Nothing is written. *)
Theorem get_book_summary_always_fails
    (process_book : BookProcessor -> string -> M string) (book_id : Z) (w : World) :
  let run := get_book_summary process_book book_id w in
  fst run = Raise (match books (db w) !! book_id with
                   | Some _ => TypeError
                   | None => NotFound
                   end) /\
  snd run = set_sess (db w) w.
Proof.
  intros run. subst run.
  unfold get_book_summary, fresh_session, BookProcessor_init, call_config,
    Book_query_get_or_404, bind, raise. cbn.
  destruct (books (db w) !! book_id) eqn:Hb; cbn; rewrite ?Hb; cbn;
    split; reflexivity.
Qed.
